(** * esgfpid: the asynchronous RabbitMQ connection builder

    A shallow embedding of [esgfpid/rabbit/asynchronous/thread_builder.py]
    (class [ConnectionBuilder]) and of [esgfpid/defaults.py].

    The builder is callback driven.  Every method of the class becomes a
    computation in a small monad that threads the builder (with the objects
    it shares: rabbit thread, state machine, node manager), records the
    calls made on the transport and on the collaborators as a list of
    effects, and may raise a Python exception.

    Logging calls, and the time stamps that are only printed by them, are
    left out. *)

From Stdlib Require Import ZArith List String Bool Lia.
From stdpp Require Import base gmap strings list.
Import ListNotations.

Local Open Scope Z_scope.
Local Open Scope string_scope.
Local Open Scope list_scope.

(* ===================================================================== *)
(** ** The module [esgfpid.defaults] *)
(* ===================================================================== *)

Module Defaults.

(** Values bound by the assignments of [defaults.py]. *)
Inductive PyVal :=
| PyBool (b : bool)
| PyInt (n : Z)
| PyFloat (numerator : Z) (denominator : positive)
| PyStr (s : string)
| PyList (items : list string).

Definition ROUTING_KEY_BASIS : string := "cmip6.publisher.HASH.".
Definition _persistent : Z := 2.
Definition _nonpersistent : Z := 1.

(** The assignments of [defaults.py], top to bottom. *)
Definition assignments : list (string * PyVal) :=
  [ ("ACCEPTED_PREFIXES", PyList ["21.14100"; "21.14foo"]);
    ("LOG_INFO_TO_DEBUG", PyBool false);
    ("LOG_DEBUG_TO_INFO", PyBool false);
    ("LOG_TRACE_TO_DEBUG", PyBool false);
    ("LOG_SHOW_TO_INFO", PyBool false);
    ("SOLR_HTTPS_VERIFY_DEFAULT", PyBool false);
    ("SOLR_QUERY_DISTRIB", PyBool false);
    ("RABBIT_IS_ASYNCHRONOUS", PyBool true);
    ("ROUTING_KEY_BASIS", PyStr ROUTING_KEY_BASIS);
    ("RABBIT_DEFAULT_ROUTING_KEY", PyStr (ROUTING_KEY_BASIS +:+ "fallback"));
    ("RABBIT_EMERGENCY_ROUTING_KEY", PyStr (ROUTING_KEY_BASIS +:+ "emergency"));
    ("_persistent", PyInt _persistent);
    ("_nonpersistent", PyInt _nonpersistent);
    ("RABBIT_DELIVERY_MODE", PyInt _persistent);
    ("RABBIT_MANDATORY_DELIVERY", PyBool true);
    ("RABBIT_FALLBACK_EXCHANGE_NAME", PyStr "FALLBACK");
    ("RABBIT_SYN_SOCKET_TIMEOUT", PyInt 2);
    ("RABBIT_SYN_CONNECTION_ATTEMPTS", PyInt 3);
    ("RABBIT_SYN_CONNECTION_RETRY_DELAY_SECONDS", PyInt 1);
    ("RABBIT_SYN_MAX_TRIES", PyInt 3);
    ("RABBIT_SYN_TIMEOUT_MILLISEC", PyInt 10);
    ("RABBIT_ASYN_RECONNECTION_SECONDS", PyInt 5);
    ("RABBIT_ASYN_RECONNECTION_MAX_TRIES", PyInt 60);
    ("RABBIT_ASYN_SOCKET_TIMEOUT", PyInt 2);
    ("RABBIT_ASYN_CONNECTION_ATTEMPTS", PyInt 1);
    ("RABBIT_ASYN_CONNECTION_RETRY_DELAY_SECONDS", PyInt 1);
    ("RABBIT_ASYN_FINISH_MAX_TRIES", PyInt 10);
    ("RABBIT_ASYN_FINISH_WAIT_SECONDS", PyFloat 1 2);
    ("RABBIT_LOG_MESSAGE_INCREMENT", PyInt 10) ].

(** Executing the module body: each assignment binds (or rebinds) its
    name in the module's namespace. *)
Definition exec_module (body : list (string * PyVal)) : gmap string PyVal :=
  fold_left (fun ns kv => <[kv.1 := kv.2]> ns) body ∅.

(** The namespace of the imported module, [import esgfpid.defaults as defaults]. *)
Definition defaults : gmap string PyVal := exec_module assignments.

End Defaults.

(* ===================================================================== *)
(** ** Collaborators of the builder *)
(* ===================================================================== *)

(** Modelled from the spec: the state machine class (module
    [esgfpid.rabbit.asynchronous.statemachine] is not part of the sources at
    hand).  Section 3 gives its six states and its detail flags, section 4.2
    says that its operations are transitions only, that none of them may
    fail, and that no transition leaves [PERMANENTLY_UNAVAILABLE] or
    [FORCE_FINISHED]: an operation asked for in one of these two states leaves
    the state machine as it is.  The operation names are those the builder
    calls. *)
Module StateMachine.

Inductive LifecycleState :=
| INITIALIZING
| WAITING_TO_BE_AVAILABLE
| AVAILABLE
| AVAILABLE_BUT_WANTS_TO_STOP
| PERMANENTLY_UNAVAILABLE
| FORCE_FINISHED.

Record t := Build {
  state : LifecycleState;
  detail_closed_by_publisher : bool;
  detail_could_not_connect : bool;
  detail_authentication_exception : bool
}.

(** The two states section 4.2 calls terminal. *)
Definition terminal (s : LifecycleState) : bool :=
  match s with
  | PERMANENTLY_UNAVAILABLE | FORCE_FINISHED => true
  | _ => false
  end.

Definition set_state (s : LifecycleState) (sm : t) : t :=
  if terminal (state sm) then sm
  else
    {| state := s;
       detail_closed_by_publisher := detail_closed_by_publisher sm;
       detail_could_not_connect := detail_could_not_connect sm;
       detail_authentication_exception := detail_authentication_exception sm |}.

Definition set_to_waiting_to_be_available : t -> t := set_state WAITING_TO_BE_AVAILABLE.
Definition set_to_available : t -> t := set_state AVAILABLE.
Definition set_to_permanently_unavailable : t -> t := set_state PERMANENTLY_UNAVAILABLE.

Definition set_detail_could_not_connect (v : bool) (sm : t) : t :=
  {| state := state sm;
     detail_closed_by_publisher := detail_closed_by_publisher sm;
     detail_could_not_connect := v;
     detail_authentication_exception := detail_authentication_exception sm |}.

Definition set_detail_authentication_exception (v : bool) (sm : t) : t :=
  {| state := state sm;
     detail_closed_by_publisher := detail_closed_by_publisher sm;
     detail_could_not_connect := detail_could_not_connect sm;
     detail_authentication_exception := v |}.

Definition is_WAITING_TO_BE_AVAILABLE (sm : t) : bool :=
  match state sm with WAITING_TO_BE_AVAILABLE => true | _ => false end.
Definition is_AVAILABLE_BUT_WANTS_TO_STOP (sm : t) : bool :=
  match state sm with AVAILABLE_BUT_WANTS_TO_STOP => true | _ => false end.
Definition is_PERMANENTLY_UNAVAILABLE (sm : t) : bool :=
  match state sm with PERMANENTLY_UNAVAILABLE => true | _ => false end.
Definition is_FORCE_FINISHED (sm : t) : bool :=
  match state sm with FORCE_FINISHED => true | _ => false end.

Definition get_detail_closed_by_publisher (sm : t) : bool :=
  detail_closed_by_publisher sm.

End StateMachine.

Export StateMachine (LifecycleState(..)).

(** Modelled from the spec: the node manager (module
    [esgfpid.rabbit.nodemanager] is not part of the sources at hand).
    Section 4.1 describes it as an ordered list of endpoints with a cursor:
    [current()], [has_more_untried_in_cycle()], [advance()] and
    [reset_cycle()], without I/O and without failure modes.  The list is
    kept as a first endpoint and the others, so that there always is a
    current endpoint. *)
Module NodeManager.

Record Endpoint := {
  host : string;
  credentials : string;
  socket_timeout : Z
}.

Record t := Build {
  first_node : Endpoint;
  other_nodes : list Endpoint;
  cursor : nat
}.

Definition nodes (nm : t) : list Endpoint := first_node nm :: other_nodes nm.

Definition get_connection_parameters (nm : t) : Endpoint :=
  nth (cursor nm) (nodes nm) (first_node nm).

Definition get_num_left_urls (nm : t) : nat :=
  (length (nodes nm) - S (cursor nm))%nat.

Definition has_more_urls (nm : t) : bool :=
  (0 <? get_num_left_urls nm)%nat.

Definition set_next_host (nm : t) : t :=
  if has_more_urls nm
  then {| first_node := first_node nm; other_nodes := other_nodes nm;
          cursor := S (cursor nm) |}
  else nm.

Definition reset_nodes (nm : t) : t :=
  {| first_node := first_node nm; other_nodes := other_nodes nm; cursor := 0 |}.

End NodeManager.

(** A message: its body and its routing key. *)
Record Message := {
  body : string;
  routing_key : string
}.

(** Transport objects are told apart by the order of their creation. *)
Definition Connection := nat.
Definition Channel := nat.

(** Modelled from the spec: the rabbit thread with its feeder and confirmer
    (module [esgfpid.rabbit.asynchronous.rabbitthread] is not part of the
    sources at hand).  Section 3 gives the pending messages as a FIFO
    sequence, the messages in flight by delivery sequence number and the
    exchange selector; section 4.4 gives the four operations of the rescue
    protocol; the first delivery number of a channel is 1 (section 8).
    The four [ERROR_] constants are attributes the builder reads. *)
Module RabbitThread.

Record t := Build {
  _connection : option Connection;
  _channel : option Channel;
  exchange_name : string;
  unpublished : list Message;
  unconfirmed : list (Z * Message);
  delivery_number : Z;
  ERROR_CODE_CONNECTION_CLOSED_BY_USER : Z;
  ERROR_TEXT_CONNECTION_FORCE_CLOSED : string;
  ERROR_TEXT_CONNECTION_NORMAL_SHUTDOWN : string;
  ERROR_TEXT_CONNECTION_PERMANENT_ERROR : string
}.

Definition with_connection (c : option Connection) (th : t) : t :=
  {| _connection := c; _channel := _channel th;
     exchange_name := exchange_name th; unpublished := unpublished th;
     unconfirmed := unconfirmed th; delivery_number := delivery_number th;
     ERROR_CODE_CONNECTION_CLOSED_BY_USER := ERROR_CODE_CONNECTION_CLOSED_BY_USER th;
     ERROR_TEXT_CONNECTION_FORCE_CLOSED := ERROR_TEXT_CONNECTION_FORCE_CLOSED th;
     ERROR_TEXT_CONNECTION_NORMAL_SHUTDOWN := ERROR_TEXT_CONNECTION_NORMAL_SHUTDOWN th;
     ERROR_TEXT_CONNECTION_PERMANENT_ERROR := ERROR_TEXT_CONNECTION_PERMANENT_ERROR th |}.

Definition with_channel (c : option Channel) (th : t) : t :=
  {| _connection := _connection th; _channel := c;
     exchange_name := exchange_name th; unpublished := unpublished th;
     unconfirmed := unconfirmed th; delivery_number := delivery_number th;
     ERROR_CODE_CONNECTION_CLOSED_BY_USER := ERROR_CODE_CONNECTION_CLOSED_BY_USER th;
     ERROR_TEXT_CONNECTION_FORCE_CLOSED := ERROR_TEXT_CONNECTION_FORCE_CLOSED th;
     ERROR_TEXT_CONNECTION_NORMAL_SHUTDOWN := ERROR_TEXT_CONNECTION_NORMAL_SHUTDOWN th;
     ERROR_TEXT_CONNECTION_PERMANENT_ERROR := ERROR_TEXT_CONNECTION_PERMANENT_ERROR th |}.

Definition set_exchange_name (name : string) (th : t) : t :=
  {| _connection := _connection th; _channel := _channel th;
     exchange_name := name; unpublished := unpublished th;
     unconfirmed := unconfirmed th; delivery_number := delivery_number th;
     ERROR_CODE_CONNECTION_CLOSED_BY_USER := ERROR_CODE_CONNECTION_CLOSED_BY_USER th;
     ERROR_TEXT_CONNECTION_FORCE_CLOSED := ERROR_TEXT_CONNECTION_FORCE_CLOSED th;
     ERROR_TEXT_CONNECTION_NORMAL_SHUTDOWN := ERROR_TEXT_CONNECTION_NORMAL_SHUTDOWN th;
     ERROR_TEXT_CONNECTION_PERMANENT_ERROR := ERROR_TEXT_CONNECTION_PERMANENT_ERROR th |}.

Definition initial_delivery_number : Z := 1.

(** (d) of section 4.4. *)
Definition reset_delivery_number (th : t) : t :=
  {| _connection := _connection th; _channel := _channel th;
     exchange_name := exchange_name th; unpublished := unpublished th;
     unconfirmed := unconfirmed th; delivery_number := initial_delivery_number;
     ERROR_CODE_CONNECTION_CLOSED_BY_USER := ERROR_CODE_CONNECTION_CLOSED_BY_USER th;
     ERROR_TEXT_CONNECTION_FORCE_CLOSED := ERROR_TEXT_CONNECTION_FORCE_CLOSED th;
     ERROR_TEXT_CONNECTION_NORMAL_SHUTDOWN := ERROR_TEXT_CONNECTION_NORMAL_SHUTDOWN th;
     ERROR_TEXT_CONNECTION_PERMANENT_ERROR := ERROR_TEXT_CONNECTION_PERMANENT_ERROR th |}.

(** (a) of section 4.4: the messages in flight, in submission order. *)
Definition get_unconfirmed_messages_as_list_copy_during_lifetime (th : t) : list Message :=
  map snd (unconfirmed th).

(** (c) of section 4.4: back onto the pending messages, ahead of what is
    waiting there. *)
Definition send_many_messages (messages : list Message) (th : t) : t :=
  {| _connection := _connection th; _channel := _channel th;
     exchange_name := exchange_name th;
     unpublished := messages ++ unpublished th;
     unconfirmed := unconfirmed th; delivery_number := delivery_number th;
     ERROR_CODE_CONNECTION_CLOSED_BY_USER := ERROR_CODE_CONNECTION_CLOSED_BY_USER th;
     ERROR_TEXT_CONNECTION_FORCE_CLOSED := ERROR_TEXT_CONNECTION_FORCE_CLOSED th;
     ERROR_TEXT_CONNECTION_NORMAL_SHUTDOWN := ERROR_TEXT_CONNECTION_NORMAL_SHUTDOWN th;
     ERROR_TEXT_CONNECTION_PERMANENT_ERROR := ERROR_TEXT_CONNECTION_PERMANENT_ERROR th |}.

(** (b) of section 4.4. *)
Definition reset_unconfirmed_messages_and_delivery_tags (th : t) : t :=
  {| _connection := _connection th; _channel := _channel th;
     exchange_name := exchange_name th; unpublished := unpublished th;
     unconfirmed := []; delivery_number := delivery_number th;
     ERROR_CODE_CONNECTION_CLOSED_BY_USER := ERROR_CODE_CONNECTION_CLOSED_BY_USER th;
     ERROR_TEXT_CONNECTION_FORCE_CLOSED := ERROR_TEXT_CONNECTION_FORCE_CLOSED th;
     ERROR_TEXT_CONNECTION_NORMAL_SHUTDOWN := ERROR_TEXT_CONNECTION_NORMAL_SHUTDOWN th;
     ERROR_TEXT_CONNECTION_PERMANENT_ERROR := ERROR_TEXT_CONNECTION_PERMANENT_ERROR th |}.

Definition get_num_unpublished (th : t) : nat := length (unpublished th).

End RabbitThread.

(* ===================================================================== *)
(** ** Effects, exceptions and the builder monad *)
(* ===================================================================== *)

(** Calls the builder makes on pika's objects and on its collaborators, in
    the order they are made.  What pika, the shutter or the publisher do in
    answer is not part of a call; the calls on the rabbit thread that change
    its queues are also applied to the thread of the builder, and the
    operations of the state machine are applied to the shared state machine
    without being recorded. *)
Inductive Effect :=
| SelectConnection (params : NodeManager.Endpoint) (new : Connection)
| Connection_channel (c : Connection)
| Connection_close (c : Connection)
| Connection_add_timeout (c : Connection) (seconds : Z)
| Ioloop_start (c : Connection)
| Ioloop_stop (c : Connection)
| Channel_add_on_close_callback (ch : Channel)
| Channel_add_on_return_callback (ch : Channel)
| Channel_confirm_delivery (ch : Channel)
| Thread_tell_publisher_to_stop_waiting_for_thread_to_accept_events
| Thread_continue_gently_closing_if_applicable
| Thread_unblock_events
| Thread_add_event_publish_message
| Thread_set_exchange_name (name : string)
| Thread_reset_delivery_number
| Thread_get_unconfirmed_messages_as_list_copy_during_lifetime
| Thread_send_many_messages (messages : list Message)
| Thread_reset_unconfirmed_messages_and_delivery_tags
| Shutter_safety_finish (msg : string).

(** The two texts of the fatal error: the hosts tried so far, and either
    the force-finish or the number of tries. *)
Inductive ErrorMessage :=
| Gave_up_on_force_finish (tried : gset string)
| Gave_up_after_tries (tried : gset string) (tries : Z).

Inductive Exception :=
| AttributeError (name : string)
| TypeError (what : string)
| ProbableAuthenticationError
| PIDServerException (errormsg : ErrorMessage)
| OtherException (class_name message : string).

(** What the call [ioloop.start()] inside the [try] of
    [__start_waiting_for_events] does: it runs the loop, or an exception
    comes out of it. *)
Inductive IoloopRun :=
| Ioloop_runs
| Ioloop_raises (e : Exception).

(** The attributes of a [ConnectionBuilder] while its methods run, the
    objects it shares with the other modules, and the number of transport
    objects created so far.  The maximum of tries and the seconds to wait are
    integers and the fallback name is a string, as [defaults.py] binds such
    settings. *)
Record ConnectionBuilder := {
  thread : RabbitThread.t;
  statemachine : StateMachine.t;
  confirmer : nat;
  returnhandler : nat;
  shutter : nat;
  __node_manager : NodeManager.t;
  __reconnect_counter : Z;
  __max_reconnection_tries : Z;
  __wait_seconds_before_reconnect : Z;
  __all_hosts_that_were_tried : gset string;
  __fallback_exchange_name : string;
  objects_created : nat
}.

Definition with_thread (f : RabbitThread.t -> RabbitThread.t) (b : ConnectionBuilder)
  : ConnectionBuilder :=
  {| thread := f (thread b); statemachine := statemachine b;
     confirmer := confirmer b; returnhandler := returnhandler b; shutter := shutter b;
     __node_manager := __node_manager b;
     __reconnect_counter := __reconnect_counter b;
     __max_reconnection_tries := __max_reconnection_tries b;
     __wait_seconds_before_reconnect := __wait_seconds_before_reconnect b;
     __all_hosts_that_were_tried := __all_hosts_that_were_tried b;
     __fallback_exchange_name := __fallback_exchange_name b;
     objects_created := objects_created b |}.

Definition with_statemachine (f : StateMachine.t -> StateMachine.t) (b : ConnectionBuilder)
  : ConnectionBuilder :=
  {| thread := thread b; statemachine := f (statemachine b);
     confirmer := confirmer b; returnhandler := returnhandler b; shutter := shutter b;
     __node_manager := __node_manager b;
     __reconnect_counter := __reconnect_counter b;
     __max_reconnection_tries := __max_reconnection_tries b;
     __wait_seconds_before_reconnect := __wait_seconds_before_reconnect b;
     __all_hosts_that_were_tried := __all_hosts_that_were_tried b;
     __fallback_exchange_name := __fallback_exchange_name b;
     objects_created := objects_created b |}.

Definition with_node_manager (f : NodeManager.t -> NodeManager.t) (b : ConnectionBuilder)
  : ConnectionBuilder :=
  {| thread := thread b; statemachine := statemachine b;
     confirmer := confirmer b; returnhandler := returnhandler b; shutter := shutter b;
     __node_manager := f (__node_manager b);
     __reconnect_counter := __reconnect_counter b;
     __max_reconnection_tries := __max_reconnection_tries b;
     __wait_seconds_before_reconnect := __wait_seconds_before_reconnect b;
     __all_hosts_that_were_tried := __all_hosts_that_were_tried b;
     __fallback_exchange_name := __fallback_exchange_name b;
     objects_created := objects_created b |}.

Definition with_reconnect_counter (n : Z) (b : ConnectionBuilder) : ConnectionBuilder :=
  {| thread := thread b; statemachine := statemachine b;
     confirmer := confirmer b; returnhandler := returnhandler b; shutter := shutter b;
     __node_manager := __node_manager b;
     __reconnect_counter := n;
     __max_reconnection_tries := __max_reconnection_tries b;
     __wait_seconds_before_reconnect := __wait_seconds_before_reconnect b;
     __all_hosts_that_were_tried := __all_hosts_that_were_tried b;
     __fallback_exchange_name := __fallback_exchange_name b;
     objects_created := objects_created b |}.

Definition with_host_tried (h : string) (b : ConnectionBuilder) : ConnectionBuilder :=
  {| thread := thread b; statemachine := statemachine b;
     confirmer := confirmer b; returnhandler := returnhandler b; shutter := shutter b;
     __node_manager := __node_manager b;
     __reconnect_counter := __reconnect_counter b;
     __max_reconnection_tries := __max_reconnection_tries b;
     __wait_seconds_before_reconnect := __wait_seconds_before_reconnect b;
     __all_hosts_that_were_tried := {[ h ]} ∪ __all_hosts_that_were_tried b;
     __fallback_exchange_name := __fallback_exchange_name b;
     objects_created := objects_created b |}.

Definition with_object_created (b : ConnectionBuilder) : ConnectionBuilder :=
  {| thread := thread b; statemachine := statemachine b;
     confirmer := confirmer b; returnhandler := returnhandler b; shutter := shutter b;
     __node_manager := __node_manager b;
     __reconnect_counter := __reconnect_counter b;
     __max_reconnection_tries := __max_reconnection_tries b;
     __wait_seconds_before_reconnect := __wait_seconds_before_reconnect b;
     __all_hosts_that_were_tried := __all_hosts_that_were_tried b;
     __fallback_exchange_name := __fallback_exchange_name b;
     objects_created := S (objects_created b) |}.

(** A method body: from the builder before the call to the effects it
    caused, the builder after it, and the exception raised or the value
    returned. *)
Definition M (A : Type) : Type :=
  ConnectionBuilder -> list Effect * ConnectionBuilder * (Exception + A).

Definition ret {A} (a : A) : M A := fun b => ([], b, inr a).

Definition bind {A B} (m : M A) (k : A -> M B) : M B :=
  fun b =>
    match m b with
    | (es, b1, inl e) => (es, b1, inl e)
    | (es, b1, inr a) =>
        match k a b1 with
        | (es', b2, r) => (es ++ es', b2, r)
        end
    end.

Definition raise {A} (e : Exception) : M A := fun b => ([], b, inl e).
Definition emit (e : Effect) : M unit := fun b => ([e], b, inr tt).
Definition get : M ConnectionBuilder := fun b => ([], b, inr b).
Definition modify (f : ConnectionBuilder -> ConnectionBuilder) : M unit :=
  fun b => ([], f b, inr tt).

Declare Scope py_scope.
Delimit Scope py_scope with py.
Notation "x <- m ;; k" := (bind m (fun x => k))
  (at level 100, m at next level, right associativity) : py_scope.
Notation "m ;; k" := (bind m (fun _ => k))
  (at level 100, right associativity) : py_scope.
Local Open Scope py_scope.

(** The three parts of what a call, or a run of calls, leaves behind. *)
Definition effects {X} (r : list Effect * ConnectionBuilder * X) : list Effect := r.1.1.
Definition after {X} (r : list Effect * ConnectionBuilder * X) : ConnectionBuilder := r.1.2.
Definition outcome {X} (r : list Effect * ConnectionBuilder * X) : X := r.2.

(** [self.thread._connection.<method>]: an attribute of [None] cannot be
    read. *)
Definition the_connection : M Connection :=
  b <- get ;;
  match RabbitThread._connection (thread b) with
  | Some c => ret c
  | None => raise (AttributeError "'NoneType' object")
  end.

(** Python's [needle in text] on strings. *)
Fixpoint contains (needle text : string) : bool :=
  String.prefix needle text ||
  match text with
  | EmptyString => false
  | String _ rest => contains needle rest
  end.

(* ===================================================================== *)
(** ** class ConnectionBuilder *)
(* ===================================================================== *)

(** [defaults.NAME]: reading a name the module does not bind raises
    [AttributeError]. *)
Definition getattr (module : gmap string Defaults.PyVal) (name : string)
  : Exception + Defaults.PyVal :=
  match module !! name with
  | Some v => inr v
  | None => inl (AttributeError name)
  end.

Definition and_then {A B} (r : Exception + A) (k : A -> Exception + B) : Exception + B :=
  match r with
  | inl e => inl e
  | inr a => k a
  end.

(** The object [__init__] leaves behind.  Its attributes hold the arguments
    and what the module [defaults] binds to the three names, of whatever type
    these values are: the constructor does not look at them.
    [__start_connect_time], set to [None] and read for logging only, is left
    out. *)
Module Constructed.

Record t := Build {
  thread : RabbitThread.t;
  statemachine : StateMachine.t;
  confirmer : nat;
  returnhandler : nat;
  shutter : nat;
  __node_manager : NodeManager.t;
  __reconnect_counter : Z;
  __max_reconnection_tries : Defaults.PyVal;
  __wait_seconds_before_reconnect : Defaults.PyVal;
  __all_hosts_that_were_tried : gset string;
  __fallback_exchange_name : Defaults.PyVal
}.

End Constructed.

(** [ConnectionBuilder.__init__], for the module [defaults] it finds at
    import time.  The attributes are assigned top to bottom; the first name
    that cannot be read ends the construction. *)
Definition __init__ (defaults : gmap string Defaults.PyVal)
    (thread : RabbitThread.t) (statemachine : StateMachine.t)
    (confirmer returnhandler shutter : nat) (nodemanager : NodeManager.t)
  : Exception + Constructed.t :=
  and_then (getattr defaults "RABBIT_RECONNECTION_MAX_TRIES") (fun max_tries =>
  and_then (getattr defaults "RABBIT_RECONNECTION_SECONDS") (fun seconds =>
  and_then (getattr defaults "RABBIT_FALLBACK_EXCHANGE_NAME") (fun fallback =>
  inr {| Constructed.thread := thread;
         Constructed.statemachine := statemachine;
         Constructed.confirmer := confirmer;
         Constructed.returnhandler := returnhandler;
         Constructed.shutter := shutter;
         Constructed.__node_manager := nodemanager;
         Constructed.__reconnect_counter := 0;
         Constructed.__max_reconnection_tries := max_tries;
         Constructed.__wait_seconds_before_reconnect := seconds;
         Constructed.__all_hosts_that_were_tried := ∅;
         Constructed.__fallback_exchange_name := fallback |}))).

Definition set_to_waiting_to_be_available : M unit :=
  modify (with_statemachine StateMachine.set_to_waiting_to_be_available).
Definition set_to_available : M unit :=
  modify (with_statemachine StateMachine.set_to_available).
Definition set_to_permanently_unavailable : M unit :=
  modify (with_statemachine StateMachine.set_to_permanently_unavailable).

Definition __wait_and_trigger_reconnection (connection : Connection) (wait_seconds : Z)
  : M unit :=
  b <- get ;;
  if StateMachine.is_FORCE_FINISHED (statemachine b) then
    raise (PIDServerException (Gave_up_on_force_finish (__all_hosts_that_were_tried b)))
  else
    set_to_waiting_to_be_available ;;
    emit (Connection_add_timeout connection wait_seconds).

Definition on_connection_error (connection : Connection) (msg : string) : M unit :=
  b <- get ;;
  if StateMachine.is_FORCE_FINISHED (statemachine b) then
    raise (PIDServerException (Gave_up_on_force_finish (__all_hosts_that_were_tried b)))
  else if NodeManager.has_more_urls (__node_manager b) then
    modify (with_node_manager NodeManager.set_next_host) ;;
    __wait_and_trigger_reconnection connection 0
  else
    modify (with_reconnect_counter (__reconnect_counter b + 1)) ;;
    b <- get ;;
    if (__reconnect_counter b <=? __max_reconnection_tries b)%Z then
      modify (with_node_manager NodeManager.reset_nodes) ;;
      __wait_and_trigger_reconnection connection (__wait_seconds_before_reconnect b)
    else
      set_to_permanently_unavailable ;;
      modify (with_statemachine (StateMachine.set_detail_could_not_connect true)) ;;
      raise (PIDServerException
               (Gave_up_after_tries (__all_hosts_that_were_tried b)
                                    (__max_reconnection_tries b))).

(** [e.__class__.__name__] and [e.message], which only go into the text
    that is logged. *)
Definition exception_class_name (e : Exception) : string :=
  match e with
  | AttributeError _ => "AttributeError"
  | TypeError _ => "TypeError"
  | ProbableAuthenticationError => "ProbableAuthenticationError"
  | PIDServerException _ => "PIDServerException"
  | OtherException class_name _ => class_name
  end.

Definition exception_message (e : Exception) : string :=
  match e with
  | AttributeError name => name
  | TypeError what => what
  | ProbableAuthenticationError => ""
  | PIDServerException _ => "Permanently failed to connect to RabbitMQ."
  | OtherException _ message => message
  end.

Definition unexpected_error_name (e : Exception) : string :=
  "Unexpected error (" +:+ exception_class_name e +:+ ": " +:+ exception_message e +:+ ")".

(** The parameter says how the first [ioloop.start()] ends; the callbacks
    that pika runs while the loop is blocking are the other methods of the
    class.  The [ioloop.start()] of the two [except] branches is recorded
    as a call only. *)
Definition __start_waiting_for_events (run : IoloopRun) : M unit :=
  b <- get ;;
  match RabbitThread._connection (thread b) with
  | Some c =>
      emit Thread_tell_publisher_to_stop_waiting_for_thread_to_accept_events ;;
      emit Thread_continue_gently_closing_if_applicable ;;
      emit (Ioloop_start c) ;;
      match run with
      | Ioloop_runs => ret tt
      | Ioloop_raises ProbableAuthenticationError =>
          set_to_waiting_to_be_available ;;
          modify (with_statemachine (StateMachine.set_detail_authentication_exception true)) ;;
          c <- the_connection ;;
          on_connection_error c "ProbableAuthenticationError issued by pika" ;;
          c <- the_connection ;;
          emit (Ioloop_start c)
      | Ioloop_raises e =>
          set_to_waiting_to_be_available ;;
          c <- the_connection ;;
          on_connection_error c (unexpected_error_name e) ;;
          c <- the_connection ;;
          emit (Ioloop_start c)
      end
  | None => ret tt
  end.

Definition __please_open_connection : M unit :=
  b <- get ;;
  let params := NodeManager.get_connection_parameters (__node_manager b) in
  modify (with_host_tried (NodeManager.host params)) ;;
  let new := objects_created b in
  modify with_object_created ;;
  emit (SelectConnection params new) ;;
  modify (with_thread (RabbitThread.with_connection (Some new))).

Definition __trigger_connection_to_rabbit_etc : M unit :=
  set_to_waiting_to_be_available ;;
  __please_open_connection.

Definition first_connection (run : IoloopRun) : M unit :=
  __trigger_connection_to_rabbit_etc ;;
  __start_waiting_for_events run.

Definition __please_open_rabbit_channel : M unit :=
  c <- the_connection ;;
  emit (Connection_channel c).

Definition on_connection_open (unused_connection : Connection) : M unit :=
  emit Thread_tell_publisher_to_stop_waiting_for_thread_to_accept_events ;;
  __please_open_rabbit_channel.

Definition the_channel : M Channel :=
  b <- get ;;
  match RabbitThread._channel (thread b) with
  | Some ch => ret ch
  | None => raise (AttributeError "'NoneType' object")
  end.

Definition __add_on_channel_close_callback : M unit :=
  ch <- the_channel ;;
  emit (Channel_add_on_close_callback ch).

Definition __add_on_return_callback : M unit :=
  ch <- the_channel ;;
  emit (Channel_add_on_return_callback ch).

Definition __make_channel_confirm_delivery : M unit :=
  ch <- the_channel ;;
  emit (Channel_confirm_delivery ch).

Fixpoint emit_times (n : nat) (e : Effect) : M unit :=
  match n with
  | O => ret tt
  | S n' => emit e ;; emit_times n' e
  end.

(** [int(num*1.1)], which is the integer part of [11*num/10]. *)
Definition int_times_1_1 (num : nat) : nat := (num * 11 / 10)%nat.

Definition __check_for_already_arrived_messages_and_publish_them : M unit :=
  b <- get ;;
  let num := RabbitThread.get_num_unpublished (thread b) in
  if (0 <? num)%nat then
    emit_times (int_times_1_1 num) Thread_add_event_publish_message
  else ret tt.

Definition when (c : bool) (m : M unit) : M unit := if c then m else ret tt.

Definition is_None {A} (o : option A) : bool :=
  match o with
  | None => true
  | Some _ => false
  end.

Definition __make_ready_for_publishing : M unit :=
  b <- get ;;
  when (is_None (RabbitThread._channel (thread b))) set_to_permanently_unavailable ;;
  when (is_None (RabbitThread._connection (thread b))) set_to_permanently_unavailable ;;
  b <- get ;;
  if StateMachine.is_WAITING_TO_BE_AVAILABLE (statemachine b) then
    set_to_available ;;
    __check_for_already_arrived_messages_and_publish_them
  else if StateMachine.is_AVAILABLE_BUT_WANTS_TO_STOP (statemachine b) then
    __check_for_already_arrived_messages_and_publish_them
  else if StateMachine.is_PERMANENTLY_UNAVAILABLE (statemachine b) then
    if StateMachine.get_detail_closed_by_publisher (statemachine b) then
      emit (Shutter_safety_finish "closed before connection was ready. reclosing.")
    else ret tt
  else ret tt.

Definition on_channel_open (channel : Channel) : M unit :=
  modify (with_thread (RabbitThread.with_channel (Some channel))) ;;
  modify (with_reconnect_counter 0) ;;
  __add_on_channel_close_callback ;;
  __add_on_return_callback ;;
  __make_channel_confirm_delivery ;;
  __make_ready_for_publishing.

Definition __prepare_republication_of_unconfirmed : M unit :=
  b <- get ;;
  let rescued_messages :=
    RabbitThread.get_unconfirmed_messages_as_list_copy_during_lifetime (thread b) in
  emit Thread_get_unconfirmed_messages_as_list_copy_during_lifetime ;;
  if (0 <? length rescued_messages)%nat then
    emit (Thread_send_many_messages rescued_messages) ;;
    modify (with_thread (RabbitThread.send_many_messages rescued_messages))
  else ret tt.

Definition __prepare_channel_reopen (operation_string : string) : M unit :=
  emit Thread_reset_delivery_number ;;
  modify (with_thread RabbitThread.reset_delivery_number) ;;
  __prepare_republication_of_unconfirmed ;;
  emit Thread_reset_unconfirmed_messages_and_delivery_tags ;;
  modify (with_thread RabbitThread.reset_unconfirmed_messages_and_delivery_tags).

Definition reconnect (run : IoloopRun) : M unit :=
  __prepare_channel_reopen "Reconnect" ;;
  c <- the_connection ;;
  emit (Ioloop_stop c) ;;
  first_connection run.

Definition __use_different_exchange_and_reopen_channel : M unit :=
  set_to_waiting_to_be_available ;;
  b <- get ;;
  emit (Thread_set_exchange_name (__fallback_exchange_name b)) ;;
  modify (with_thread (RabbitThread.set_exchange_name (__fallback_exchange_name b))) ;;
  __prepare_channel_reopen "Channel reopen" ;;
  set_to_waiting_to_be_available ;;
  __please_open_rabbit_channel.

Definition on_channel_closed (channel : Channel) (reply_code : Z) (reply_text : string)
  : M unit :=
  b <- get ;;
  if StateMachine.is_PERMANENTLY_UNAVAILABLE (statemachine b) then
    ret tt
  else if (reply_code =? 404)%Z && contains "NOT_FOUND - no exchange 'FALLBACK'" reply_text then
    c <- the_connection ;;
    emit (Connection_close c)
  else if (reply_code =? 404)%Z then
    __use_different_exchange_and_reopen_channel
  else
    c <- the_connection ;;
    emit (Connection_close c).

Definition __was_permanent_error (th : RabbitThread.t) (reply_code : Z) (reply_text : string)
  : bool :=
  if contains (RabbitThread.ERROR_TEXT_CONNECTION_PERMANENT_ERROR th) reply_text
  then true else false.

Definition __was_forced_user_shutdown (th : RabbitThread.t) (reply_code : Z)
    (reply_text : string) : bool :=
  if (reply_code =? RabbitThread.ERROR_CODE_CONNECTION_CLOSED_BY_USER th)%Z
     && contains (RabbitThread.ERROR_TEXT_CONNECTION_FORCE_CLOSED th) reply_text
  then true else false.

Definition __was_gentle_user_shutdown (th : RabbitThread.t) (reply_code : Z)
    (reply_text : string) : bool :=
  if (reply_code =? RabbitThread.ERROR_CODE_CONNECTION_CLOSED_BY_USER th)%Z
     && contains (RabbitThread.ERROR_TEXT_CONNECTION_NORMAL_SHUTDOWN th) reply_text
  then true else false.

Definition __was_user_shutdown (th : RabbitThread.t) (reply_code : Z) (reply_text : string)
  : bool :=
  if __was_forced_user_shutdown th reply_code reply_text then true
  else if __was_gentle_user_shutdown th reply_code reply_text then true
  else false.

Definition make_permanently_closed_by_user : M unit :=
  set_to_permanently_unavailable ;;
  c <- the_connection ;;
  emit (Ioloop_stop c).

Definition make_permanently_closed_by_error (connection : Connection) (reply_text : string)
  : M unit :=
  set_to_permanently_unavailable ;;
  emit Thread_unblock_events ;;
  c <- the_connection ;;
  emit (Ioloop_stop c).

Definition on_connection_closed (connection : Connection) (reply_code : Z)
    (reply_text : string) : M unit :=
  modify (with_thread (RabbitThread.with_channel None)) ;;
  b <- get ;;
  if __was_user_shutdown (thread b) reply_code reply_text then
    make_permanently_closed_by_user
  else if __was_permanent_error (thread b) reply_code reply_text then
    make_permanently_closed_by_error connection reply_text
  else
    on_connection_error connection reply_text.

(** *** The rescue step in closed form

    What [__prepare_channel_reopen] comes to on the rabbit thread, and the
    calls it makes on it, in the order of the method body. *)
Definition rescue (th : RabbitThread.t) : RabbitThread.t :=
  let th1 := RabbitThread.reset_delivery_number th in
  let rescued := RabbitThread.get_unconfirmed_messages_as_list_copy_during_lifetime th1 in
  RabbitThread.reset_unconfirmed_messages_and_delivery_tags
    (if (0 <? length rescued)%nat then RabbitThread.send_many_messages rescued th1 else th1).

Definition rescue_calls (th : RabbitThread.t) : list Effect :=
  let rescued := RabbitThread.get_unconfirmed_messages_as_list_copy_during_lifetime th in
  [Thread_reset_delivery_number; Thread_get_unconfirmed_messages_as_list_copy_during_lifetime]
  ++ (if (0 <? length rescued)%nat then [Thread_send_many_messages rescued] else [])
  ++ [Thread_reset_unconfirmed_messages_and_delivery_tags].

(** The order in which section 4.4 of the specification lists the four
    steps: (a) extract, (b) clear the mapping, (c) requeue, (d) reset the
    counter. *)
Definition rescue_order_of_the_spec (rescued : list Message) : list Effect :=
  [ Thread_get_unconfirmed_messages_as_list_copy_during_lifetime;
    Thread_reset_unconfirmed_messages_and_delivery_tags;
    Thread_send_many_messages rescued;
    Thread_reset_delivery_number ].

(** *** The callbacks and entry points of the class, as events *)
Inductive Callback :=
| On_first_connection (run : IoloopRun)
| On_connection_open (unused_connection : Connection)
| On_channel_open (channel : Channel)
| On_connection_error (connection : Connection) (msg : string)
| On_channel_closed (channel : Channel) (reply_code : Z) (reply_text : string)
| On_connection_closed (connection : Connection) (reply_code : Z) (reply_text : string)
| On_make_permanently_closed_by_user
| On_make_permanently_closed_by_error (connection : Connection) (reply_text : string)
| On_reconnect (run : IoloopRun).

Definition handle (cb : Callback) : M unit :=
  match cb with
  | On_first_connection run => first_connection run
  | On_connection_open c => on_connection_open c
  | On_channel_open ch => on_channel_open ch
  | On_connection_error c msg => on_connection_error c msg
  | On_channel_closed ch code text => on_channel_closed ch code text
  | On_connection_closed c code text => on_connection_closed c code text
  | On_make_permanently_closed_by_user => make_permanently_closed_by_user
  | On_make_permanently_closed_by_error c text => make_permanently_closed_by_error c text
  | On_reconnect run => reconnect run
  end.

Definition state_of (b : ConnectionBuilder) : LifecycleState :=
  StateMachine.state (statemachine b).

(** The builder after [__use_different_exchange_and_reopen_channel]. *)
Definition fallen_back (b : ConnectionBuilder) : ConnectionBuilder :=
  with_statemachine StateMachine.set_to_waiting_to_be_available
    (with_thread rescue
       (with_thread (RabbitThread.set_exchange_name (__fallback_exchange_name b))
          (with_statemachine StateMachine.set_to_waiting_to_be_available b))).

(** The builder after [on_connection_closed] took one of its two permanent
    branches. *)
Definition permanently_closed (b : ConnectionBuilder) : ConnectionBuilder :=
  with_statemachine StateMachine.set_to_permanently_unavailable
    (with_thread (RabbitThread.with_channel None) b).

(** Section 4.2 of the specification, read on a method of the class: called
    in a terminal state, the method leaves the state as it is, whether it
    returns or raises. *)
Definition keeps_terminal_state {A} (m : M A) : Prop :=
  forall b : ConnectionBuilder,
    StateMachine.terminal (state_of b) = true ->
    state_of (after (m b)) = state_of b.

(* ===================================================================== *)
(** ** A transport that refuses every connection *)
(* ===================================================================== *)

(** What is looked at in a run: the connections opened and the timers
    armed, in order. *)
Inductive Milestone :=
| Attempt (host : string)
| Wait (seconds : Z).

Fixpoint milestones (es : list Effect) : list Milestone :=
  match es with
  | [] => []
  | SelectConnection params _ :: es' => Attempt (NodeManager.host params) :: milestones es'
  | Connection_add_timeout _ seconds :: es' => Wait seconds :: milestones es'
  | _ :: es' => milestones es'
  end.

Fixpoint connection_attempts (es : list Effect) : nat :=
  match es with
  | [] => 0
  | SelectConnection _ _ :: es' => S (connection_attempts es')
  | _ :: es' => connection_attempts es'
  end.

Fixpoint attempts_of (ms : list Milestone) : nat :=
  match ms with
  | [] => 0
  | Attempt _ :: ms' => S (attempts_of ms')
  | Wait _ :: ms' => attempts_of ms'
  end.

Fixpoint armed_timeout (es : list Effect) : option (Connection * Z) :=
  match es with
  | [] => None
  | Connection_add_timeout c seconds :: es' =>
      match armed_timeout es' with
      | Some t => Some t
      | None => Some (c, seconds)
      end
  | _ :: es' => armed_timeout es'
  end.

Inductive Status :=
| Fatal (e : Exception)
| Quiet
| Still_running.

(** The event loop when no broker accepts a connection: pika answers the
    connection in flight through [on_open_error_callback], which is
    [on_connection_error]; if that armed a timer, the timer fires and calls
    [reconnect], which opens the next connection.  The run ends with the
    first exception a callback raises. *)
Fixpoint every_attempt_fails (fuel : nat) (b : ConnectionBuilder)
  : list Effect * ConnectionBuilder * Status :=
  match fuel with
  | O => ([], b, Still_running)
  | S fuel' =>
      match RabbitThread._connection (thread b) with
      | None => ([], b, Quiet)
      | Some c =>
          match on_connection_error c "Connection refused" b with
          | (es, b1, inl e) => (es, b1, Fatal e)
          | (es, b1, inr _) =>
              match armed_timeout es with
              | None => (es, b1, Quiet)
              | Some _ =>
                  match reconnect Ioloop_runs b1 with
                  | (es', b2, inl e) => (es ++ es', b2, Fatal e)
                  | (es', b2, inr _) =>
                      match every_attempt_fails fuel' b2 with
                      | (es'', b3, st) => (es ++ es' ++ es'', b3, st)
                      end
                  end
              end
          end
      end
  end.

(** The life of a builder whose every attempt fails, from the call of
    [first_connection] on. *)
Definition session (fuel : nat) (b : ConnectionBuilder)
  : list Effect * ConnectionBuilder * Status :=
  match first_connection Ioloop_runs b with
  | (es, b1, inl e) => (es, b1, Fatal e)
  | (es, b1, inr _) =>
      match every_attempt_fails fuel b1 with
      | (es', b2, st) => (es ++ es', b2, st)
      end
  end.

(** The pattern of a cycle: the endpoints after the current one follow
    without delay; a later cycle starts after the configured delay. *)
Fixpoint rest_of_cycle (untried : list NodeManager.Endpoint) : list Milestone :=
  match untried with
  | [] => []
  | e :: untried' => Wait 0 :: Attempt (NodeManager.host e) :: rest_of_cycle untried'
  end.

Definition later_cycle (delay : Z) (nodes : list NodeManager.Endpoint) : list Milestone :=
  match nodes with
  | [] => []
  | e :: nodes' => Wait delay :: Attempt (NodeManager.host e) :: rest_of_cycle nodes'
  end.

Fixpoint later_cycles (n : nat) (delay : Z) (nodes : list NodeManager.Endpoint)
  : list Milestone :=
  match n with
  | O => []
  | S n' => later_cycle delay nodes ++ later_cycles n' delay nodes
  end.

(** The builder after the give-up branch of [on_connection_error]. *)
Definition given_up (b : ConnectionBuilder) : ConnectionBuilder :=
  with_statemachine (StateMachine.set_detail_could_not_connect true)
    (with_statemachine StateMachine.set_to_permanently_unavailable
       (with_reconnect_counter (__reconnect_counter b + 1) b)).

(** The builder after a call of [first_connection] whose loop runs. *)
Definition connecting (b : ConnectionBuilder) : ConnectionBuilder :=
  with_thread (RabbitThread.with_connection (Some (objects_created b)))
    (with_object_created
       (with_host_tried
          (NodeManager.host (NodeManager.get_connection_parameters (__node_manager b)))
          (with_statemachine StateMachine.set_to_waiting_to_be_available b))).

(** ** Concrete builders used in the examples *)

Definition endpoint (h : string) : NodeManager.Endpoint :=
  {| NodeManager.host := h; NodeManager.credentials := "esgf:secret";
     NodeManager.socket_timeout := 2 |}.

Definition three_hosts : NodeManager.t :=
  {| NodeManager.first_node := endpoint "h1";
     NodeManager.other_nodes := [endpoint "h2"; endpoint "h3"];
     NodeManager.cursor := 0 |}.

Definition message (n : string) : Message :=
  {| body := n; routing_key := "cmip6.publisher.HASH.fallback" |}.

Definition idle_thread : RabbitThread.t :=
  {| RabbitThread._connection := None;
     RabbitThread._channel := None;
     RabbitThread.exchange_name := "esgffed-exchange";
     RabbitThread.unpublished := [];
     RabbitThread.unconfirmed := [];
     RabbitThread.delivery_number := 1;
     RabbitThread.ERROR_CODE_CONNECTION_CLOSED_BY_USER := 999;
     RabbitThread.ERROR_TEXT_CONNECTION_FORCE_CLOSED := "(forced finish)";
     RabbitThread.ERROR_TEXT_CONNECTION_NORMAL_SHUTDOWN := "(not reopen)";
     RabbitThread.ERROR_TEXT_CONNECTION_PERMANENT_ERROR := "(permanent error)" |}.

Definition fresh_statemachine : StateMachine.t :=
  {| StateMachine.state := INITIALIZING;
     StateMachine.detail_closed_by_publisher := false;
     StateMachine.detail_could_not_connect := false;
     StateMachine.detail_authentication_exception := false |}.

(** A builder as [__init__] would leave it, had the two settings been
    readable: three hosts, at most [max_tries] reconnection tries. *)
Definition builder_of (nm : NodeManager.t) (max_tries seconds : Z) : ConnectionBuilder :=
  {| thread := idle_thread; statemachine := fresh_statemachine;
     confirmer := 1; returnhandler := 2; shutter := 3;
     __node_manager := nm;
     __reconnect_counter := 0;
     __max_reconnection_tries := max_tries;
     __wait_seconds_before_reconnect := seconds;
     __all_hosts_that_were_tried := ∅;
     __fallback_exchange_name := "FALLBACK";
     objects_created := 0 |}.

(** A builder in the middle of its life: connection 0 and channel 1 are
    open, two messages are in flight with delivery tags 7 and 8, a third
    one is waiting. *)
Definition busy_thread : RabbitThread.t :=
  {| RabbitThread._connection := Some 0%nat;
     RabbitThread._channel := Some 1%nat;
     RabbitThread.exchange_name := "esgffed-exchange";
     RabbitThread.unpublished := [message "m3"];
     RabbitThread.unconfirmed := [(7, message "m1"); (8, message "m2")];
     RabbitThread.delivery_number := 9;
     RabbitThread.ERROR_CODE_CONNECTION_CLOSED_BY_USER := 999;
     RabbitThread.ERROR_TEXT_CONNECTION_FORCE_CLOSED := "(forced finish)";
     RabbitThread.ERROR_TEXT_CONNECTION_NORMAL_SHUTDOWN := "(not reopen)";
     RabbitThread.ERROR_TEXT_CONNECTION_PERMANENT_ERROR := "(permanent error)" |}.

Definition statemachine_in (s : LifecycleState) : StateMachine.t :=
  {| StateMachine.state := s;
     StateMachine.detail_closed_by_publisher := false;
     StateMachine.detail_could_not_connect := false;
     StateMachine.detail_authentication_exception := false |}.

Definition busy_builder (s : LifecycleState) : ConnectionBuilder :=
  {| thread := busy_thread; statemachine := statemachine_in s;
     confirmer := 1; returnhandler := 2; shutter := 3;
     __node_manager := three_hosts;
     __reconnect_counter := 0;
     __max_reconnection_tries := 2;
     __wait_seconds_before_reconnect := 5;
     __all_hosts_that_were_tried := {[ "h1" ]};
     __fallback_exchange_name := "FALLBACK";
     objects_created := 2 |}.

(** The reply text of the broker when the exchange of a publish does not
    exist. *)
Definition no_exchange (name : string) : string :=
  "NOT_FOUND - no exchange '" +:+ name +:+ "' in vhost 'esgf-pid'".

(** *** What the [except] branches of [__start_waiting_for_events] do first

    The builder on which [on_connection_error] is called after exception
    [e] came out of the loop, and the text it is called with. *)
Definition caught (e : Exception) (b : ConnectionBuilder) : ConnectionBuilder :=
  match e with
  | ProbableAuthenticationError =>
      with_statemachine (StateMachine.set_detail_authentication_exception true)
        (with_statemachine StateMachine.set_to_waiting_to_be_available b)
  | _ => with_statemachine StateMachine.set_to_waiting_to_be_available b
  end.

Definition reported_as (e : Exception) : string :=
  match e with
  | ProbableAuthenticationError => "ProbableAuthenticationError issued by pika"
  | _ => unexpected_error_name e
  end.

(** The number of publish events among the effects. *)
Fixpoint publish_events (es : list Effect) : nat :=
  match es with
  | [] => 0
  | Thread_add_event_publish_message :: es' => S (publish_events es')
  | _ :: es' => publish_events es'
  end.

(** The builder after the first two statements of [on_channel_open]. *)
Definition channel_opened (channel : Channel) (b : ConnectionBuilder) : ConnectionBuilder :=
  with_reconnect_counter 0 (with_thread (RabbitThread.with_channel (Some channel)) b).

(** What no callback is seen to change: the settings read at construction
    and the list of nodes stay, the hosts tried are not forgotten, and the
    exchange name stays or becomes the fallback name. *)
Definition kept (b b' : ConnectionBuilder) : Prop :=
  __fallback_exchange_name b' = __fallback_exchange_name b
  /\ __max_reconnection_tries b' = __max_reconnection_tries b
  /\ __wait_seconds_before_reconnect b' = __wait_seconds_before_reconnect b
  /\ NodeManager.nodes (__node_manager b') = NodeManager.nodes (__node_manager b)
  /\ __all_hosts_that_were_tried b ⊆ __all_hosts_that_were_tried b'
  /\ (RabbitThread.exchange_name (thread b') = RabbitThread.exchange_name (thread b)
      \/ RabbitThread.exchange_name (thread b') = __fallback_exchange_name b).

(** The builder after a series of callbacks, each taking over the builder
    the one before has left, whether it returned or raised. *)
Definition after_callbacks (cbs : list Callback) (b : ConnectionBuilder) : ConnectionBuilder :=
  fold_left (fun b' cb => after (handle cb b')) cbs b.


(* ===================================================================== *)
(** ** Properties *)
(* ===================================================================== *)

(** Running the first statement of a method body. *)
Ltac head_modify := unfold bind at 1, modify at 1.
Ltac head_get := unfold bind at 1, get at 1.
Ltac head_emit := unfold bind at 1, emit at 1.

(** *** The monad *)

Lemma bind_ok {A B} (m : M A) (k : A -> M B) b es b1 a :
  m b = (es, b1, inr a) ->
  bind m k b = (es ++ effects (k a b1), after (k a b1), outcome (k a b1)).
Proof.
  intros H. unfold bind. rewrite H. destruct (k a b1) as [[es' b2] r]. reflexivity.
Qed.

Lemma bind_raised {A B} (m : M A) (k : A -> M B) b es b1 e :
  m b = (es, b1, inl e) -> bind m k b = (es, b1, inl e).
Proof. intros H. unfold bind. rewrite H. reflexivity. Qed.

Lemma bind_result {A B} (m : M A) (k : A -> M B) b :
  bind m k b =
    match outcome (m b) with
    | inl e => (effects (m b), after (m b), inl e)
    | inr a => (effects (m b) ++ effects (k a (after (m b))),
                after (k a (after (m b))), outcome (k a (after (m b))))
    end.
Proof.
  unfold bind. destruct (m b) as [[es b1] [e|a]]; [reflexivity|].
  unfold effects, after, outcome. cbn [fst snd].
  destruct (k a b1) as [[es' b2] r]. reflexivity.
Qed.

Lemma result_eta {A} (r : list Effect * ConnectionBuilder * (Exception + A)) :
  r = (effects r, after r, outcome r).
Proof. destruct r as [[es b] o]. reflexivity. Qed.

Lemma milestones_app es es' : milestones (es ++ es') = milestones es ++ milestones es'.
Proof.
  induction es as [|e es IH]; [reflexivity|].
  destruct e; cbn; rewrite ?IH; reflexivity.
Qed.

Lemma connection_attempts_app es es' :
  connection_attempts (es ++ es') = (connection_attempts es + connection_attempts es')%nat.
Proof.
  induction es as [|e es IH]; [reflexivity|].
  destruct e; cbn; rewrite ?IH; reflexivity.
Qed.

(** *** The module of defaults and the constructor *)

Lemma defaults_lacks_RABBIT_RECONNECTION_MAX_TRIES :
  Defaults.defaults !! "RABBIT_RECONNECTION_MAX_TRIES" = None.
Proof. vm_compute. reflexivity. Qed.

Lemma defaults_lacks_RABBIT_RECONNECTION_SECONDS :
  Defaults.defaults !! "RABBIT_RECONNECTION_SECONDS" = None.
Proof. vm_compute. reflexivity. Qed.

(** The constructor does build an object when the module binds the names
    it reads. *)
Lemma init_with_the_names_bound th sm c r s nm :
  let d := <["RABBIT_RECONNECTION_SECONDS" := Defaults.PyInt 5]>
             (<["RABBIT_RECONNECTION_MAX_TRIES" := Defaults.PyInt 60]> Defaults.defaults) in
  exists o, __init__ d th sm c r s nm = inr o
            /\ Constructed.__max_reconnection_tries o = Defaults.PyInt 60
            /\ Constructed.__wait_seconds_before_reconnect o = Defaults.PyInt 5
            /\ Constructed.__reconnect_counter o = 0
            /\ Constructed.__fallback_exchange_name o = Defaults.PyStr "FALLBACK".
Proof.
  intros d. unfold __init__.
  assert (H1 : getattr d "RABBIT_RECONNECTION_MAX_TRIES" = inr (Defaults.PyInt 60))
    by (vm_compute; reflexivity).
  assert (H2 : getattr d "RABBIT_RECONNECTION_SECONDS" = inr (Defaults.PyInt 5))
    by (vm_compute; reflexivity).
  assert (H3 : getattr d "RABBIT_FALLBACK_EXCHANGE_NAME" = inr (Defaults.PyStr "FALLBACK"))
    by (vm_compute; reflexivity).
  rewrite H1, H2, H3. cbn. eexists. repeat split.
Qed.

(** C2. Whatever the arguments, [ConnectionBuilder.__init__] raises
    [AttributeError]: it reads [defaults.RABBIT_RECONNECTION_MAX_TRIES] (and
    would read [defaults.RABBIT_RECONNECTION_SECONDS]), names that
    [defaults.py] does not bind; the module binds
    [RABBIT_ASYN_RECONNECTION_MAX_TRIES] and
    [RABBIT_ASYN_RECONNECTION_SECONDS] instead.  No builder is ever
    constructed. *)
Theorem init_raises_AttributeError
    (th : RabbitThread.t) (sm : StateMachine.t) (c r s : nat) (nm : NodeManager.t) :
  __init__ Defaults.defaults th sm c r s nm
    = inl (AttributeError "RABBIT_RECONNECTION_MAX_TRIES")
  /\ (forall b, __init__ Defaults.defaults th sm c r s nm <> inr b)
  /\ Defaults.defaults !! "RABBIT_RECONNECTION_MAX_TRIES" = None
  /\ Defaults.defaults !! "RABBIT_RECONNECTION_SECONDS" = None
  /\ Defaults.defaults !! "RABBIT_ASYN_RECONNECTION_MAX_TRIES" = Some (Defaults.PyInt 60)
  /\ Defaults.defaults !! "RABBIT_ASYN_RECONNECTION_SECONDS" = Some (Defaults.PyInt 5).
Proof.
  assert (E : __init__ Defaults.defaults th sm c r s nm
              = inl (AttributeError "RABBIT_RECONNECTION_MAX_TRIES")).
  { unfold __init__, getattr.
    rewrite defaults_lacks_RABBIT_RECONNECTION_MAX_TRIES. reflexivity. }
  split; [exact E|]. split; [intros b; rewrite E; discriminate|].
  split; [exact defaults_lacks_RABBIT_RECONNECTION_MAX_TRIES|].
  split; [exact defaults_lacks_RABBIT_RECONNECTION_SECONDS|].
  split; vm_compute; reflexivity.
Qed.

(** *** Connection errors *)

Lemma not_FORCE_FINISHED b :
  state_of b <> FORCE_FINISHED ->
  StateMachine.is_FORCE_FINISHED (statemachine b) = false.
Proof.
  unfold state_of, StateMachine.is_FORCE_FINISHED.
  destruct (StateMachine.state (statemachine b)); congruence.
Qed.

(** The state machine: what an operation leaves of the state it finds. *)
Lemma state_set_state s sm :
  StateMachine.state (StateMachine.set_state s sm)
    = if StateMachine.terminal (StateMachine.state sm) then StateMachine.state sm else s.
Proof.
  unfold StateMachine.set_state.
  destruct (StateMachine.terminal (StateMachine.state sm)); reflexivity.
Qed.

Lemma set_state_details s sm :
  StateMachine.detail_closed_by_publisher (StateMachine.set_state s sm)
    = StateMachine.detail_closed_by_publisher sm
  /\ StateMachine.detail_could_not_connect (StateMachine.set_state s sm)
    = StateMachine.detail_could_not_connect sm
  /\ StateMachine.detail_authentication_exception (StateMachine.set_state s sm)
    = StateMachine.detail_authentication_exception sm.
Proof.
  unfold StateMachine.set_state.
  destruct (StateMachine.terminal (StateMachine.state sm)); repeat split.
Qed.

Lemma set_state_is_FORCE_FINISHED s sm :
  s <> FORCE_FINISHED ->
  StateMachine.is_FORCE_FINISHED (StateMachine.set_state s sm)
    = StateMachine.is_FORCE_FINISHED sm.
Proof.
  intros H. unfold StateMachine.is_FORCE_FINISHED. rewrite state_set_state.
  destruct (StateMachine.state sm); cbn; try reflexivity.
  all: destruct s; congruence.
Qed.

Lemma waiting_is_FORCE_FINISHED b :
  StateMachine.is_FORCE_FINISHED
    (statemachine (with_statemachine StateMachine.set_to_waiting_to_be_available b))
    = StateMachine.is_FORCE_FINISHED (statemachine b).
Proof. apply set_state_is_FORCE_FINISHED. discriminate. Qed.

Lemma connecting_is_FORCE_FINISHED b :
  StateMachine.is_FORCE_FINISHED (statemachine (connecting b))
    = StateMachine.is_FORCE_FINISHED (statemachine b).
Proof. apply set_state_is_FORCE_FINISHED. discriminate. Qed.

(** Giving up ends in [PERMANENTLY_UNAVAILABLE], the force-finish apart. *)
Lemma given_up_state b :
  StateMachine.is_FORCE_FINISHED (statemachine b) = false ->
  state_of (given_up b) = PERMANENTLY_UNAVAILABLE.
Proof.
  intros H. unfold state_of, given_up. cbn.
  change (StateMachine.set_to_permanently_unavailable (statemachine b))
    with (StateMachine.set_state PERMANENTLY_UNAVAILABLE (statemachine b)).
  rewrite state_set_state.
  unfold StateMachine.is_FORCE_FINISHED in H.
  destruct (StateMachine.state (statemachine b)); cbn; congruence.
Qed.

Lemma wait_and_trigger_reconnection_live b connection wait_seconds :
  StateMachine.is_FORCE_FINISHED (statemachine b) = false ->
  __wait_and_trigger_reconnection connection wait_seconds b =
    ([Connection_add_timeout connection wait_seconds],
     with_statemachine StateMachine.set_to_waiting_to_be_available b, inr tt).
Proof.
  intros H. unfold __wait_and_trigger_reconnection, bind, get. rewrite H. reflexivity.
Qed.

(** [on_connection_error] without the monad, when there was no
    force-finish: next host at once, or a new cycle after the delay, or the
    fatal error. *)
Lemma on_connection_error_live b connection msg :
  StateMachine.is_FORCE_FINISHED (statemachine b) = false ->
  on_connection_error connection msg b =
    if NodeManager.has_more_urls (__node_manager b) then
      ([Connection_add_timeout connection 0],
       with_statemachine StateMachine.set_to_waiting_to_be_available
         (with_node_manager NodeManager.set_next_host b),
       inr tt)
    else if (__reconnect_counter b + 1 <=? __max_reconnection_tries b)%Z then
      ([Connection_add_timeout connection (__wait_seconds_before_reconnect b)],
       with_statemachine StateMachine.set_to_waiting_to_be_available
         (with_node_manager NodeManager.reset_nodes
            (with_reconnect_counter (__reconnect_counter b + 1) b)),
       inr tt)
    else
      ([], given_up b,
       inl (PIDServerException
              (Gave_up_after_tries (__all_hosts_that_were_tried b)
                                   (__max_reconnection_tries b)))).
Proof.
  intros H. unfold on_connection_error, __wait_and_trigger_reconnection, bind, get.
  rewrite H.
  destruct (NodeManager.has_more_urls (__node_manager b)).
  - cbn. rewrite H. reflexivity.
  - cbn -[Z.leb Z.add].
    destruct (__reconnect_counter b + 1 <=? __max_reconnection_tries b)%Z.
    + cbn -[Z.add]. rewrite H. reflexivity.
    + reflexivity.
Qed.

Lemma on_connection_error_finished b connection msg :
  StateMachine.is_FORCE_FINISHED (statemachine b) = true ->
  on_connection_error connection msg b
    = ([], b, inl (PIDServerException
                     (Gave_up_on_force_finish (__all_hosts_that_were_tried b)))).
Proof. intros H. unfold on_connection_error, bind, get. rewrite H. reflexivity. Qed.

Lemma is_FORCE_FINISHED_true b :
  state_of b = FORCE_FINISHED ->
  StateMachine.is_FORCE_FINISHED (statemachine b) = true.
Proof.
  unfold state_of, StateMachine.is_FORCE_FINISHED. intros H. rewrite H. reflexivity.
Qed.

Lemma caught_is_FORCE_FINISHED e b :
  StateMachine.is_FORCE_FINISHED (statemachine (caught e b))
    = StateMachine.is_FORCE_FINISHED (statemachine b).
Proof.
  destruct e; exact (waiting_is_FORCE_FINISHED b).
Qed.

Lemma caught_state e b :
  state_of (caught e b)
    = if StateMachine.terminal (state_of b) then state_of b else WAITING_TO_BE_AVAILABLE.
Proof.
  destruct e; exact (state_set_state WAITING_TO_BE_AVAILABLE (statemachine b)).
Qed.

Lemma on_connection_error_thread b connection msg :
  thread (after (on_connection_error connection msg b)) = thread b.
Proof.
  destruct (StateMachine.is_FORCE_FINISHED (statemachine b)) eqn:H.
  - unfold on_connection_error, bind, get. rewrite H. reflexivity.
  - rewrite on_connection_error_live by exact H.
    destruct (NodeManager.has_more_urls _); [reflexivity|].
    destruct (_ <=? _)%Z; reflexivity.
Qed.

(** C5. Once the state machine is in [FORCE_FINISHED], every call of
    [on_connection_error] raises the fatal [PIDServerException] at once:
    nothing is called on the transport, no timer is armed, the builder is
    left as it was.  The check is made again in
    [__wait_and_trigger_reconnection], the one place where the retry timer
    is armed, so a force-finish that arrives between the two checks stops the
    retry as well. *)
Theorem force_finished_connection_error_is_fatal
    (b : ConnectionBuilder) (connection : Connection) (msg : string) (wait_seconds : Z) :
  state_of b = FORCE_FINISHED ->
  on_connection_error connection msg b
    = ([], b, inl (PIDServerException (Gave_up_on_force_finish (__all_hosts_that_were_tried b))))
  /\ __wait_and_trigger_reconnection connection wait_seconds b
    = ([], b, inl (PIDServerException (Gave_up_on_force_finish (__all_hosts_that_were_tried b))))
  /\ armed_timeout (effects (on_connection_error connection msg b)) = None
  /\ armed_timeout (effects (__wait_and_trigger_reconnection connection wait_seconds b)) = None
  /\ connection_attempts (effects (on_connection_error connection msg b)) = 0%nat.
Proof.
  intros H.
  assert (F : StateMachine.is_FORCE_FINISHED (statemachine b) = true).
  { unfold state_of in H. unfold StateMachine.is_FORCE_FINISHED. rewrite H. reflexivity. }
  assert (E1 : on_connection_error connection msg b
    = ([], b, inl (PIDServerException (Gave_up_on_force_finish (__all_hosts_that_were_tried b))))).
  { unfold on_connection_error, bind, get. rewrite F. reflexivity. }
  assert (E2 : __wait_and_trigger_reconnection connection wait_seconds b
    = ([], b, inl (PIDServerException (Gave_up_on_force_finish (__all_hosts_that_were_tried b))))).
  { unfold __wait_and_trigger_reconnection, bind, get. rewrite F. reflexivity. }
  rewrite E1, E2. repeat split.
Qed.

Lemma force_finished_connection_error_is_fatal_witness :
  state_of (busy_builder FORCE_FINISHED) = FORCE_FINISHED
  /\ on_connection_error 0%nat "Connection refused" (busy_builder FORCE_FINISHED)
     = ([], busy_builder FORCE_FINISHED,
        inl (PIDServerException
               (Gave_up_on_force_finish
                  (__all_hosts_that_were_tried (busy_builder FORCE_FINISHED))))).
Proof.
  split; [reflexivity|].
  apply (force_finished_connection_error_is_fatal
           (busy_builder FORCE_FINISHED) 0%nat "Connection refused" 5).
  reflexivity.
Defined.

(** *** The rescue step *)

Lemma prepare_channel_reopen_run operation_string b :
  __prepare_channel_reopen operation_string b
    = (rescue_calls (thread b), with_thread rescue b, inr tt).
Proof.
  unfold __prepare_channel_reopen, __prepare_republication_of_unconfirmed,
    rescue, rescue_calls.
  unfold bind, get, emit, modify, with_thread.
  cbn -[Nat.ltb].
  destruct (0 <? _)%nat; reflexivity.
Qed.

Lemma rescue_connection th :
  RabbitThread._connection (rescue th) = RabbitThread._connection th.
Proof. unfold rescue. cbn -[Nat.ltb]. destruct (0 <? _)%nat; reflexivity. Qed.

Lemma rescue_unpublished th :
  RabbitThread.unpublished (rescue th)
    = map snd (RabbitThread.unconfirmed th) ++ RabbitThread.unpublished th.
Proof.
  unfold rescue. cbn -[Nat.ltb].
  destruct (map snd (RabbitThread.unconfirmed th)) as [|m ms] eqn:E; reflexivity.
Qed.

Lemma milestones_rescue_calls th : milestones (rescue_calls th) = [].
Proof. unfold rescue_calls. cbn -[Nat.ltb]. destruct (0 <? _)%nat; reflexivity. Qed.

Lemma connection_attempts_rescue_calls th : connection_attempts (rescue_calls th) = 0%nat.
Proof. unfold rescue_calls. cbn -[Nat.ltb]. destruct (0 <? _)%nat; reflexivity. Qed.

Lemma the_connection_run b c :
  RabbitThread._connection (thread b) = Some c -> the_connection b = ([], b, inr c).
Proof. intros H. unfold the_connection, bind, get. rewrite H. reflexivity. Qed.

Lemma the_connection_none b :
  RabbitThread._connection (thread b) = None ->
  the_connection b = ([], b, inl (AttributeError "'NoneType' object")).
Proof. intros H. unfold the_connection, bind, get. rewrite H. reflexivity. Qed.

Lemma first_connection_runs b :
  first_connection Ioloop_runs b =
    ([SelectConnection (NodeManager.get_connection_parameters (__node_manager b))
        (objects_created b);
      Thread_tell_publisher_to_stop_waiting_for_thread_to_accept_events;
      Thread_continue_gently_closing_if_applicable;
      Ioloop_start (objects_created b)],
     connecting b, inr tt).
Proof. reflexivity. Qed.

Lemma reconnect_runs b c :
  RabbitThread._connection (thread b) = Some c ->
  reconnect Ioloop_runs b =
    (rescue_calls (thread b) ++
       [Ioloop_stop c;
        SelectConnection (NodeManager.get_connection_parameters (__node_manager b))
          (objects_created b);
        Thread_tell_publisher_to_stop_waiting_for_thread_to_accept_events;
        Thread_continue_gently_closing_if_applicable;
        Ioloop_start (objects_created b)],
     connecting (with_thread rescue b), inr tt).
Proof.
  intros H. unfold reconnect.
  rewrite (bind_ok _ _ _ _ _ _ (prepare_channel_reopen_run _ b)).
  assert (Hc : RabbitThread._connection (thread (with_thread rescue b)) = Some c).
  { cbn -[rescue]. rewrite rescue_connection. exact H. }
  rewrite (bind_ok _ _ _ _ _ _ (the_connection_run _ _ Hc)).
  reflexivity.
Qed.

(** *** The node manager *)

Lemma has_more_urls_true nm :
  NodeManager.has_more_urls nm = true ->
  (NodeManager.cursor nm < length (NodeManager.other_nodes nm))%nat.
Proof.
  unfold NodeManager.has_more_urls, NodeManager.get_num_left_urls, NodeManager.nodes.
  cbn [length]. intros H. apply Nat.ltb_lt in H. lia.
Qed.

Lemma has_more_urls_false nm :
  NodeManager.has_more_urls nm = false ->
  (length (NodeManager.other_nodes nm) <= NodeManager.cursor nm)%nat.
Proof.
  unfold NodeManager.has_more_urls, NodeManager.get_num_left_urls, NodeManager.nodes.
  cbn [length]. intros H. apply Nat.ltb_ge in H. lia.
Qed.

Lemma get_num_left_urls_others nm :
  NodeManager.get_num_left_urls nm
    = (length (NodeManager.other_nodes nm) - NodeManager.cursor nm)%nat.
Proof. reflexivity. Qed.

Lemma drop_nth {A} (l : list A) (k : nat) (d : A) :
  (k < length l)%nat -> drop k l = nth k l d :: drop (S k) l.
Proof.
  revert k. induction l as [|x l IH]; intros k H; cbn in H; [lia|].
  destruct k as [|k]; [reflexivity|].
  cbn. apply IH. lia.
Qed.

Lemma connection_attempts_milestones es :
  connection_attempts es = attempts_of (milestones es).
Proof.
  induction es as [|e es IH]; [reflexivity|].
  destruct e; cbn; rewrite ?IH; reflexivity.
Qed.

Lemma attempts_of_app ms ms' :
  attempts_of (ms ++ ms') = (attempts_of ms + attempts_of ms')%nat.
Proof.
  induction ms as [|m ms IH]; [reflexivity|].
  destruct m; cbn; rewrite IH; reflexivity.
Qed.

Lemma attempts_of_rest_of_cycle untried :
  attempts_of (rest_of_cycle untried) = length untried.
Proof. induction untried as [|e l IH]; cbn; [reflexivity|]. rewrite IH. reflexivity. Qed.

Lemma attempts_of_later_cycles n delay nodes :
  attempts_of (later_cycles n delay nodes) = (n * length nodes)%nat.
Proof.
  induction n as [|n IH]; [reflexivity|].
  cbn [later_cycles]. rewrite attempts_of_app, IH.
  destruct nodes as [|e l]; cbn; [lia|].
  rewrite attempts_of_rest_of_cycle. lia.
Qed.

(** *** A run in which every attempt fails *)

Lemma every_attempt_fails_run fuel : forall b c,
  StateMachine.is_FORCE_FINISHED (statemachine b) = false ->
  RabbitThread._connection (thread b) = Some c ->
  (NodeManager.get_num_left_urls (__node_manager b)
   + Z.to_nat (__max_reconnection_tries b - __reconnect_counter b)
     * length (NodeManager.nodes (__node_manager b)) < fuel)%nat ->
  exists es b',
    every_attempt_fails fuel b
      = (es, b', Fatal (PIDServerException
                          (Gave_up_after_tries (__all_hosts_that_were_tried b')
                                               (__max_reconnection_tries b))))
    /\ milestones es
       = rest_of_cycle (drop (NodeManager.cursor (__node_manager b))
                             (NodeManager.other_nodes (__node_manager b)))
         ++ later_cycles (Z.to_nat (__max_reconnection_tries b - __reconnect_counter b))
              (__wait_seconds_before_reconnect b) (NodeManager.nodes (__node_manager b))
    /\ state_of b' = PERMANENTLY_UNAVAILABLE
    /\ StateMachine.detail_could_not_connect (statemachine b') = true.
Proof.
  induction fuel as [|fuel IH]; intros b c HF Hc Hfuel;
    [exfalso; exact (Nat.nlt_0_r _ Hfuel)|].
  cbn [every_attempt_fails]. rewrite Hc.
  rewrite on_connection_error_live by exact HF.
  destruct (NodeManager.has_more_urls (__node_manager b)) eqn:Hm.
  - (* the next host of the cycle *)
    pose proof (has_more_urls_true _ Hm) as Hlt.
    cbn [armed_timeout].
    set (b1 := with_statemachine _ (with_node_manager _ b)).
    rewrite (reconnect_runs b1 c Hc).
    set (b2 := connecting (with_thread rescue b1)).
    destruct (IH b2 (objects_created b1)) as (es & b' & E & Hms & Hs & Hd).
    + unfold b2. rewrite connecting_is_FORCE_FINISHED.
      unfold b1. cbn [with_thread statemachine]. rewrite waiting_is_FORCE_FINISHED. exact HF.
    + reflexivity.
    + cbn -[rescue Z.sub Nat.mul]. unfold NodeManager.set_next_host. rewrite Hm.
      rewrite get_num_left_urls_others in *. cbn -[Z.sub Nat.mul] in *. lia.
    + rewrite E. eexists _, _. split; [reflexivity|]. split; [|split; assumption].
      rewrite !milestones_app, milestones_rescue_calls, Hms.
      cbn -[rescue Z.sub later_cycles]. unfold NodeManager.set_next_host. rewrite Hm.
      cbn -[rescue Z.sub later_cycles].
      rewrite (drop_nth _ _ (NodeManager.first_node (__node_manager b)) Hlt).
      reflexivity.
  - pose proof (has_more_urls_false _ Hm) as Hge.
    destruct (__reconnect_counter b + 1 <=? __max_reconnection_tries b)%Z eqn:Hle.
    + (* a new cycle, after the delay *)
      apply Z.leb_le in Hle.
      cbn [armed_timeout].
      set (b1 := with_statemachine _ (with_node_manager _ _)).
      rewrite (reconnect_runs b1 c Hc).
      set (b2 := connecting (with_thread rescue b1)).
      assert (Hn : Z.to_nat (__max_reconnection_tries b - __reconnect_counter b)
                   = S (Z.to_nat (__max_reconnection_tries b - (__reconnect_counter b + 1))))
        by lia.
      destruct (IH b2 (objects_created b1)) as (es & b' & E & Hms & Hs & Hd).
      * unfold b2. rewrite connecting_is_FORCE_FINISHED.
        unfold b1. cbn [with_thread statemachine]. rewrite waiting_is_FORCE_FINISHED. exact HF.
      * reflexivity.
      * cbn -[rescue Z.sub Z.add Nat.mul]. rewrite Hn, Nat.mul_succ_l in Hfuel.
        rewrite get_num_left_urls_others in *. cbn -[Z.sub Z.add Nat.mul] in *. lia.
      * rewrite E. eexists _, _. split; [reflexivity|]. split; [|split; assumption].
        rewrite !milestones_app, milestones_rescue_calls, Hms.
        rewrite Hn. rewrite (drop_ge _ _ Hge).
        reflexivity.
    + (* the fatal error *)
      apply Z.leb_gt in Hle.
      exists [], (given_up b). split; [reflexivity|].
      replace (Z.to_nat (__max_reconnection_tries b - __reconnect_counter b)) with 0%nat by lia.
      rewrite (drop_ge _ _ Hge).
      split; [reflexivity|]. split; [exact (given_up_state b HF)|reflexivity].
Qed.

Lemma session_of_a_new_builder fuel b :
  state_of b <> FORCE_FINISHED ->
  (length (NodeManager.nodes (__node_manager b))
   * S (Z.to_nat (__max_reconnection_tries b)) <= fuel)%nat ->
  NodeManager.cursor (__node_manager b) = 0%nat ->
  __reconnect_counter b = 0 ->
  milestones (effects (session fuel b))
    = Attempt (NodeManager.host (NodeManager.first_node (__node_manager b)))
      :: rest_of_cycle (NodeManager.other_nodes (__node_manager b))
      ++ later_cycles (Z.to_nat (__max_reconnection_tries b))
           (__wait_seconds_before_reconnect b) (NodeManager.nodes (__node_manager b))
  /\ connection_attempts (effects (session fuel b))
     = (length (NodeManager.nodes (__node_manager b))
        * (Z.to_nat (__max_reconnection_tries b) + 1))%nat
  /\ outcome (session fuel b)
     = Fatal (PIDServerException
                (Gave_up_after_tries (__all_hosts_that_were_tried (after (session fuel b)))
                                     (__max_reconnection_tries b)))
  /\ state_of (after (session fuel b)) = PERMANENTLY_UNAVAILABLE
  /\ StateMachine.detail_could_not_connect (statemachine (after (session fuel b))) = true.
Proof.
  intros Hlive Hfuel Hcur Hcnt. unfold session. rewrite first_connection_runs.
  destruct (every_attempt_fails_run fuel (connecting b) (objects_created b))
    as (es & b' & E & Hms & Hs & Hd).
  - rewrite connecting_is_FORCE_FINISHED. apply not_FORCE_FINISHED. exact Hlive.
  - reflexivity.
  - cbn -[Z.sub Nat.mul NodeManager.get_num_left_urls NodeManager.nodes].
    rewrite get_num_left_urls_others, Hcur, Hcnt, Z.sub_0_r.
    cbn [NodeManager.nodes length] in *. nia.
  - rewrite E. unfold effects, after, outcome. cbn [fst snd].
    assert (Hm : milestones
                   ([SelectConnection (NodeManager.get_connection_parameters (__node_manager b))
                       (objects_created b);
                     Thread_tell_publisher_to_stop_waiting_for_thread_to_accept_events;
                     Thread_continue_gently_closing_if_applicable;
                     Ioloop_start (objects_created b)] ++ es)
                 = Attempt (NodeManager.host (NodeManager.first_node (__node_manager b)))
                   :: rest_of_cycle (NodeManager.other_nodes (__node_manager b))
                   ++ later_cycles (Z.to_nat (__max_reconnection_tries b))
                        (__wait_seconds_before_reconnect b)
                        (NodeManager.nodes (__node_manager b))).
    { rewrite milestones_app, Hms.
      cbn -[Z.sub later_cycles]. unfold NodeManager.get_connection_parameters.
      rewrite Hcur, Hcnt, Z.sub_0_r. reflexivity. }
    split; [exact Hm|]. split; [|split; [reflexivity|split; assumption]].
    rewrite connection_attempts_milestones, Hm.
    cbn [attempts_of]. rewrite attempts_of_app, attempts_of_rest_of_cycle,
      attempts_of_later_cycles.
    cbn [NodeManager.nodes length]. nia.
Qed.

(** C1, as the code has it.  Three hosts, at most two reconnection tries,
    every attempt refused: [session] opens nine connections, three cycles
    of three, before [on_connection_error] raises the fatal
    [PIDServerException] and sets [detail_could_not_connect]. *)
Theorem three_hosts_two_tries_nine_attempts :
  connection_attempts (effects (session 20 (builder_of three_hosts 2 5))) = 9%nat
  /\ milestones (effects (session 20 (builder_of three_hosts 2 5)))
     = [Attempt "h1"; Wait 0; Attempt "h2"; Wait 0; Attempt "h3"; Wait 5;
        Attempt "h1"; Wait 0; Attempt "h2"; Wait 0; Attempt "h3"; Wait 5;
        Attempt "h1"; Wait 0; Attempt "h2"; Wait 0; Attempt "h3"]
  /\ (exists tried,
        outcome (session 20 (builder_of three_hosts 2 5))
        = Fatal (PIDServerException (Gave_up_after_tries tried 2)))
  /\ state_of (after (session 20 (builder_of three_hosts 2 5))) = PERMANENTLY_UNAVAILABLE
  /\ StateMachine.detail_could_not_connect
       (statemachine (after (session 20 (builder_of three_hosts 2 5)))) = true
  /\ __reconnect_counter (after (session 20 (builder_of three_hosts 2 5))) = 3.
Proof.
  split; [vm_compute; reflexivity|].
  split; [vm_compute; reflexivity|].
  split.
  - eexists. apply (session_of_a_new_builder 20 (builder_of three_hosts 2 5));
      [discriminate | vm_compute; lia | reflexivity | reflexivity].
  - repeat split; vm_compute; reflexivity.
Qed.

(** C7. Where a connection fails and no force-finish was given, the run of
    failing attempts goes through the cycle: each endpoint that is still
    untried in the cycle is tried next, in the order of the list, with a
    timer of zero seconds before it, and no endpoint is tried again before
    the cycle is through; the configured delay stands only in front of
    the first endpoint of a new cycle, after the node manager was reset.
    The closed form of [on_connection_error] gives the single step. *)
Theorem failed_endpoints_wait_for_the_next_cycle
    (b : ConnectionBuilder) (c : Connection) (msg : string) (fuel : nat) :
  state_of b <> FORCE_FINISHED ->
  RabbitThread._connection (thread b) = Some c ->
  (NodeManager.get_num_left_urls (__node_manager b)
   + Z.to_nat (__max_reconnection_tries b - __reconnect_counter b)
     * length (NodeManager.nodes (__node_manager b)) < fuel)%nat ->
  on_connection_error c msg b =
    (if NodeManager.has_more_urls (__node_manager b) then
       ([Connection_add_timeout c 0],
        with_statemachine StateMachine.set_to_waiting_to_be_available
          (with_node_manager NodeManager.set_next_host b),
        inr tt)
     else if (__reconnect_counter b + 1 <=? __max_reconnection_tries b)%Z then
       ([Connection_add_timeout c (__wait_seconds_before_reconnect b)],
        with_statemachine StateMachine.set_to_waiting_to_be_available
          (with_node_manager NodeManager.reset_nodes
             (with_reconnect_counter (__reconnect_counter b + 1) b)),
        inr tt)
     else
       ([], given_up b,
        inl (PIDServerException
               (Gave_up_after_tries (__all_hosts_that_were_tried b)
                                    (__max_reconnection_tries b)))))
  /\ NodeManager.cursor (NodeManager.set_next_host (__node_manager b))
     = (if NodeManager.has_more_urls (__node_manager b)
        then S (NodeManager.cursor (__node_manager b))
        else NodeManager.cursor (__node_manager b))
  /\ NodeManager.cursor (NodeManager.reset_nodes (__node_manager b)) = 0%nat
  /\ milestones (effects (every_attempt_fails fuel b))
     = rest_of_cycle (drop (NodeManager.cursor (__node_manager b))
                           (NodeManager.other_nodes (__node_manager b)))
       ++ later_cycles (Z.to_nat (__max_reconnection_tries b - __reconnect_counter b))
            (__wait_seconds_before_reconnect b) (NodeManager.nodes (__node_manager b)).
Proof.
  intros Hs Hc Hfuel. apply not_FORCE_FINISHED in Hs.
  split; [apply on_connection_error_live; exact Hs|].
  split; [unfold NodeManager.set_next_host; destruct (NodeManager.has_more_urls _); reflexivity|].
  split; [reflexivity|].
  destruct (every_attempt_fails_run fuel b c Hs Hc Hfuel) as (es & b' & E & Hms & _).
  rewrite E. exact Hms.
Qed.

Lemma failed_endpoints_wait_for_the_next_cycle_witness :
  state_of (busy_builder AVAILABLE) <> FORCE_FINISHED
  /\ milestones (effects (every_attempt_fails 20 (busy_builder AVAILABLE)))
     = [Wait 0; Attempt "h2"; Wait 0; Attempt "h3"; Wait 5;
        Attempt "h1"; Wait 0; Attempt "h2"; Wait 0; Attempt "h3"; Wait 5;
        Attempt "h1"; Wait 0; Attempt "h2"; Wait 0; Attempt "h3"].
Proof.
  split; [discriminate|].
  apply (failed_endpoints_wait_for_the_next_cycle
           (busy_builder AVAILABLE) 0%nat "Connection refused" 20).
  - discriminate.
  - reflexivity.
  - vm_compute. lia.
Defined.

(** *** The rescue step, as the code performs it *)

(** C4, as stated, fails: with two messages in flight the code resets the
    delivery number first and clears the unconfirmed messages last, which is
    not the order (a), (b), (c), (d) of section 4.4. *)
Lemma rescue_is_not_in_the_order_of_the_spec :
  effects (__prepare_channel_reopen "Reconnect" (busy_builder AVAILABLE))
    = [ Thread_reset_delivery_number;
        Thread_get_unconfirmed_messages_as_list_copy_during_lifetime;
        Thread_send_many_messages [message "m1"; message "m2"];
        Thread_reset_unconfirmed_messages_and_delivery_tags ]
  /\ effects (__prepare_channel_reopen "Reconnect" (busy_builder AVAILABLE))
     <> rescue_order_of_the_spec [message "m1"; message "m2"].
Proof. split; [reflexivity|]. vm_compute. discriminate. Qed.

Lemma effects_bind_prefix {A B} (m : M A) (k : A -> M B) b es b1 a :
  m b = (es, b1, inr a) -> exists es', effects (bind m k b) = es ++ es'.
Proof. intros H. rewrite (bind_ok _ _ _ _ _ _ H). eexists. reflexivity. Qed.

(** C4, amended.  Both when a connection is rebuilt ([reconnect]) and when
    only the channel is reopened
    ([__use_different_exchange_and_reopen_channel]) the code runs
    [__prepare_channel_reopen], which never fails and performs, in this
    order: (d) reset of the delivery number, (a) copy of the unconfirmed
    messages, (c) requeueing of the copy if it is not empty, (b) clearing of
    the unconfirmed messages and delivery tags.  The copy is taken before the
    clearing; afterwards nothing is unconfirmed, the delivery number is the
    initial one, and the pending queue is the rescued messages, in their
    order, followed by what was pending: no unconfirmed message is lost. *)
Theorem rescue_step_of_the_code (operation_string : string) (b : ConnectionBuilder) :
  __prepare_channel_reopen operation_string b
    = (rescue_calls (thread b), with_thread rescue b, inr tt)
  /\ rescue_calls (thread b)
     = [Thread_reset_delivery_number;
        Thread_get_unconfirmed_messages_as_list_copy_during_lifetime]
       ++ (if (0 <? length (RabbitThread.unconfirmed (thread b)))%nat
           then [Thread_send_many_messages (map snd (RabbitThread.unconfirmed (thread b)))]
           else [])
       ++ [Thread_reset_unconfirmed_messages_and_delivery_tags]
  /\ RabbitThread.unconfirmed (rescue (thread b)) = []
  /\ RabbitThread.delivery_number (rescue (thread b)) = RabbitThread.initial_delivery_number
  /\ RabbitThread.unpublished (rescue (thread b))
     = map snd (RabbitThread.unconfirmed (thread b)) ++ RabbitThread.unpublished (thread b)
  /\ (forall tag m, In (tag, m) (RabbitThread.unconfirmed (thread b)) ->
                    In m (RabbitThread.unpublished (rescue (thread b))))
  /\ (forall run, exists es, effects (reconnect run b) = rescue_calls (thread b) ++ es)
  /\ (exists es, effects (__use_different_exchange_and_reopen_channel b)
                 = Thread_set_exchange_name (__fallback_exchange_name b)
                   :: rescue_calls (thread b) ++ es).
Proof.
  split; [apply prepare_channel_reopen_run|].
  split.
  { unfold rescue_calls, RabbitThread.get_unconfirmed_messages_as_list_copy_during_lifetime.
    rewrite length_map. reflexivity. }
  split; [reflexivity|].
  split; [unfold rescue; cbn -[Nat.ltb]; destruct (0 <? _)%nat; reflexivity|].
  split; [apply rescue_unpublished|].
  split.
  { intros tag m H. rewrite rescue_unpublished. apply in_or_app. left.
    change m with (snd (tag, m)). apply in_map. exact H. }
  split.
  { intros run. unfold reconnect.
    apply (effects_bind_prefix _ _ _ _ _ _ (prepare_channel_reopen_run _ b)). }
  unfold __use_different_exchange_and_reopen_channel.
  unfold set_to_waiting_to_be_available at 1. head_modify.
  head_get. head_emit. head_modify.
  set (b1 := with_thread _ _).
  rewrite (bind_ok _ _ _ _ _ _ (prepare_channel_reopen_run _ b1)).
  destruct (bind set_to_waiting_to_be_available _ _) as [[es' b2] r'] eqn:E.
  unfold effects at 1. cbn -[rescue_calls bind].
  eexists. reflexivity.
Qed.

(** *** Channel closed, connection closed *)

Lemma please_open_rabbit_channel_run b c :
  RabbitThread._connection (thread b) = Some c ->
  __please_open_rabbit_channel b = ([Connection_channel c], b, inr tt).
Proof.
  intros H. unfold __please_open_rabbit_channel.
  rewrite (bind_ok _ _ _ _ _ _ (the_connection_run _ _ H)). reflexivity.
Qed.

Lemma use_different_exchange_and_reopen_channel_run b c :
  RabbitThread._connection (thread b) = Some c ->
  __use_different_exchange_and_reopen_channel b
    = (Thread_set_exchange_name (__fallback_exchange_name b)
         :: rescue_calls (thread b) ++ [Connection_channel c],
       fallen_back b, inr tt).
Proof.
  intros H. unfold __use_different_exchange_and_reopen_channel.
  unfold set_to_waiting_to_be_available at 1. head_modify.
  head_get. head_emit. head_modify.
  set (b1 := with_thread _ _).
  assert (E : (set_to_waiting_to_be_available ;; __please_open_rabbit_channel)
                (with_thread rescue b1)
              = ([Connection_channel c], fallen_back b, inr tt)).
  { unfold set_to_waiting_to_be_available. head_modify.
    rewrite (please_open_rabbit_channel_run _ c); [reflexivity|].
    cbn -[rescue]. rewrite rescue_connection. exact H. }
  rewrite (bind_ok _ _ _ _ _ _ (prepare_channel_reopen_run _ b1)).
  cbv beta. rewrite E. reflexivity.
Qed.

Lemma on_connection_closed_otherwise b connection reply_code reply_text :
  __was_user_shutdown (thread b) reply_code reply_text = false ->
  __was_permanent_error (thread b) reply_code reply_text = false ->
  on_connection_closed connection reply_code reply_text b
    = on_connection_error connection reply_text
        (with_thread (RabbitThread.with_channel None) b).
Proof.
  intros Hu Hp. unfold on_connection_closed. head_modify.
  head_get.
  change (thread (with_thread (RabbitThread.with_channel None) b))
    with (RabbitThread.with_channel None (thread b)).
  change (__was_user_shutdown (RabbitThread.with_channel None (thread b)) reply_code reply_text)
    with (__was_user_shutdown (thread b) reply_code reply_text).
  change (__was_permanent_error (RabbitThread.with_channel None (thread b)) reply_code reply_text)
    with (__was_permanent_error (thread b) reply_code reply_text).
  rewrite Hu, Hp.
  destruct (on_connection_error _ _ _) as [[es b'] r]. reflexivity.
Qed.

(** C3, as stated, fails: a channel close with code 404 that does not name
    the fallback exchange changes nothing when the state machine is already
    [PERMANENTLY_UNAVAILABLE]; the exchange stays the primary one, the state
    is not set to [WAITING_TO_BE_AVAILABLE], no channel is opened. *)
Lemma missing_exchange_ignored_when_permanently_unavailable :
  contains "NOT_FOUND - no exchange 'FALLBACK'" (no_exchange "esgffed-exchange") = false
  /\ on_channel_closed 1%nat 404 (no_exchange "esgffed-exchange")
       (busy_builder PERMANENTLY_UNAVAILABLE)
     = ([], busy_builder PERMANENTLY_UNAVAILABLE, inr tt)
  /\ RabbitThread.exchange_name
       (thread (after (on_channel_closed 1%nat 404 (no_exchange "esgffed-exchange")
                         (busy_builder PERMANENTLY_UNAVAILABLE))))
     <> __fallback_exchange_name (busy_builder PERMANENTLY_UNAVAILABLE)
  /\ state_of (after (on_channel_closed 1%nat 404 (no_exchange "esgffed-exchange")
                        (busy_builder PERMANENTLY_UNAVAILABLE)))
     <> WAITING_TO_BE_AVAILABLE.
Proof.
  split; [vm_compute; reflexivity|].
  split; [vm_compute; reflexivity|].
  split; vm_compute; discriminate.
Qed.

(** The state after an operation of the state machine, and after the
    builders in closed form. *)
Lemma state_of_set_state s b :
  state_of (with_statemachine (StateMachine.set_state s) b)
    = if StateMachine.terminal (state_of b) then state_of b else s.
Proof. apply state_set_state. Qed.

Lemma fallen_back_state b :
  state_of (fallen_back b)
    = if StateMachine.terminal (state_of b) then state_of b else WAITING_TO_BE_AVAILABLE.
Proof.
  unfold fallen_back, state_of. cbn -[rescue].
  change StateMachine.set_to_waiting_to_be_available
    with (StateMachine.set_state WAITING_TO_BE_AVAILABLE).
  rewrite !state_set_state.
  destruct (StateMachine.state (statemachine b)); reflexivity.
Qed.

Lemma permanently_closed_state b :
  state_of (permanently_closed b)
    = if StateMachine.terminal (state_of b) then state_of b else PERMANENTLY_UNAVAILABLE.
Proof. apply state_set_state. Qed.

(** After a timer of [on_connection_error], [reconnect] opens one
    connection, to the host the node manager points to. *)
Lemma milestones_reconnect b c :
  RabbitThread._connection (thread b) = Some c ->
  milestones (effects (reconnect Ioloop_runs b))
    = [Attempt (NodeManager.host (NodeManager.get_connection_parameters (__node_manager b)))].
Proof.
  intros H. rewrite (reconnect_runs b c H).
  unfold effects. cbn [fst]. rewrite milestones_app, milestones_rescue_calls. reflexivity.
Qed.

(** C3, amended.  Unless the state machine is [PERMANENTLY_UNAVAILABLE]
    (then the close is taken as the user's and nothing is done): a channel
    close with code 404 whose text does not name the fallback exchange makes
    the builder set the exchange name to the fallback name, ask for the state
    [WAITING_TO_BE_AVAILABLE] (which it gets, the force-finish apart), run the
    rescue step and open a new channel on the connection it has; no
    connection is opened, no timer is armed, the node manager and the
    reconnect counter are untouched.  If the text names the fallback exchange
    the builder closes the connection instead.  When that close comes back
    to [on_connection_closed] with a reason that is neither the user's nor a
    permanent error, and no force-finish was given, it is a failed
    connection: unless the tries are used up a timer is armed on the
    connection, the state is [WAITING_TO_BE_AVAILABLE], and the [reconnect]
    of the timer opens one connection, to the host the node manager then
    points to. *)
Theorem missing_exchange_falls_back_on_the_same_connection
    (b : ConnectionBuilder) (channel : Channel) (reply_text : string) (c : Connection) :
  state_of b <> PERMANENTLY_UNAVAILABLE ->
  RabbitThread._connection (thread b) = Some c ->
  on_channel_closed channel 404 reply_text b
    = (if contains "NOT_FOUND - no exchange 'FALLBACK'" reply_text
       then ([Connection_close c], b, inr tt)
       else (Thread_set_exchange_name (__fallback_exchange_name b)
               :: rescue_calls (thread b) ++ [Connection_channel c],
             fallen_back b, inr tt))
  /\ RabbitThread.exchange_name (thread (fallen_back b)) = __fallback_exchange_name b
  /\ state_of (fallen_back b)
     = match state_of b with
       | FORCE_FINISHED => FORCE_FINISHED
       | _ => WAITING_TO_BE_AVAILABLE
       end
  /\ thread (fallen_back b)
     = rescue (RabbitThread.set_exchange_name (__fallback_exchange_name b) (thread b))
  /\ RabbitThread._connection (thread (fallen_back b)) = Some c
  /\ __node_manager (fallen_back b) = __node_manager b
  /\ __reconnect_counter (fallen_back b) = __reconnect_counter b
  /\ connection_attempts (effects (on_channel_closed channel 404 reply_text b)) = 0%nat
  /\ armed_timeout (effects (on_channel_closed channel 404 reply_text b)) = None
  /\ (forall code text,
        __was_user_shutdown (thread b) code text = false ->
        __was_permanent_error (thread b) code text = false ->
        state_of b <> FORCE_FINISHED ->
        let b0 := with_thread (RabbitThread.with_channel None) b in
        let r := on_connection_closed c code text b in
        r = (if NodeManager.has_more_urls (__node_manager b) then
               ([Connection_add_timeout c 0],
                with_statemachine StateMachine.set_to_waiting_to_be_available
                  (with_node_manager NodeManager.set_next_host b0),
                inr tt)
             else if (__reconnect_counter b + 1 <=? __max_reconnection_tries b)%Z then
               ([Connection_add_timeout c (__wait_seconds_before_reconnect b)],
                with_statemachine StateMachine.set_to_waiting_to_be_available
                  (with_node_manager NodeManager.reset_nodes
                     (with_reconnect_counter (__reconnect_counter b + 1) b0)),
                inr tt)
             else
               ([], given_up b0,
                inl (PIDServerException
                       (Gave_up_after_tries (__all_hosts_that_were_tried b)
                                            (__max_reconnection_tries b)))))
        /\ (outcome r = inr tt ->
            state_of (after r) = WAITING_TO_BE_AVAILABLE
            /\ milestones (effects (reconnect Ioloop_runs (after r)))
               = [Attempt (NodeManager.host
                             (NodeManager.get_connection_parameters
                                (__node_manager (after r))))])).
Proof.
  intros Hs Hc.
  assert (Hp : StateMachine.is_PERMANENTLY_UNAVAILABLE (statemachine b) = false).
  { unfold state_of in Hs. unfold StateMachine.is_PERMANENTLY_UNAVAILABLE.
    destruct (StateMachine.state (statemachine b)); congruence. }
  assert (E : on_channel_closed channel 404 reply_text b
    = (if contains "NOT_FOUND - no exchange 'FALLBACK'" reply_text
       then ([Connection_close c], b, inr tt)
       else (Thread_set_exchange_name (__fallback_exchange_name b)
               :: rescue_calls (thread b) ++ [Connection_channel c],
             fallen_back b, inr tt))).
  { unfold on_channel_closed. head_get. rewrite Hp.
    change (404 =? 404)%Z with true. cbn [andb].
    destruct (contains _ reply_text).
    - rewrite (bind_ok _ _ _ _ _ _ (the_connection_run _ _ Hc)). reflexivity.
    - rewrite (use_different_exchange_and_reopen_channel_run _ _ Hc).
      reflexivity. }
  split; [exact E|].
  split; [cbn -[rescue]; unfold rescue; cbn -[Nat.ltb]; destruct (0 <? _)%nat; reflexivity|].
  split.
  { rewrite fallen_back_state. destruct (state_of b); try reflexivity. congruence. }
  split; [reflexivity|].
  split; [cbn -[rescue]; rewrite rescue_connection; exact Hc|].
  split; [reflexivity|]. split; [reflexivity|].
  split.
  { rewrite E. destruct (contains _ reply_text); [reflexivity|].
    unfold effects. cbn [fst]. cbn [connection_attempts].
    rewrite connection_attempts_app, connection_attempts_rescue_calls. reflexivity. }
  split.
  { rewrite E. destruct (contains _ reply_text); [reflexivity|].
    unfold effects, rescue_calls. cbn -[Nat.ltb]. destruct (0 <? _)%nat; reflexivity. }
  intros code text Hu Hperm Hlive b0 r.
  assert (HF : StateMachine.is_FORCE_FINISHED (statemachine b0) = false)
    by (apply not_FORCE_FINISHED; exact Hlive).
  assert (Er : r = on_connection_error c text b0)
    by (apply on_connection_closed_otherwise; assumption).
  assert (Hth : RabbitThread._connection (thread (after r)) = Some c).
  { rewrite Er, on_connection_error_thread. exact Hc. }
  split.
  { rewrite Er. rewrite on_connection_error_live by exact HF. reflexivity. }
  intros Ho. split; [|exact (milestones_reconnect _ c Hth)].
  revert Ho. rewrite Er. rewrite on_connection_error_live by exact HF.
  change (__node_manager b0) with (__node_manager b).
  change (__reconnect_counter b0) with (__reconnect_counter b).
  change (__max_reconnection_tries b0) with (__max_reconnection_tries b).
  assert (Hw : forall b1, state_of b1 = state_of b ->
                 state_of (with_statemachine StateMachine.set_to_waiting_to_be_available b1)
                 = WAITING_TO_BE_AVAILABLE).
  { intros b1 H1.
    change StateMachine.set_to_waiting_to_be_available
      with (StateMachine.set_state WAITING_TO_BE_AVAILABLE).
    rewrite state_of_set_state, H1.
    destruct (state_of b); try reflexivity; congruence. }
  destruct (NodeManager.has_more_urls _); [intros _; apply Hw; reflexivity|].
  destruct (_ <=? _)%Z; [intros _; apply Hw; reflexivity|].
  unfold outcome. cbn [snd]. discriminate.
Qed.

Lemma missing_exchange_falls_back_on_the_same_connection_witness :
  state_of (busy_builder AVAILABLE) <> PERMANENTLY_UNAVAILABLE
  /\ RabbitThread.exchange_name (thread (fallen_back (busy_builder AVAILABLE))) = "FALLBACK"
  /\ state_of (fallen_back (busy_builder AVAILABLE)) = WAITING_TO_BE_AVAILABLE
  /\ on_channel_closed 1%nat 404 (no_exchange "FALLBACK") (busy_builder AVAILABLE)
     = ([Connection_close 0%nat], busy_builder AVAILABLE, inr tt)
  /\ effects (on_connection_closed 0%nat 200 "Normal shutdown" (busy_builder AVAILABLE))
     = [Connection_add_timeout 0%nat 0]
  /\ milestones
       (effects (reconnect Ioloop_runs
                   (after (on_connection_closed 0%nat 200 "Normal shutdown"
                             (busy_builder AVAILABLE)))))
     = [Attempt "h2"].
Proof.
  split; [discriminate|].
  destruct (missing_exchange_falls_back_on_the_same_connection
              (busy_builder AVAILABLE) 1%nat (no_exchange "FALLBACK") 0%nat)
    as (E & Hx & Hs & _ & _ & _ & _ & _ & _ & Hchain).
  - discriminate.
  - reflexivity.
  - split; [exact Hx|]. split; [exact Hs|]. split; [exact E|].
    destruct (Hchain 200 "Normal shutdown") as (Er & Hrec).
    + reflexivity.
    + reflexivity.
    + discriminate.
    + split; [rewrite Er; reflexivity|].
      destruct Hrec as (_ & Hm); [rewrite Er; reflexivity|].
      rewrite Hm, Er. reflexivity.
Defined.

(** C6, as stated, fails: when the connection is closed by a forced
    shutdown of the user, [on_connection_closed] stops the loop and sets the
    state, but it does not call [unblock_events]; nobody who waits is
    released by it. *)
Lemma user_shutdown_releases_nobody :
  __was_user_shutdown (thread (busy_builder AVAILABLE)) 999 "Closed (forced finish)" = true
  /\ effects (on_connection_closed 0%nat 999 "Closed (forced finish)" (busy_builder AVAILABLE))
     = [Ioloop_stop 0%nat]
  /\ ~ In Thread_unblock_events
         (effects (on_connection_closed 0%nat 999 "Closed (forced finish)"
                     (busy_builder AVAILABLE))).
Proof.
  split; [vm_compute; reflexivity|].
  split; [vm_compute; reflexivity|].
  vm_compute. intros [H|[]]. discriminate H.
Qed.

(** C6, amended.  [on_connection_closed] forgets the channel and looks at
    the reason.  The user's close code with the text of a forced or of a
    normal shutdown: [set_to_permanently_unavailable] is called and the loop
    is stopped, nothing else.  Otherwise the text of a permanent error:
    [set_to_permanently_unavailable] is called, the waiting callers are
    released by [unblock_events] and the loop is stopped.  In both cases the
    state is [PERMANENTLY_UNAVAILABLE] afterwards, unless it was
    [FORCE_FINISHED], which is kept; no timer is armed and no connection is
    opened.  Every other reason is handed to [on_connection_error]. *)
Theorem connection_closed_is_classified
    (b : ConnectionBuilder) (connection : Connection) (reply_code : Z) (reply_text : string)
    (c : Connection) :
  RabbitThread._connection (thread b) = Some c ->
  on_connection_closed connection reply_code reply_text b
    = (if __was_user_shutdown (thread b) reply_code reply_text then
         ([Ioloop_stop c], permanently_closed b, inr tt)
       else if __was_permanent_error (thread b) reply_code reply_text then
         ([Thread_unblock_events; Ioloop_stop c], permanently_closed b, inr tt)
       else
         on_connection_error connection reply_text
           (with_thread (RabbitThread.with_channel None) b))
  /\ state_of (permanently_closed b)
     = match state_of b with
       | FORCE_FINISHED => FORCE_FINISHED
       | _ => PERMANENTLY_UNAVAILABLE
       end
  /\ __was_user_shutdown (thread b) reply_code reply_text
     = (reply_code =? RabbitThread.ERROR_CODE_CONNECTION_CLOSED_BY_USER (thread b))%Z
       && (contains (RabbitThread.ERROR_TEXT_CONNECTION_FORCE_CLOSED (thread b)) reply_text
           || contains (RabbitThread.ERROR_TEXT_CONNECTION_NORMAL_SHUTDOWN (thread b)) reply_text)
  /\ __was_permanent_error (thread b) reply_code reply_text
     = contains (RabbitThread.ERROR_TEXT_CONNECTION_PERMANENT_ERROR (thread b)) reply_text.
Proof.
  intros Hc.
  split.
  { destruct (__was_user_shutdown (thread b) reply_code reply_text) eqn:Hu.
    - unfold on_connection_closed. head_modify. head_get.
      change (__was_user_shutdown (thread (with_thread (RabbitThread.with_channel None) b))
                reply_code reply_text)
        with (__was_user_shutdown (thread b) reply_code reply_text).
      rewrite Hu. unfold make_permanently_closed_by_user, set_to_permanently_unavailable.
      head_modify.
      rewrite (bind_ok _ _ _ _ _ _ (the_connection_run (permanently_closed b) c Hc)).
      reflexivity.
    - destruct (__was_permanent_error (thread b) reply_code reply_text) eqn:Hp.
      + unfold on_connection_closed. head_modify. head_get.
        change (__was_user_shutdown (thread (with_thread (RabbitThread.with_channel None) b))
                  reply_code reply_text)
          with (__was_user_shutdown (thread b) reply_code reply_text).
        change (__was_permanent_error (thread (with_thread (RabbitThread.with_channel None) b))
                  reply_code reply_text)
          with (__was_permanent_error (thread b) reply_code reply_text).
        rewrite Hu, Hp. unfold make_permanently_closed_by_error, set_to_permanently_unavailable.
        head_modify. head_emit.
        rewrite (bind_ok _ _ _ _ _ _ (the_connection_run (permanently_closed b) c Hc)).
        reflexivity.
      + apply on_connection_closed_otherwise; assumption. }
  split; [rewrite permanently_closed_state; destruct (state_of b); reflexivity|].
  split.
  { unfold __was_user_shutdown, __was_forced_user_shutdown, __was_gentle_user_shutdown.
    destruct (reply_code =? _)%Z; cbn [andb]; [|reflexivity].
    destruct (contains _ reply_text); [reflexivity|].
    destruct (contains _ reply_text); reflexivity. }
  unfold __was_permanent_error. destruct (contains _ reply_text); reflexivity.
Qed.

Lemma connection_closed_is_classified_witness :
  RabbitThread._connection (thread (busy_builder AVAILABLE)) = Some 0%nat
  /\ on_connection_closed 0%nat 320 "CONNECTION_FORCED (permanent error)" (busy_builder AVAILABLE)
     = ([Thread_unblock_events; Ioloop_stop 0%nat],
        permanently_closed (busy_builder AVAILABLE), inr tt).
Proof.
  split; [reflexivity|].
  destruct (connection_closed_is_classified
              (busy_builder AVAILABLE) 0%nat 320 "CONNECTION_FORCED (permanent error)" 0%nat
              eq_refl) as (E & _).
  rewrite E. vm_compute. reflexivity.
Defined.

(** *** Authentication failure *)

(** C8. When [ProbableAuthenticationError] comes out of the loop,
    [__start_waiting_for_events] catches it, asks for the state
    [WAITING_TO_BE_AVAILABLE] (which it gets unless the state is terminal),
    notes the authentication exception and calls [on_connection_error]
    itself on the connection, then starts the loop again: what happens is
    what [on_connection_error] does for any failed connection.  The
    authentication error is never passed on to the caller; after a
    force-finish the fatal error of the force-finish is raised, as for every
    failed connection; otherwise, with an untried host left, the cursor moves
    to it and the timer is armed with zero seconds. *)
Theorem authentication_failure_is_a_connection_failure
    (b : ConnectionBuilder) (c : Connection) :
  RabbitThread._connection (thread b) = Some c ->
  let b' := with_statemachine (StateMachine.set_detail_authentication_exception true)
              (with_statemachine StateMachine.set_to_waiting_to_be_available b) in
  let r := on_connection_error c "ProbableAuthenticationError issued by pika" b' in
  __start_waiting_for_events (Ioloop_raises ProbableAuthenticationError) b
    = ([Thread_tell_publisher_to_stop_waiting_for_thread_to_accept_events;
        Thread_continue_gently_closing_if_applicable;
        Ioloop_start c]
       ++ effects r
       ++ (match outcome r with inr _ => [Ioloop_start c] | inl _ => [] end),
       after r, outcome r)
  /\ state_of b'
     = (if StateMachine.terminal (state_of b) then state_of b else WAITING_TO_BE_AVAILABLE)
  /\ StateMachine.detail_authentication_exception (statemachine b') = true
  /\ outcome r <> inl ProbableAuthenticationError
  /\ (state_of b = FORCE_FINISHED ->
      r = ([], b',
           inl (PIDServerException
                  (Gave_up_on_force_finish (__all_hosts_that_were_tried b)))))
  /\ (state_of b <> FORCE_FINISHED ->
      NodeManager.has_more_urls (__node_manager b) = true ->
      r = ([Connection_add_timeout c 0],
           with_statemachine StateMachine.set_to_waiting_to_be_available
             (with_node_manager NodeManager.set_next_host b'),
           inr tt)
      /\ NodeManager.cursor (__node_manager (after r))
         = S (NodeManager.cursor (__node_manager b))).
Proof.
  intros Hc b' r.
  assert (HF : StateMachine.is_FORCE_FINISHED (statemachine b')
               = StateMachine.is_FORCE_FINISHED (statemachine b))
    by exact (caught_is_FORCE_FINISHED ProbableAuthenticationError b).
  assert (Hc' : RabbitThread._connection (thread b') = Some c) by exact Hc.
  assert (Hr : RabbitThread._connection (thread (after r)) = Some c).
  { unfold r. rewrite on_connection_error_thread. exact Hc'. }
  split.
  { unfold __start_waiting_for_events. head_get. rewrite Hc.
    head_emit. head_emit. head_emit.
    unfold set_to_waiting_to_be_available. head_modify.
    head_modify. fold b'.
    rewrite (bind_ok _ _ _ _ _ _ (the_connection_run b' c Hc')).
    cbv beta. rewrite !(bind_result (on_connection_error c _)). fold r.
    clearbody r. destruct r as [[es b1] [e|[]]].
    - unfold effects, after, outcome. cbn. rewrite app_nil_r. reflexivity.
    - unfold effects, after, outcome in *. cbn [fst snd] in *.
      rewrite !(bind_ok _ _ _ _ _ _ (the_connection_run b1 c Hr)). reflexivity. }
  split; [exact (caught_state ProbableAuthenticationError b)|].
  split; [reflexivity|].
  split.
  { unfold r. destruct (StateMachine.is_FORCE_FINISHED (statemachine b')) eqn:F.
    - rewrite on_connection_error_finished by exact F. discriminate.
    - rewrite on_connection_error_live by exact F.
      destruct (NodeManager.has_more_urls _); [discriminate|].
      destruct (_ <=? _)%Z; discriminate. }
  split.
  { intros Hs. unfold r.
    change (__all_hosts_that_were_tried b) with (__all_hosts_that_were_tried b').
    apply on_connection_error_finished.
    rewrite HF. apply is_FORCE_FINISHED_true. exact Hs. }
  intros Hs Hm. apply not_FORCE_FINISHED in Hs. rewrite <- HF in Hs.
  unfold r. rewrite on_connection_error_live by exact Hs.
  change (__node_manager b') with (__node_manager b). rewrite Hm.
  split; [reflexivity|].
  unfold after. cbn. unfold NodeManager.set_next_host. rewrite Hm. reflexivity.
Qed.

Lemma authentication_failure_is_a_connection_failure_witness :
  RabbitThread._connection (thread (busy_builder WAITING_TO_BE_AVAILABLE)) = Some 0%nat
  /\ milestones
       (effects (__start_waiting_for_events (Ioloop_raises ProbableAuthenticationError)
                   (busy_builder WAITING_TO_BE_AVAILABLE)))
     = [Wait 0].
Proof.
  split; [reflexivity|].
  destruct (authentication_failure_is_a_connection_failure
              (busy_builder WAITING_TO_BE_AVAILABLE) 0%nat eq_refl) as (E & _).
  rewrite E. vm_compute. reflexivity.
Defined.

(** *** Channel open *)

Lemma emit_times_run n e b : emit_times n e b = (repeat e n, b, inr tt).
Proof.
  induction n as [|n IH]; [reflexivity|].
  cbn [emit_times repeat]. head_emit. rewrite IH. reflexivity.
Qed.

Lemma check_for_already_arrived_messages_run b :
  exists es, __check_for_already_arrived_messages_and_publish_them b = (es, b, inr tt).
Proof.
  unfold __check_for_already_arrived_messages_and_publish_them.
  head_get.
  destruct (0 <? _)%nat.
  - rewrite emit_times_run. eexists. reflexivity.
  - eexists. reflexivity.
Qed.

Lemma make_ready_for_publishing_run b :
  exists es sm,
    __make_ready_for_publishing b = (es, with_statemachine (fun _ => sm) b, inr tt)
    /\ (StateMachine.state (statemachine b) <> FORCE_FINISHED ->
        StateMachine.state sm <> FORCE_FINISHED)
    /\ (StateMachine.terminal (StateMachine.state (statemachine b)) = true ->
        StateMachine.terminal (StateMachine.state sm) = true)
    /\ (StateMachine.state (statemachine b) = WAITING_TO_BE_AVAILABLE ->
        RabbitThread._channel (thread b) <> None ->
        RabbitThread._connection (thread b) <> None ->
        StateMachine.state sm = AVAILABLE).
Proof.
  unfold __make_ready_for_publishing.
  head_get.
  destruct b as [th sm cf rh sh nm cnt mx ws tried fb oc].
  destruct sm as [s f1 f2 f3].
  cbn [thread statemachine].
  destruct (RabbitThread._channel th) as [ch|] eqn:Hch;
    destruct (RabbitThread._connection th) as [c|] eqn:Hc;
    destruct s; destruct f1;
    unfold when, is_None, bind, get, modify, ret, emit, set_to_permanently_unavailable,
      set_to_available, with_statemachine;
    cbn -[__check_for_already_arrived_messages_and_publish_them];
    try match goal with
      | |- context [__check_for_already_arrived_messages_and_publish_them ?b0] =>
          destruct (check_for_already_arrived_messages_run b0) as [es0 E0]; rewrite E0
      end;
    cbn;
    (eexists _, _; split; [reflexivity|]);
    cbn; repeat split; intros; congruence.
Qed.

Lemma on_channel_open_run channel b :
  exists es sm,
    on_channel_open channel b
      = (es,
         with_statemachine (fun _ => sm)
           (with_reconnect_counter 0
              (with_thread (RabbitThread.with_channel (Some channel)) b)),
         inr tt)
    /\ (state_of b <> FORCE_FINISHED -> StateMachine.state sm <> FORCE_FINISHED)
    /\ (StateMachine.terminal (state_of b) = true ->
        StateMachine.terminal (StateMachine.state sm) = true)
    /\ (state_of b = WAITING_TO_BE_AVAILABLE ->
        RabbitThread._connection (thread b) <> None ->
        StateMachine.state sm = AVAILABLE).
Proof.
  unfold on_channel_open.
  head_modify. head_modify.
  set (b1 := with_reconnect_counter 0 _).
  assert (Hch : RabbitThread._channel (thread b1) = Some channel) by reflexivity.
  unfold __add_on_channel_close_callback, __add_on_return_callback,
    __make_channel_confirm_delivery, the_channel.
  unfold bind at 1. unfold bind at 1. head_get. rewrite Hch.
  unfold ret at 1, emit at 1.
  unfold bind at 1. unfold bind at 1. head_get. rewrite Hch.
  unfold ret at 1, emit at 1.
  unfold bind at 1. unfold bind at 1. head_get. rewrite Hch.
  unfold ret at 1, emit at 1.
  destruct (make_ready_for_publishing_run b1) as (es & sm & E & H1 & H2 & H3).
  rewrite E. exists ([] ++ [] ++ ([] ++ [Channel_add_on_close_callback channel]) ++
                       ([] ++ [Channel_add_on_return_callback channel]) ++
                       ([] ++ [Channel_confirm_delivery channel]) ++ es), sm.
  split; [reflexivity|].
  split; [exact H1|]. split; [exact H2|].
  intros Hs Hc. apply H3; [exact Hs | discriminate | exact Hc].
Qed.

(** C10. Every call of [on_channel_open] returns with the reconnect counter
    at zero, whatever it was.  Hence, if the connection is lost afterwards
    and every attempt fails from then on, the run goes through the rest of
    the cycle and through as many further cycles as the maximum allows
    before the fatal error: the failures before the channel was opened do
    not count. *)
Theorem channel_open_resets_the_reconnect_counter
    (b : ConnectionBuilder) (channel : Channel) :
  outcome (on_channel_open channel b) = inr tt
  /\ __reconnect_counter (after (on_channel_open channel b)) = 0
  /\ (forall (c : Connection) (fuel : nat),
        state_of b <> FORCE_FINISHED ->
        RabbitThread._connection (thread b) = Some c ->
        (NodeManager.get_num_left_urls (__node_manager b)
         + Z.to_nat (__max_reconnection_tries b)
           * length (NodeManager.nodes (__node_manager b)) < fuel)%nat ->
        connection_attempts
          (effects (every_attempt_fails fuel (after (on_channel_open channel b))))
        = (NodeManager.get_num_left_urls (__node_manager b)
           + Z.to_nat (__max_reconnection_tries b)
             * length (NodeManager.nodes (__node_manager b)))%nat
        /\ outcome (every_attempt_fails fuel (after (on_channel_open channel b)))
           = Fatal (PIDServerException
                      (Gave_up_after_tries
                         (__all_hosts_that_were_tried
                            (after (every_attempt_fails fuel
                                      (after (on_channel_open channel b)))))
                         (__max_reconnection_tries b)))).
Proof.
  destruct (on_channel_open_run channel b) as (es & sm & E & H1 & _).
  rewrite E. clear E.
  set (b1 := with_statemachine _ _).
  change (after (es, b1, inr tt)) with b1. change (outcome (es, b1, inr tt)) with (inr (A:=Exception) tt).
  split; [reflexivity|]. split; [reflexivity|].
  intros c fuel Hs Hc Hfuel.
  destruct (every_attempt_fails_run fuel b1 c) as (es' & b' & E' & Hms & _).
  - specialize (H1 Hs). unfold b1. cbn.
    unfold StateMachine.is_FORCE_FINISHED. destruct (StateMachine.state sm); congruence.
  - exact Hc.
  - unfold b1. cbn -[Z.sub Nat.mul NodeManager.get_num_left_urls NodeManager.nodes].
    rewrite Z.sub_0_r. exact Hfuel.
  - rewrite E'. unfold effects, after, outcome. cbn [fst snd].
    split; [|reflexivity].
    rewrite connection_attempts_milestones, Hms, attempts_of_app,
      attempts_of_rest_of_cycle, attempts_of_later_cycles.
    unfold b1. cbn -[Z.sub Nat.mul NodeManager.get_num_left_urls NodeManager.nodes drop].
    rewrite Z.sub_0_r, length_drop, get_num_left_urls_others. reflexivity.
Qed.

Lemma channel_open_resets_the_reconnect_counter_witness :
  state_of (busy_builder WAITING_TO_BE_AVAILABLE) <> FORCE_FINISHED
  /\ connection_attempts
       (effects (every_attempt_fails 20
                   (after (on_channel_open 4%nat
                             (with_reconnect_counter 2
                                (busy_builder WAITING_TO_BE_AVAILABLE))))))
     = 8%nat.
Proof.
  split; [discriminate|].
  destruct (channel_open_resets_the_reconnect_counter
              (with_reconnect_counter 2 (busy_builder WAITING_TO_BE_AVAILABLE)) 4%nat)
    as (_ & _ & H).
  destruct (H 0%nat 20%nat) as (Ha & _).
  - discriminate.
  - reflexivity.
  - vm_compute. lia.
  - exact Ha.
Defined.

(** *** Terminal states *)

(** A method keeps a terminal state if the statements it is made of do. *)
Lemma keeps_bind {A B} (m : M A) (k : A -> M B) :
  keeps_terminal_state m -> (forall a, keeps_terminal_state (k a)) ->
  keeps_terminal_state (bind m k).
Proof.
  intros Hm Hk b Ht. rewrite bind_result.
  specialize (Hm b Ht).
  destruct (outcome (m b)) as [e|a]; [exact Hm|].
  change (state_of (after (k a (after (m b)))) = state_of b).
  rewrite <- Hm. apply Hk. rewrite Hm. exact Ht.
Qed.

Lemma keeps_ret {A} (a : A) : keeps_terminal_state (ret a).
Proof. intros b _. reflexivity. Qed.

Lemma keeps_raise {A} (e : Exception) : keeps_terminal_state (raise (A:=A) e).
Proof. intros b _. reflexivity. Qed.

Lemma keeps_emit (e : Effect) : keeps_terminal_state (emit e).
Proof. intros b _. reflexivity. Qed.

Lemma keeps_get : keeps_terminal_state get.
Proof. intros b _. reflexivity. Qed.

Lemma keeps_modify (f : ConnectionBuilder -> ConnectionBuilder) :
  (forall b, StateMachine.terminal (state_of b) = true -> state_of (f b) = state_of b) ->
  keeps_terminal_state (modify f).
Proof. intros H b Ht. exact (H b Ht). Qed.

Lemma keeps_set_state (s : LifecycleState) :
  keeps_terminal_state (modify (with_statemachine (StateMachine.set_state s))).
Proof.
  apply keeps_modify. intros b Ht. rewrite state_of_set_state, Ht. reflexivity.
Qed.

Lemma keeps_set_to_waiting_to_be_available :
  keeps_terminal_state set_to_waiting_to_be_available.
Proof. exact (keeps_set_state WAITING_TO_BE_AVAILABLE). Qed.

Lemma keeps_set_to_available : keeps_terminal_state set_to_available.
Proof. exact (keeps_set_state AVAILABLE). Qed.

Lemma keeps_set_to_permanently_unavailable :
  keeps_terminal_state set_to_permanently_unavailable.
Proof. exact (keeps_set_state PERMANENTLY_UNAVAILABLE). Qed.

Lemma keeps_other_attributes (f : ConnectionBuilder -> ConnectionBuilder) :
  (forall b, state_of (f b) = state_of b) -> keeps_terminal_state (modify f).
Proof. intros H. apply keeps_modify. intros b _. apply H. Qed.

Lemma keeps_when (c : bool) (m : M unit) :
  keeps_terminal_state m -> keeps_terminal_state (when c m).
Proof. intros H. destruct c; [exact H | apply keeps_ret]. Qed.

Lemma keeps_emit_times n e : keeps_terminal_state (emit_times n e).
Proof. intros b _. rewrite emit_times_run. reflexivity. Qed.

Create HintDb keeps.

#[local] Hint Resolve keeps_ret keeps_raise keeps_emit keeps_get
  keeps_set_to_waiting_to_be_available keeps_set_to_available
  keeps_set_to_permanently_unavailable keeps_when keeps_emit_times : keeps.

(** One statement of a method body after the other. *)
Ltac keeps :=
  repeat first
    [ solve [auto with keeps]
    | match goal with
      | |- keeps_terminal_state (bind _ _) => apply keeps_bind; [|intros ?]
      | |- keeps_terminal_state (modify _) =>
          apply keeps_other_attributes; intros ?; reflexivity
      | |- keeps_terminal_state (if ?c then _ else _) => destruct c
      | |- keeps_terminal_state (match ?x with _ => _ end) => destruct x
      | |- keeps_terminal_state (let _ := _ in _) => cbv zeta
      end ].

Lemma keeps_the_connection : keeps_terminal_state the_connection.
Proof. unfold the_connection. keeps. Qed.

Lemma keeps_the_channel : keeps_terminal_state the_channel.
Proof. unfold the_channel. keeps. Qed.

#[local] Hint Resolve keeps_the_connection keeps_the_channel : keeps.

Lemma keeps_wait_and_trigger_reconnection connection wait_seconds :
  keeps_terminal_state (__wait_and_trigger_reconnection connection wait_seconds).
Proof. unfold __wait_and_trigger_reconnection. keeps. Qed.

#[local] Hint Resolve keeps_wait_and_trigger_reconnection : keeps.

Lemma keeps_on_connection_error connection msg :
  keeps_terminal_state (on_connection_error connection msg).
Proof. unfold on_connection_error. keeps. Qed.

#[local] Hint Resolve keeps_on_connection_error : keeps.

Lemma keeps_start_waiting_for_events run :
  keeps_terminal_state (__start_waiting_for_events run).
Proof. unfold __start_waiting_for_events. keeps. Qed.

Lemma keeps_please_open_connection : keeps_terminal_state __please_open_connection.
Proof. unfold __please_open_connection. keeps. Qed.

#[local] Hint Resolve keeps_start_waiting_for_events keeps_please_open_connection : keeps.

Lemma keeps_first_connection run : keeps_terminal_state (first_connection run).
Proof. unfold first_connection, __trigger_connection_to_rabbit_etc. keeps. Qed.

Lemma keeps_please_open_rabbit_channel : keeps_terminal_state __please_open_rabbit_channel.
Proof. unfold __please_open_rabbit_channel. keeps. Qed.

#[local] Hint Resolve keeps_first_connection keeps_please_open_rabbit_channel : keeps.

Lemma keeps_on_connection_open unused_connection :
  keeps_terminal_state (on_connection_open unused_connection).
Proof. unfold on_connection_open. keeps. Qed.

Lemma keeps_check_for_already_arrived_messages :
  keeps_terminal_state __check_for_already_arrived_messages_and_publish_them.
Proof. unfold __check_for_already_arrived_messages_and_publish_them. keeps. Qed.

#[local] Hint Resolve keeps_check_for_already_arrived_messages : keeps.

Lemma keeps_make_ready_for_publishing : keeps_terminal_state __make_ready_for_publishing.
Proof. unfold __make_ready_for_publishing. keeps. Qed.

#[local] Hint Resolve keeps_make_ready_for_publishing : keeps.

Lemma keeps_on_channel_open channel : keeps_terminal_state (on_channel_open channel).
Proof.
  unfold on_channel_open, __add_on_channel_close_callback, __add_on_return_callback,
    __make_channel_confirm_delivery.
  keeps.
Qed.

Lemma keeps_prepare_channel_reopen operation_string :
  keeps_terminal_state (__prepare_channel_reopen operation_string).
Proof.
  unfold __prepare_channel_reopen, __prepare_republication_of_unconfirmed. keeps.
Qed.

#[local] Hint Resolve keeps_prepare_channel_reopen : keeps.

Lemma keeps_reconnect run : keeps_terminal_state (reconnect run).
Proof. unfold reconnect. keeps. Qed.

Lemma keeps_use_different_exchange_and_reopen_channel :
  keeps_terminal_state __use_different_exchange_and_reopen_channel.
Proof. unfold __use_different_exchange_and_reopen_channel. keeps. Qed.

#[local] Hint Resolve keeps_use_different_exchange_and_reopen_channel : keeps.

Lemma keeps_on_channel_closed channel reply_code reply_text :
  keeps_terminal_state (on_channel_closed channel reply_code reply_text).
Proof. unfold on_channel_closed. keeps. Qed.

Lemma keeps_make_permanently_closed_by_user :
  keeps_terminal_state make_permanently_closed_by_user.
Proof. unfold make_permanently_closed_by_user. keeps. Qed.

Lemma keeps_make_permanently_closed_by_error connection reply_text :
  keeps_terminal_state (make_permanently_closed_by_error connection reply_text).
Proof. unfold make_permanently_closed_by_error. keeps. Qed.

#[local] Hint Resolve keeps_make_permanently_closed_by_user
  keeps_make_permanently_closed_by_error : keeps.

Lemma keeps_on_connection_closed connection reply_code reply_text :
  keeps_terminal_state (on_connection_closed connection reply_code reply_text).
Proof. unfold on_connection_closed. keeps. Qed.

Lemma on_connection_open_builder b unused_connection :
  after (on_connection_open unused_connection b) = b.
Proof.
  unfold on_connection_open, __please_open_rabbit_channel.
  head_emit.
  destruct (RabbitThread._connection (thread b)) as [c|] eqn:Hc.
  - rewrite (bind_ok _ _ _ _ _ _ (the_connection_run _ _ Hc)). reflexivity.
  - rewrite (bind_raised _ _ _ _ _ _ (the_connection_none _ Hc)). reflexivity.
Qed.

(** C9. [PERMANENTLY_UNAVAILABLE] and [FORCE_FINISHED] are terminal for the
    builder: whatever callback or entry point of the class is called in one
    of the two states, with whatever arguments, and whether it returns or
    raises, the state afterwards is the state before.  The methods do call
    [set_to_waiting_to_be_available], [set_to_available] and
    [set_to_permanently_unavailable] in these states; it is the state
    machine that does not follow. *)
Theorem terminal_states_are_kept (cb : Callback) (b : ConnectionBuilder) :
  StateMachine.terminal (state_of b) = true ->
  state_of (after (handle cb b)) = state_of b.
Proof.
  revert b. change (keeps_terminal_state (handle cb)).
  destruct cb; cbn [handle].
  - apply keeps_first_connection.
  - apply keeps_on_connection_open.
  - apply keeps_on_channel_open.
  - apply keeps_on_connection_error.
  - apply keeps_on_channel_closed.
  - apply keeps_on_connection_closed.
  - apply keeps_make_permanently_closed_by_user.
  - apply keeps_make_permanently_closed_by_error.
  - apply keeps_reconnect.
Qed.

Lemma terminal_states_are_kept_witness :
  StateMachine.terminal (state_of (busy_builder FORCE_FINISHED)) = true
  /\ state_of (after (handle (On_channel_closed 1%nat 404 (no_exchange "esgffed-exchange"))
                             (busy_builder FORCE_FINISHED)))
     = FORCE_FINISHED
  /\ state_of (after (handle (On_reconnect Ioloop_runs)
                             (busy_builder PERMANENTLY_UNAVAILABLE)))
     = PERMANENTLY_UNAVAILABLE.
Proof.
  split; [reflexivity|]. split.
  - apply (terminal_states_are_kept
             (On_channel_closed 1%nat 404 (no_exchange "esgffed-exchange"))
             (busy_builder FORCE_FINISHED)).
    reflexivity.
  - apply (terminal_states_are_kept (On_reconnect Ioloop_runs)
             (busy_builder PERMANENTLY_UNAVAILABLE)).
    reflexivity.
Defined.

(* ===================================================================== *)
(** ** Further properties of the builder *)
(* ===================================================================== *)

(** *** What [on_connection_error] does and does not do *)

Lemma on_connection_error_cases b connection msg :
  (StateMachine.is_FORCE_FINISHED (statemachine b) = true
   /\ on_connection_error connection msg b
      = ([], b, inl (PIDServerException
                       (Gave_up_on_force_finish (__all_hosts_that_were_tried b)))))
  \/ (StateMachine.is_FORCE_FINISHED (statemachine b) = false
      /\ NodeManager.has_more_urls (__node_manager b) = true
      /\ on_connection_error connection msg b
         = ([Connection_add_timeout connection 0],
            with_statemachine StateMachine.set_to_waiting_to_be_available
              (with_node_manager NodeManager.set_next_host b), inr tt))
  \/ (StateMachine.is_FORCE_FINISHED (statemachine b) = false
      /\ NodeManager.has_more_urls (__node_manager b) = false
      /\ __reconnect_counter b + 1 <= __max_reconnection_tries b
      /\ on_connection_error connection msg b
         = ([Connection_add_timeout connection (__wait_seconds_before_reconnect b)],
            with_statemachine StateMachine.set_to_waiting_to_be_available
              (with_node_manager NodeManager.reset_nodes
                 (with_reconnect_counter (__reconnect_counter b + 1) b)), inr tt))
  \/ (StateMachine.is_FORCE_FINISHED (statemachine b) = false
      /\ NodeManager.has_more_urls (__node_manager b) = false
      /\ __max_reconnection_tries b < __reconnect_counter b + 1
      /\ on_connection_error connection msg b
         = ([], given_up b,
            inl (PIDServerException
                   (Gave_up_after_tries (__all_hosts_that_were_tried b)
                                        (__max_reconnection_tries b))))).
Proof.
  destruct (StateMachine.is_FORCE_FINISHED (statemachine b)) eqn:HF.
  - left. split; [reflexivity|].
    unfold on_connection_error. head_get. rewrite HF. reflexivity.
  - right. rewrite on_connection_error_live by exact HF.
    destruct (NodeManager.has_more_urls (__node_manager b)) eqn:Hm.
    + left. repeat split.
    + right. destruct (__reconnect_counter b + 1 <=? __max_reconnection_tries b)%Z eqn:Hle.
      * left. apply Z.leb_le in Hle. repeat split. exact Hle.
      * right. apply Z.leb_gt in Hle. repeat split. exact Hle.
Qed.

Lemma nodes_set_next_host nm :
  NodeManager.nodes (NodeManager.set_next_host nm) = NodeManager.nodes nm.
Proof. unfold NodeManager.set_next_host. destruct (NodeManager.has_more_urls nm); reflexivity. Qed.

Lemma waiting_state b :
  StateMachine.is_FORCE_FINISHED (statemachine b) = false ->
  state_of (with_statemachine StateMachine.set_to_waiting_to_be_available b)
    = match state_of b with
      | PERMANENTLY_UNAVAILABLE => PERMANENTLY_UNAVAILABLE
      | _ => WAITING_TO_BE_AVAILABLE
      end.
Proof.
  intros H.
  change StateMachine.set_to_waiting_to_be_available
    with (StateMachine.set_state WAITING_TO_BE_AVAILABLE).
  rewrite state_of_set_state.
  unfold StateMachine.is_FORCE_FINISHED in H. unfold state_of.
  destruct (StateMachine.state (statemachine b)); cbn; congruence.
Qed.

(** X1. Whatever the state of the builder, [on_connection_error] either
    raises [PIDServerException] and arms no timer, or arms exactly one
    timer, on the connection that failed, with zero or the configured
    seconds, and returns; the state is then [WAITING_TO_BE_AVAILABLE], unless
    it was [PERMANENTLY_UNAVAILABLE], which stays.  It never opens a
    connection itself and never touches the rabbit thread, the hosts tried,
    the list of nodes or the two settings; the reconnect counter stays or
    grows by one. *)
Theorem connection_error_arms_one_timer_or_raises
    (b : ConnectionBuilder) (connection : Connection) (msg : string) :
  ((effects (on_connection_error connection msg b) = []
    /\ exists m, outcome (on_connection_error connection msg b)
                 = inl (PIDServerException m))
   \/ (exists seconds,
         effects (on_connection_error connection msg b)
         = [Connection_add_timeout connection seconds]
         /\ (seconds = 0 \/ seconds = __wait_seconds_before_reconnect b)
         /\ outcome (on_connection_error connection msg b) = inr tt
         /\ state_of b <> FORCE_FINISHED
         /\ state_of (after (on_connection_error connection msg b))
            = match state_of b with
              | PERMANENTLY_UNAVAILABLE => PERMANENTLY_UNAVAILABLE
              | _ => WAITING_TO_BE_AVAILABLE
              end))
  /\ connection_attempts (effects (on_connection_error connection msg b)) = 0%nat
  /\ thread (after (on_connection_error connection msg b)) = thread b
  /\ __all_hosts_that_were_tried (after (on_connection_error connection msg b))
     = __all_hosts_that_were_tried b
  /\ NodeManager.nodes (__node_manager (after (on_connection_error connection msg b)))
     = NodeManager.nodes (__node_manager b)
  /\ __max_reconnection_tries (after (on_connection_error connection msg b))
     = __max_reconnection_tries b
  /\ __wait_seconds_before_reconnect (after (on_connection_error connection msg b))
     = __wait_seconds_before_reconnect b
  /\ __reconnect_counter b
     <= __reconnect_counter (after (on_connection_error connection msg b))
     <= __reconnect_counter b + 1.
Proof.
  assert (Hlive : StateMachine.is_FORCE_FINISHED (statemachine b) = false ->
                  state_of b <> FORCE_FINISHED).
  { unfold state_of, StateMachine.is_FORCE_FINISHED.
    destruct (StateMachine.state (statemachine b)); congruence. }
  destruct (on_connection_error_cases b connection msg)
    as [(_ & E) | [(HF & _ & E) | [(HF & _ & _ & E) | (_ & _ & _ & E)]]];
    rewrite E; unfold effects, after, outcome; cbn [fst snd].
  - split; [left; split; [reflexivity | eexists; reflexivity]|].
    repeat split; try reflexivity; lia.
  - split.
    { right; exists 0. split; [reflexivity|]. split; [left; reflexivity|].
      split; [reflexivity|]. split; [exact (Hlive HF)|].
      exact (waiting_state (with_node_manager NodeManager.set_next_host b) HF). }
    repeat split; try reflexivity; try (cbn -[Z.add]; lia).
    cbn [__node_manager with_statemachine with_node_manager]. apply nodes_set_next_host.
  - split.
    { right; eexists. split; [reflexivity|]. split; [right; reflexivity|].
      split; [reflexivity|]. split; [exact (Hlive HF)|].
      exact (waiting_state
               (with_node_manager NodeManager.reset_nodes
                  (with_reconnect_counter (__reconnect_counter b + 1) b)) HF). }
    repeat split; try reflexivity; cbn -[Z.add]; lia.
  - split; [left; split; [reflexivity | eexists; reflexivity]|].
    repeat split; try reflexivity; cbn -[Z.add]; lia.
Qed.

(** X2. Once [on_connection_error] has given up (the error that names the
    number of tries), every further connection error on the builder it left
    gives up again: no timer, the same error, the state
    [PERMANENTLY_UNAVAILABLE] with [detail_could_not_connect]. *)
Theorem giving_up_is_repeated
    (b : ConnectionBuilder) (connection : Connection) (msg : string)
    (tried : gset string) (tries : Z) :
  outcome (on_connection_error connection msg b)
    = inl (PIDServerException (Gave_up_after_tries tried tries)) ->
  forall connection' msg',
    on_connection_error connection' msg' (after (on_connection_error connection msg b))
    = ([], given_up (given_up b),
       inl (PIDServerException (Gave_up_after_tries tried tries)))
    /\ state_of (given_up (given_up b)) = PERMANENTLY_UNAVAILABLE
    /\ StateMachine.detail_could_not_connect (statemachine (given_up (given_up b))) = true.
Proof.
  intros H connection' msg'.
  destruct (on_connection_error_cases b connection msg)
    as [(_ & E) | [(_ & _ & E) | [(_ & _ & _ & E) | (HF & Hm & Hlt & E)]]];
    rewrite E in H; unfold outcome in H; cbn [snd] in H; try discriminate.
  injection H as <- <-. rewrite E. unfold after. cbn [fst snd].
  assert (HF' : StateMachine.is_FORCE_FINISHED (statemachine (given_up b)) = false).
  { unfold given_up. cbn [statemachine with_statemachine with_reconnect_counter].
    unfold StateMachine.is_FORCE_FINISHED, StateMachine.set_detail_could_not_connect.
    cbn [StateMachine.state].
    change (StateMachine.is_FORCE_FINISHED
              (StateMachine.set_state PERMANENTLY_UNAVAILABLE (statemachine b)) = false).
    rewrite set_state_is_FORCE_FINISHED by discriminate. exact HF. }
  split; [|split; [exact (given_up_state _ HF') | reflexivity]].
  rewrite on_connection_error_live by exact HF'.
  change (__node_manager (given_up b)) with (__node_manager b). rewrite Hm.
  change (__reconnect_counter (given_up b)) with (__reconnect_counter b + 1).
  change (__max_reconnection_tries (given_up b)) with (__max_reconnection_tries b).
  destruct (__reconnect_counter b + 1 + 1 <=? __max_reconnection_tries b)%Z eqn:Hle;
    [apply Z.leb_le in Hle; lia|].
  reflexivity.
Qed.

Lemma giving_up_is_repeated_witness :
  outcome (on_connection_error 0%nat "Connection refused"
             (with_reconnect_counter 2
                (with_node_manager
                   (fun nm => NodeManager.set_next_host (NodeManager.set_next_host nm))
                   (busy_builder WAITING_TO_BE_AVAILABLE))))
  = inl (PIDServerException (Gave_up_after_tries {[ "h1" ]} 2))
  /\ effects (on_connection_error 1%nat "again"
                (after (on_connection_error 0%nat "Connection refused"
                          (with_reconnect_counter 2
                             (with_node_manager
                                (fun nm => NodeManager.set_next_host
                                             (NodeManager.set_next_host nm))
                                (busy_builder WAITING_TO_BE_AVAILABLE))))))
     = [].
Proof.
  assert (H : outcome (on_connection_error 0%nat "Connection refused"
             (with_reconnect_counter 2
                (with_node_manager
                   (fun nm => NodeManager.set_next_host (NodeManager.set_next_host nm))
                   (busy_builder WAITING_TO_BE_AVAILABLE))))
  = inl (PIDServerException (Gave_up_after_tries {[ "h1" ]} 2))) by reflexivity.
  split; [exact H|].
  destruct (giving_up_is_repeated _ _ _ _ _ H 1%nat "again") as (E & _).
  rewrite E. reflexivity.
Defined.

(** *** Exceptions out of the loop *)

Lemma effects_of {X} (es : list Effect) (b : ConnectionBuilder) (x : X) :
  effects (es, b, x) = es.
Proof. reflexivity. Qed.

Lemma after_of {X} (es : list Effect) (b : ConnectionBuilder) (x : X) :
  after (es, b, x) = b.
Proof. reflexivity. Qed.

Lemma outcome_of {X} (es : list Effect) (b : ConnectionBuilder) (x : X) :
  outcome (es, b, x) = x.
Proof. reflexivity. Qed.

Lemma on_connection_error_frame b connection msg :
  thread (after (on_connection_error connection msg b)) = thread b
  /\ __all_hosts_that_were_tried (after (on_connection_error connection msg b))
     = __all_hosts_that_were_tried b
  /\ objects_created (after (on_connection_error connection msg b)) = objects_created b
  /\ __fallback_exchange_name (after (on_connection_error connection msg b))
     = __fallback_exchange_name b
  /\ connection_attempts (effects (on_connection_error connection msg b)) = 0%nat.
Proof.
  destruct (on_connection_error_cases b connection msg)
    as [(_ & E) | [(_ & _ & E) | [(_ & _ & _ & E) | (_ & _ & _ & E)]]];
    rewrite E; repeat split.
Qed.

Lemma start_waiting_for_events_raises b c e :
  RabbitThread._connection (thread b) = Some c ->
  __start_waiting_for_events (Ioloop_raises e) b
    = ([Thread_tell_publisher_to_stop_waiting_for_thread_to_accept_events;
        Thread_continue_gently_closing_if_applicable;
        Ioloop_start c]
       ++ effects (on_connection_error c (reported_as e) (caught e b))
       ++ (match outcome (on_connection_error c (reported_as e) (caught e b)) with
           | inr _ => [Ioloop_start c]
           | inl _ => []
           end),
       after (on_connection_error c (reported_as e) (caught e b)),
       outcome (on_connection_error c (reported_as e) (caught e b))).
Proof.
  intros Hc.
  assert (Hc' : RabbitThread._connection (thread (caught e b)) = Some c)
    by (destruct e; exact Hc).
  pose proof (on_connection_error_frame (caught e b) c (reported_as e)) as (Hth & _).
  set (r := on_connection_error c (reported_as e) (caught e b)) in *.
  assert (Hr : RabbitThread._connection (thread (after r)) = Some c)
    by (rewrite Hth; exact Hc').
  unfold __start_waiting_for_events. head_get. rewrite Hc.
  head_emit. head_emit. head_emit.
  destruct e; unfold set_to_waiting_to_be_available; head_modify; try head_modify;
    (match goal with
     | |- context [bind the_connection _ ?b0] =>
         rewrite (bind_ok _ _ _ _ _ _ (the_connection_run b0 c Hc'))
     end);
    cbv beta; rewrite !(bind_result (on_connection_error c _));
    change (on_connection_error c _ _) with r;
    clearbody r; destruct r as [[es b1] [x|[]]];
    unfold effects, after, outcome in *; cbn [fst snd] in *;
    try (cbn; rewrite app_nil_r; reflexivity);
    rewrite !(bind_ok _ _ _ _ _ _ (the_connection_run b1 c Hr)); reflexivity.
Qed.

(** X3. Any exception that comes out of the loop is taken as a failed
    connection: [__start_waiting_for_events] asks for
    [WAITING_TO_BE_AVAILABLE] (and notes the authentication exception only
    for [ProbableAuthenticationError]), calls [on_connection_error] on the
    connection and, if that returns, starts the loop again.  What gets out
    is the result of [on_connection_error]: after a force-finish its fatal
    error, with nothing called after the three calls of the [try]; otherwise
    nothing, or the error of the used-up tries. *)
Theorem exception_out_of_the_loop_is_a_connection_failure
    (b : ConnectionBuilder) (c : Connection) (e : Exception) :
  RabbitThread._connection (thread b) = Some c ->
  __start_waiting_for_events (Ioloop_raises e) b
    = ([Thread_tell_publisher_to_stop_waiting_for_thread_to_accept_events;
        Thread_continue_gently_closing_if_applicable;
        Ioloop_start c]
       ++ effects (on_connection_error c (reported_as e) (caught e b))
       ++ (match outcome (on_connection_error c (reported_as e) (caught e b)) with
           | inr _ => [Ioloop_start c]
           | inl _ => []
           end),
       after (on_connection_error c (reported_as e) (caught e b)),
       outcome (on_connection_error c (reported_as e) (caught e b)))
  /\ state_of (caught e b)
     = (if StateMachine.terminal (state_of b) then state_of b else WAITING_TO_BE_AVAILABLE)
  /\ StateMachine.detail_authentication_exception (statemachine (caught e b))
     = (match e with
        | ProbableAuthenticationError => true
        | _ => StateMachine.detail_authentication_exception (statemachine b)
        end)
  /\ (state_of b = FORCE_FINISHED ->
      __start_waiting_for_events (Ioloop_raises e) b
      = ([Thread_tell_publisher_to_stop_waiting_for_thread_to_accept_events;
          Thread_continue_gently_closing_if_applicable;
          Ioloop_start c],
         caught e b,
         inl (PIDServerException
                (Gave_up_on_force_finish (__all_hosts_that_were_tried b)))))
  /\ (state_of b <> FORCE_FINISHED ->
      outcome (__start_waiting_for_events (Ioloop_raises e) b) = inr tt
      \/ outcome (__start_waiting_for_events (Ioloop_raises e) b)
         = inl (PIDServerException
                  (Gave_up_after_tries (__all_hosts_that_were_tried b)
                                       (__max_reconnection_tries b))))
  /\ thread (after (__start_waiting_for_events (Ioloop_raises e) b)) = thread b.
Proof.
  intros Hc. rewrite (start_waiting_for_events_raises b c e Hc).
  assert (Ht : __all_hosts_that_were_tried (caught e b) = __all_hosts_that_were_tried b)
    by (destruct e; reflexivity).
  assert (Hx : __max_reconnection_tries (caught e b) = __max_reconnection_tries b)
    by (destruct e; reflexivity).
  split; [reflexivity|].
  split; [apply caught_state|].
  split.
  { destruct e; try reflexivity;
      exact (proj2 (proj2 (set_state_details WAITING_TO_BE_AVAILABLE (statemachine b)))). }
  split.
  { intros Hs.
    rewrite (on_connection_error_finished (caught e b)), Ht; [reflexivity|].
    rewrite caught_is_FORCE_FINISHED. apply is_FORCE_FINISHED_true. exact Hs. }
  rewrite outcome_of, after_of.
  split.
  - intros Hs.
    assert (HF : StateMachine.is_FORCE_FINISHED (statemachine (caught e b)) = false)
      by (rewrite caught_is_FORCE_FINISHED; apply not_FORCE_FINISHED; exact Hs).
    rewrite on_connection_error_live by exact HF.
    rewrite Ht, Hx.
    destruct (NodeManager.has_more_urls _); [left; reflexivity|].
    destruct (_ <=? _)%Z; [left | right]; reflexivity.
  - destruct (on_connection_error_frame (caught e b) c (reported_as e)) as (Hth & _).
    rewrite Hth. destruct e; reflexivity.
Qed.

Lemma exception_out_of_the_loop_is_a_connection_failure_witness :
  RabbitThread._connection (thread (busy_builder AVAILABLE)) = Some 0%nat
  /\ milestones
       (effects (__start_waiting_for_events
                   (Ioloop_raises (OtherException "error" "timed out"))
                   (busy_builder AVAILABLE)))
     = [Wait 0]
  /\ outcome (__start_waiting_for_events
                (Ioloop_raises (OtherException "error" "timed out"))
                (busy_builder AVAILABLE))
     = inr tt.
Proof.
  split; [reflexivity|].
  destruct (exception_out_of_the_loop_is_a_connection_failure
              (busy_builder AVAILABLE) 0%nat (OtherException "error" "timed out")
              eq_refl) as (E & _).
  rewrite E. split; vm_compute; reflexivity.
Defined.

(** X4. With no force-finish given, no host left in the cycle and the tries
    used up, an exception out of the loop ends in the fatal error: after the
    three calls of the [try] nothing more is called, the state is
    [PERMANENTLY_UNAVAILABLE] with [detail_could_not_connect], and
    [PIDServerException] leaves [__start_waiting_for_events]. *)
Theorem exception_with_all_tries_used_is_fatal
    (b : ConnectionBuilder) (c : Connection) (e : Exception) :
  state_of b <> FORCE_FINISHED ->
  RabbitThread._connection (thread b) = Some c ->
  NodeManager.has_more_urls (__node_manager b) = false ->
  __max_reconnection_tries b < __reconnect_counter b + 1 ->
  __start_waiting_for_events (Ioloop_raises e) b
    = ([Thread_tell_publisher_to_stop_waiting_for_thread_to_accept_events;
        Thread_continue_gently_closing_if_applicable;
        Ioloop_start c],
       given_up (caught e b),
       inl (PIDServerException
              (Gave_up_after_tries (__all_hosts_that_were_tried b)
                                   (__max_reconnection_tries b))))
  /\ state_of (given_up (caught e b)) = PERMANENTLY_UNAVAILABLE
  /\ StateMachine.detail_could_not_connect (statemachine (given_up (caught e b))) = true.
Proof.
  intros Hs Hc Hm Hlt.
  assert (HF : StateMachine.is_FORCE_FINISHED (statemachine (caught e b)) = false)
    by (rewrite caught_is_FORCE_FINISHED; apply not_FORCE_FINISHED; exact Hs).
  split; [|split; [exact (given_up_state _ HF) | reflexivity]].
  rewrite (start_waiting_for_events_raises b c e Hc).
  rewrite on_connection_error_live by exact HF.
  assert (Hn : __node_manager (caught e b) = __node_manager b) by (destruct e; reflexivity).
  assert (Hk : __reconnect_counter (caught e b) = __reconnect_counter b)
    by (destruct e; reflexivity).
  assert (Hx : __max_reconnection_tries (caught e b) = __max_reconnection_tries b)
    by (destruct e; reflexivity).
  assert (Ht : __all_hosts_that_were_tried (caught e b) = __all_hosts_that_were_tried b)
    by (destruct e; reflexivity).
  rewrite Hn, Hk, Hx, Ht, Hm.
  destruct (__reconnect_counter b + 1 <=? __max_reconnection_tries b)%Z eqn:Hle;
    [apply Z.leb_le in Hle; lia|].
  reflexivity.
Qed.

Lemma exception_with_all_tries_used_is_fatal_witness :
  NodeManager.has_more_urls
    (__node_manager
       (with_reconnect_counter 2
          (with_node_manager
             (fun nm => NodeManager.set_next_host (NodeManager.set_next_host nm))
             (busy_builder WAITING_TO_BE_AVAILABLE)))) = false
  /\ exists b',
       __start_waiting_for_events (Ioloop_raises ProbableAuthenticationError)
         (with_reconnect_counter 2
            (with_node_manager
               (fun nm => NodeManager.set_next_host (NodeManager.set_next_host nm))
               (busy_builder WAITING_TO_BE_AVAILABLE)))
       = ([Thread_tell_publisher_to_stop_waiting_for_thread_to_accept_events;
           Thread_continue_gently_closing_if_applicable;
           Ioloop_start 0%nat],
          b', inl (PIDServerException (Gave_up_after_tries {[ "h1" ]} 2))).
Proof.
  split; [reflexivity|].
  eexists.
  apply (exception_with_all_tries_used_is_fatal
           (with_reconnect_counter 2
              (with_node_manager
                 (fun nm => NodeManager.set_next_host (NodeManager.set_next_host nm))
                 (busy_builder WAITING_TO_BE_AVAILABLE)))
           0%nat ProbableAuthenticationError).
  - discriminate.
  - reflexivity.
  - reflexivity.
  - vm_compute. reflexivity.
Defined.

(** *** The first connection *)

Lemma start_waiting_for_events_frame run b c :
  RabbitThread._connection (thread b) = Some c ->
  exists es,
    effects (__start_waiting_for_events run b)
    = [Thread_tell_publisher_to_stop_waiting_for_thread_to_accept_events;
       Thread_continue_gently_closing_if_applicable;
       Ioloop_start c] ++ es
    /\ connection_attempts es = 0%nat
    /\ thread (after (__start_waiting_for_events run b)) = thread b
    /\ __all_hosts_that_were_tried (after (__start_waiting_for_events run b))
       = __all_hosts_that_were_tried b
    /\ objects_created (after (__start_waiting_for_events run b)) = objects_created b
    /\ __fallback_exchange_name (after (__start_waiting_for_events run b))
       = __fallback_exchange_name b.
Proof.
  intros Hc. destruct run as [|e].
  - assert (E : __start_waiting_for_events Ioloop_runs b
                = ([Thread_tell_publisher_to_stop_waiting_for_thread_to_accept_events;
                    Thread_continue_gently_closing_if_applicable;
                    Ioloop_start c], b, inr tt)).
    { unfold __start_waiting_for_events. head_get. rewrite Hc. reflexivity. }
    exists []. rewrite E. repeat split.
  - rewrite (start_waiting_for_events_raises b c e Hc).
    destruct (on_connection_error_frame (caught e b) c (reported_as e))
      as (Hth & Htr & Hoc & Hfb & Hat).
    eexists. split; [reflexivity|].
    rewrite after_of.
    rewrite Hth, Htr, Hoc, Hfb, connection_attempts_app, Hat.
    split; [destruct (outcome _); reflexivity|].
    repeat split; destruct e; reflexivity.
Qed.

Lemma first_connection_effects (run : IoloopRun) (b : ConnectionBuilder) :
  exists es,
    effects (first_connection run b)
    = [SelectConnection (NodeManager.get_connection_parameters (__node_manager b))
         (objects_created b);
       Thread_tell_publisher_to_stop_waiting_for_thread_to_accept_events;
       Thread_continue_gently_closing_if_applicable;
       Ioloop_start (objects_created b)] ++ es
    /\ connection_attempts es = 0%nat.
Proof.
  assert (E : __trigger_connection_to_rabbit_etc b
              = ([SelectConnection (NodeManager.get_connection_parameters (__node_manager b))
                    (objects_created b)],
                 connecting b, inr tt)) by reflexivity.
  unfold first_connection. rewrite (bind_ok _ _ _ _ _ _ E). cbv beta.
  destruct (start_waiting_for_events_frame run (connecting b) (objects_created b) eq_refl)
    as (es & He & Ha & _).
  exists es. rewrite effects_of, He. split; [reflexivity | exact Ha].
Qed.

(** X5. However the loop ends, [first_connection] opens exactly one
    connection, to the current host of the node manager, notes the host as
    tried, keeps the new connection object in the thread and starts the loop
    of that very connection: the branch of [__start_waiting_for_events] for
    a missing connection object is never taken from here. *)
Theorem first_connection_starts_the_loop_of_a_new_connection
    (run : IoloopRun) (b : ConnectionBuilder) :
  exists es,
    effects (first_connection run b)
    = [SelectConnection (NodeManager.get_connection_parameters (__node_manager b))
         (objects_created b);
       Thread_tell_publisher_to_stop_waiting_for_thread_to_accept_events;
       Thread_continue_gently_closing_if_applicable;
       Ioloop_start (objects_created b)] ++ es
    /\ connection_attempts es = 0%nat
    /\ RabbitThread._connection (thread (after (first_connection run b)))
       = Some (objects_created b)
    /\ __all_hosts_that_were_tried (after (first_connection run b))
       = {[ NodeManager.host (NodeManager.get_connection_parameters (__node_manager b)) ]}
         ∪ __all_hosts_that_were_tried b
    /\ objects_created (after (first_connection run b)) = S (objects_created b).
Proof.
  destruct (first_connection_effects run b) as (es & He & Ha).
  assert (E : __trigger_connection_to_rabbit_etc b
              = ([SelectConnection (NodeManager.get_connection_parameters (__node_manager b))
                    (objects_created b)],
                 connecting b, inr tt)) by reflexivity.
  assert (A : after (first_connection run b)
              = after (__start_waiting_for_events run (connecting b))).
  { unfold first_connection. rewrite (bind_ok _ _ _ _ _ _ E), after_of. reflexivity. }
  destruct (start_waiting_for_events_frame run (connecting b) (objects_created b) eq_refl)
    as (_ & _ & _ & Hth & Htr & Hoc & _).
  exists es. rewrite A, Hth, Htr, Hoc.
  split; [exact He|]. split; [exact Ha|]. repeat split.
Qed.


(** *** A channel is open *)

Lemma check_for_already_arrived_messages_closed b :
  __check_for_already_arrived_messages_and_publish_them b
    = (repeat Thread_add_event_publish_message
         (int_times_1_1 (RabbitThread.get_num_unpublished (thread b))),
       b, inr tt).
Proof.
  unfold __check_for_already_arrived_messages_and_publish_them. head_get.
  destruct (RabbitThread.get_num_unpublished (thread b)) as [|n] eqn:E.
  - reflexivity.
  - change (0 <? S n)%nat with true. cbv iota. rewrite emit_times_run. reflexivity.
Qed.

Lemma publish_events_repeat n :
  publish_events (repeat Thread_add_event_publish_message n) = n.
Proof. induction n as [|n IH]; cbn; [reflexivity|]. rewrite IH. reflexivity. Qed.

Lemma int_times_1_1_ge n : (n <= int_times_1_1 n)%nat.
Proof. unfold int_times_1_1. apply Nat.div_le_lower_bound; lia. Qed.

Lemma on_channel_open_head channel b :
  on_channel_open channel b
    = ([Channel_add_on_close_callback channel;
        Channel_add_on_return_callback channel;
        Channel_confirm_delivery channel]
       ++ effects (__make_ready_for_publishing (channel_opened channel b)),
       after (__make_ready_for_publishing (channel_opened channel b)),
       outcome (__make_ready_for_publishing (channel_opened channel b))).
Proof.
  unfold on_channel_open. head_modify. head_modify.
  fold (channel_opened channel b).
  assert (Hch : RabbitThread._channel (thread (channel_opened channel b)) = Some channel)
    by reflexivity.
  unfold __add_on_channel_close_callback, __add_on_return_callback,
    __make_channel_confirm_delivery, the_channel.
  unfold bind at 1. unfold bind at 1. head_get. rewrite Hch.
  unfold ret at 1, emit at 1.
  unfold bind at 1. unfold bind at 1. head_get. rewrite Hch.
  unfold ret at 1, emit at 1.
  unfold bind at 1. unfold bind at 1. head_get. rewrite Hch.
  unfold ret at 1, emit at 1.
  destruct (__make_ready_for_publishing (channel_opened channel b)) as [[es b'] r].
  reflexivity.
Qed.

Lemma make_ready_for_publishing_closed b ch c :
  RabbitThread._channel (thread b) = Some ch ->
  RabbitThread._connection (thread b) = Some c ->
  __make_ready_for_publishing b
    = match state_of b with
      | WAITING_TO_BE_AVAILABLE =>
          (repeat Thread_add_event_publish_message
             (int_times_1_1 (RabbitThread.get_num_unpublished (thread b))),
           with_statemachine StateMachine.set_to_available b, inr tt)
      | AVAILABLE_BUT_WANTS_TO_STOP =>
          (repeat Thread_add_event_publish_message
             (int_times_1_1 (RabbitThread.get_num_unpublished (thread b))),
           b, inr tt)
      | PERMANENTLY_UNAVAILABLE =>
          (if StateMachine.get_detail_closed_by_publisher (statemachine b)
           then [Shutter_safety_finish "closed before connection was ready. reclosing."]
           else [],
           b, inr tt)
      | _ => ([], b, inr tt)
      end.
Proof.
  intros Hch Hc. unfold __make_ready_for_publishing. head_get.
  rewrite Hch, Hc. unfold when, is_None.
  unfold bind at 1, ret at 1. unfold bind at 1, ret at 1. head_get.
  unfold state_of, StateMachine.is_WAITING_TO_BE_AVAILABLE,
    StateMachine.is_AVAILABLE_BUT_WANTS_TO_STOP, StateMachine.is_PERMANENTLY_UNAVAILABLE.
  destruct (StateMachine.state (statemachine b)) eqn:Hs; cbv iota.
  - reflexivity.
  - unfold set_to_available. head_modify.
    rewrite check_for_already_arrived_messages_closed. reflexivity.
  - reflexivity.
  - rewrite check_for_already_arrived_messages_closed. reflexivity.
  - destruct (StateMachine.get_detail_closed_by_publisher (statemachine b)); reflexivity.
  - reflexivity.
Qed.

(** X6. When the channel opens on a live connection while the state is
    [WAITING_TO_BE_AVAILABLE], [on_channel_open] keeps the channel, sets
    the reconnect counter to zero, registers the close callback, the return
    callback and the delivery confirmation on the new channel, in this
    order, makes the state [AVAILABLE] and adds [int(num*1.1)] publish
    events for the [num] messages that wait: never fewer events than
    messages, and none if nothing waits.  In
    [AVAILABLE_BUT_WANTS_TO_STOP] it does the same and leaves the state. *)
Theorem channel_open_makes_available_and_flushes
    (b : ConnectionBuilder) (channel : Channel) (c : Connection) :
  RabbitThread._connection (thread b) = Some c ->
  state_of b = WAITING_TO_BE_AVAILABLE \/ state_of b = AVAILABLE_BUT_WANTS_TO_STOP ->
  on_channel_open channel b
    = ([Channel_add_on_close_callback channel;
        Channel_add_on_return_callback channel;
        Channel_confirm_delivery channel]
       ++ repeat Thread_add_event_publish_message
            (int_times_1_1 (length (RabbitThread.unpublished (thread b)))),
       (match state_of b with
        | WAITING_TO_BE_AVAILABLE =>
            with_statemachine StateMachine.set_to_available (channel_opened channel b)
        | _ => channel_opened channel b
        end),
       inr tt)
  /\ state_of (after (on_channel_open channel b))
     = (match state_of b with
        | WAITING_TO_BE_AVAILABLE => AVAILABLE
        | s => s
        end)
  /\ RabbitThread._channel (thread (after (on_channel_open channel b))) = Some channel
  /\ publish_events (effects (on_channel_open channel b))
     = int_times_1_1 (length (RabbitThread.unpublished (thread b)))
  /\ (length (RabbitThread.unpublished (thread b))
      <= publish_events (effects (on_channel_open channel b)))%nat
  /\ (RabbitThread.unpublished (thread b) = [] ->
      publish_events (effects (on_channel_open channel b)) = 0%nat).
Proof.
  intros Hc Hs.
  assert (E : on_channel_open channel b
    = ([Channel_add_on_close_callback channel;
        Channel_add_on_return_callback channel;
        Channel_confirm_delivery channel]
       ++ repeat Thread_add_event_publish_message
            (int_times_1_1 (length (RabbitThread.unpublished (thread b)))),
       (match state_of b with
        | WAITING_TO_BE_AVAILABLE =>
            with_statemachine StateMachine.set_to_available (channel_opened channel b)
        | _ => channel_opened channel b
        end),
       inr tt)).
  { rewrite on_channel_open_head.
    rewrite (make_ready_for_publishing_closed (channel_opened channel b) channel c eq_refl Hc).
    change (state_of (channel_opened channel b)) with (state_of b).
    destruct Hs as [Hs|Hs]; rewrite Hs; reflexivity. }
  rewrite E. rewrite effects_of, after_of.
  assert (P : publish_events
                ([Channel_add_on_close_callback channel;
                  Channel_add_on_return_callback channel;
                  Channel_confirm_delivery channel]
                 ++ repeat Thread_add_event_publish_message
                      (int_times_1_1 (length (RabbitThread.unpublished (thread b)))))
              = int_times_1_1 (length (RabbitThread.unpublished (thread b)))).
  { cbn [app publish_events]. apply publish_events_repeat. }
  split; [reflexivity|].
  split.
  { destruct Hs as [Hs|Hs]; rewrite Hs; [|exact Hs].
    change StateMachine.set_to_available with (StateMachine.set_state AVAILABLE).
    rewrite state_of_set_state.
    change (state_of (channel_opened channel b)) with (state_of b).
    rewrite Hs. reflexivity. }
  split; [destruct Hs as [Hs|Hs]; rewrite Hs; reflexivity|].
  split; [exact P|].
  split; [rewrite P; apply int_times_1_1_ge|].
  intros H0. rewrite P, H0. reflexivity.
Qed.

Lemma channel_open_makes_available_and_flushes_witness :
  state_of (busy_builder WAITING_TO_BE_AVAILABLE) = WAITING_TO_BE_AVAILABLE
  /\ state_of (after (on_channel_open 4%nat (busy_builder WAITING_TO_BE_AVAILABLE)))
     = AVAILABLE
  /\ publish_events (effects (on_channel_open 4%nat (busy_builder WAITING_TO_BE_AVAILABLE)))
     = 1%nat.
Proof.
  split; [reflexivity|].
  destruct (channel_open_makes_available_and_flushes
              (busy_builder WAITING_TO_BE_AVAILABLE) 4%nat 0%nat eq_refl
              (or_introl eq_refl)) as (_ & Hs & _ & Hp & _).
  split; [exact Hs | exact Hp].
Defined.

(** X7. In every other state [on_channel_open] still keeps the channel,
    resets the counter and registers the three callbacks, but leaves the
    state as it is and adds no publish event; if the state is
    [PERMANENTLY_UNAVAILABLE] and the publisher had closed, it asks the
    shutter to finish once more ([safety_finish]), and only then. *)
Theorem channel_open_in_other_states_publishes_nothing
    (b : ConnectionBuilder) (channel : Channel) (c : Connection) :
  RabbitThread._connection (thread b) = Some c ->
  state_of b <> WAITING_TO_BE_AVAILABLE ->
  state_of b <> AVAILABLE_BUT_WANTS_TO_STOP ->
  on_channel_open channel b
    = ([Channel_add_on_close_callback channel;
        Channel_add_on_return_callback channel;
        Channel_confirm_delivery channel]
       ++ (if StateMachine.is_PERMANENTLY_UNAVAILABLE (statemachine b)
              && StateMachine.get_detail_closed_by_publisher (statemachine b)
           then [Shutter_safety_finish "closed before connection was ready. reclosing."]
           else []),
       channel_opened channel b, inr tt)
  /\ state_of (after (on_channel_open channel b)) = state_of b
  /\ publish_events (effects (on_channel_open channel b)) = 0%nat.
Proof.
  intros Hc H1 H2.
  assert (E : on_channel_open channel b
    = ([Channel_add_on_close_callback channel;
        Channel_add_on_return_callback channel;
        Channel_confirm_delivery channel]
       ++ (if StateMachine.is_PERMANENTLY_UNAVAILABLE (statemachine b)
              && StateMachine.get_detail_closed_by_publisher (statemachine b)
           then [Shutter_safety_finish "closed before connection was ready. reclosing."]
           else []),
       channel_opened channel b, inr tt)).
  { rewrite on_channel_open_head.
    rewrite (make_ready_for_publishing_closed (channel_opened channel b) channel c eq_refl Hc).
    change (state_of (channel_opened channel b)) with (state_of b).
    change (statemachine (channel_opened channel b)) with (statemachine b).
    unfold StateMachine.is_PERMANENTLY_UNAVAILABLE. unfold state_of in *.
    destruct (StateMachine.state (statemachine b)); try congruence; reflexivity. }
  rewrite E, effects_of, after_of.
  split; [reflexivity|]. split; [reflexivity|].
  destruct (_ && _); reflexivity.
Qed.

Lemma channel_open_in_other_states_publishes_nothing_witness :
  state_of (busy_builder FORCE_FINISHED) <> WAITING_TO_BE_AVAILABLE
  /\ on_channel_open 4%nat (busy_builder FORCE_FINISHED)
     = ([Channel_add_on_close_callback 4%nat;
         Channel_add_on_return_callback 4%nat;
         Channel_confirm_delivery 4%nat],
        channel_opened 4%nat (busy_builder FORCE_FINISHED), inr tt).
Proof.
  split; [discriminate|].
  destruct (channel_open_in_other_states_publishes_nothing
              (busy_builder FORCE_FINISHED) 4%nat 0%nat eq_refl) as (E & _).
  - discriminate.
  - discriminate.
  - rewrite E. reflexivity.
Defined.

(** *** Frames of the entry points *)

Lemma bind_emit {B} (x : Effect) (k : unit -> M B) b :
  bind (emit x) k b = (x :: effects (k tt b), after (k tt b), outcome (k tt b)).
Proof. head_emit. destruct (k tt b) as [[es b'] r]. reflexivity. Qed.

Lemma bind_modify {B} (f : ConnectionBuilder -> ConnectionBuilder) (k : unit -> M B) b :
  bind (modify f) k b = k tt (f b).
Proof. head_modify. destruct (k tt (f b)) as [[es b'] r]. reflexivity. Qed.

Lemma bind_get {B} (k : ConnectionBuilder -> M B) b : bind get k b = k b b.
Proof. head_get. destruct (k b b) as [[es b'] r]. reflexivity. Qed.

Lemma first_connection_frame run b :
  thread (after (first_connection run b))
    = RabbitThread.with_connection (Some (objects_created b)) (thread b)
  /\ __all_hosts_that_were_tried (after (first_connection run b))
     = {[ NodeManager.host (NodeManager.get_connection_parameters (__node_manager b)) ]}
       ∪ __all_hosts_that_were_tried b
  /\ __fallback_exchange_name (after (first_connection run b)) = __fallback_exchange_name b
  /\ objects_created (after (first_connection run b)) = S (objects_created b).
Proof.
  assert (E : __trigger_connection_to_rabbit_etc b
              = ([SelectConnection (NodeManager.get_connection_parameters (__node_manager b))
                    (objects_created b)],
                 connecting b, inr tt)) by reflexivity.
  unfold first_connection. rewrite (bind_ok _ _ _ _ _ _ E). cbv beta.
  destruct (start_waiting_for_events_frame run (connecting b) (objects_created b) eq_refl)
    as (es & _ & _ & Hth & Htr & Hoc & Hfb).
  rewrite after_of, Hth, Htr, Hoc, Hfb. repeat split.
Qed.

Lemma rescue_exchange_name th :
  RabbitThread.exchange_name (rescue th) = RabbitThread.exchange_name th.
Proof. unfold rescue. cbn -[Nat.ltb]. destruct (0 <? _)%nat; reflexivity. Qed.

Lemma rescue_channel th :
  RabbitThread._channel (rescue th) = RabbitThread._channel th.
Proof. unfold rescue. cbn -[Nat.ltb]. destruct (0 <? _)%nat; reflexivity. Qed.

Lemma reconnect_with_connection run b c :
  RabbitThread._connection (thread b) = Some c ->
  reconnect run b
    = (rescue_calls (thread b) ++ Ioloop_stop c
         :: effects (first_connection run (with_thread rescue b)),
       after (first_connection run (with_thread rescue b)),
       outcome (first_connection run (with_thread rescue b))).
Proof.
  intros H. unfold reconnect.
  rewrite (bind_ok _ _ _ _ _ _ (prepare_channel_reopen_run _ b)). cbv beta.
  assert (Hc : RabbitThread._connection (thread (with_thread rescue b)) = Some c).
  { cbn -[rescue]. rewrite rescue_connection. exact H. }
  rewrite !(bind_ok _ _ _ _ _ _ (the_connection_run _ _ Hc)). cbv beta.
  rewrite !bind_emit, effects_of, after_of, outcome_of. reflexivity.
Qed.

Lemma reconnect_without_connection run b :
  RabbitThread._connection (thread b) = None ->
  reconnect run b
    = (rescue_calls (thread b), with_thread rescue b,
       inl (AttributeError "'NoneType' object")).
Proof.
  intros H. unfold reconnect.
  rewrite (bind_ok _ _ _ _ _ _ (prepare_channel_reopen_run _ b)). cbv beta.
  assert (Hc : RabbitThread._connection (thread (with_thread rescue b)) = None).
  { cbn -[rescue]. rewrite rescue_connection. exact H. }
  rewrite !(bind_raised _ _ _ _ _ _ (the_connection_none _ Hc)).
  rewrite effects_of, after_of, outcome_of, app_nil_r. reflexivity.
Qed.

(** *** What the callbacks keep *)

Lemma kept_refl b : kept b b.
Proof. unfold kept. repeat split; try reflexivity. left. reflexivity. Qed.

Lemma kept_trans b1 b2 b3 : kept b1 b2 -> kept b2 b3 -> kept b1 b3.
Proof.
  intros (F1 & M1 & W1 & N1 & T1 & E1) (F2 & M2 & W2 & N2 & T2 & E2).
  unfold kept.
  split; [rewrite F2; exact F1|]. split; [rewrite M2; exact M1|].
  split; [rewrite W2; exact W1|]. split; [rewrite N2; exact N1|].
  split; [etrans; [exact T1 | exact T2]|].
  destruct E2 as [E2|E2]; rewrite E2.
  - exact E1.
  - right. exact F1.
Qed.

Lemma kept_on_connection_error b connection msg :
  kept b (after (on_connection_error connection msg b)).
Proof.
  destruct (on_connection_error_cases b connection msg)
    as [(_ & E) | [(_ & _ & E) | [(_ & _ & _ & E) | (_ & _ & _ & E)]]];
    rewrite E, after_of; unfold kept; repeat split; try reflexivity;
    try (left; reflexivity).
  cbn [__node_manager with_statemachine with_node_manager]. apply nodes_set_next_host.
Qed.

Lemma kept_caught e b : kept b (caught e b).
Proof. destruct e; unfold kept; repeat split; try reflexivity; left; reflexivity. Qed.

Lemma kept_start_waiting_for_events run b :
  kept b (after (__start_waiting_for_events run b)).
Proof.
  destruct (RabbitThread._connection (thread b)) as [c|] eqn:Hc.
  - destruct run as [|e].
    + assert (E : __start_waiting_for_events Ioloop_runs b
                  = ([Thread_tell_publisher_to_stop_waiting_for_thread_to_accept_events;
                      Thread_continue_gently_closing_if_applicable;
                      Ioloop_start c], b, inr tt)).
      { unfold __start_waiting_for_events. head_get. rewrite Hc. reflexivity. }
      rewrite E. apply kept_refl.
    + rewrite (start_waiting_for_events_raises b c e Hc), after_of.
      eapply kept_trans; [apply kept_caught | apply kept_on_connection_error].
  - assert (E : __start_waiting_for_events run b = ([], b, inr tt)).
    { unfold __start_waiting_for_events. head_get. rewrite Hc. reflexivity. }
    rewrite E. apply kept_refl.
Qed.

Lemma kept_connecting b : kept b (connecting b).
Proof.
  unfold kept. repeat split; try reflexivity; [|left; reflexivity].
  cbn. apply union_subseteq_r.
Qed.

Lemma kept_first_connection run b : kept b (after (first_connection run b)).
Proof.
  assert (E : __trigger_connection_to_rabbit_etc b
              = ([SelectConnection (NodeManager.get_connection_parameters (__node_manager b))
                    (objects_created b)],
                 connecting b, inr tt)) by reflexivity.
  unfold first_connection. rewrite (bind_ok _ _ _ _ _ _ E), after_of. cbv beta.
  eapply kept_trans; [apply kept_connecting | apply kept_start_waiting_for_events].
Qed.

Lemma kept_rescue b : kept b (with_thread rescue b).
Proof.
  unfold kept. repeat split; try reflexivity.
  left. cbn -[rescue]. apply rescue_exchange_name.
Qed.

Lemma kept_reconnect run b : kept b (after (reconnect run b)).
Proof.
  destruct (RabbitThread._connection (thread b)) as [c|] eqn:Hc.
  - rewrite (reconnect_with_connection run b c Hc), after_of.
    eapply kept_trans; [apply kept_rescue | apply kept_first_connection].
  - rewrite (reconnect_without_connection run b Hc), after_of. apply kept_rescue.
Qed.

Lemma use_different_exchange_and_reopen_channel_after b :
  after (__use_different_exchange_and_reopen_channel b) = fallen_back b.
Proof.
  destruct (RabbitThread._connection (thread b)) as [c|] eqn:Hc.
  - rewrite (use_different_exchange_and_reopen_channel_run b c Hc). reflexivity.
  - unfold __use_different_exchange_and_reopen_channel.
    unfold set_to_waiting_to_be_available at 1. rewrite bind_modify, bind_get.
    rewrite bind_emit, after_of. rewrite bind_modify.
    set (b1 := with_thread _ _).
    rewrite (bind_ok _ _ _ _ _ _ (prepare_channel_reopen_run _ b1)), after_of. cbv beta.
    unfold set_to_waiting_to_be_available. rewrite bind_modify.
    unfold __please_open_rabbit_channel.
    assert (Hn : RabbitThread._connection
                   (thread (with_statemachine StateMachine.set_to_waiting_to_be_available
                              (with_thread rescue b1))) = None).
    { cbn -[rescue]. rewrite rescue_connection. exact Hc. }
    rewrite (bind_raised _ _ _ _ _ _ (the_connection_none _ Hn)). reflexivity.
Qed.

Lemma kept_fallen_back b : kept b (fallen_back b).
Proof.
  unfold kept. repeat split; try reflexivity.
  right. cbn -[rescue]. rewrite rescue_exchange_name. reflexivity.
Qed.

Lemma the_connection_after {B} (k : Connection -> M B) b :
  (forall c, after (k c b) = b) -> after (bind the_connection k b) = b.
Proof.
  intros H. destruct (RabbitThread._connection (thread b)) as [c|] eqn:Hc.
  - rewrite (bind_ok _ _ _ _ _ _ (the_connection_run _ _ Hc)), after_of. apply H.
  - rewrite (bind_raised _ _ _ _ _ _ (the_connection_none _ Hc)). reflexivity.
Qed.

Lemma on_channel_closed_after channel reply_code reply_text b :
  after (on_channel_closed channel reply_code reply_text b) = b
  \/ (StateMachine.is_PERMANENTLY_UNAVAILABLE (statemachine b) = false
      /\ reply_code = 404
      /\ contains "NOT_FOUND - no exchange 'FALLBACK'" reply_text = false
      /\ after (on_channel_closed channel reply_code reply_text b) = fallen_back b).
Proof.
  unfold on_channel_closed. rewrite bind_get.
  destruct (StateMachine.is_PERMANENTLY_UNAVAILABLE (statemachine b)) eqn:Hp;
    [left; reflexivity|].
  destruct (reply_code =? 404)%Z eqn:Hr.
  - apply Z.eqb_eq in Hr.
    destruct (contains _ reply_text) eqn:Hx; cbn [andb].
    + left. apply the_connection_after. reflexivity.
    + right. repeat split; try assumption.
      apply use_different_exchange_and_reopen_channel_after.
  - cbn [andb]. left. apply the_connection_after. reflexivity.
Qed.

Lemma make_permanently_closed_by_user_after b :
  after (make_permanently_closed_by_user b)
    = with_statemachine StateMachine.set_to_permanently_unavailable b.
Proof.
  unfold make_permanently_closed_by_user, set_to_permanently_unavailable.
  rewrite bind_modify. apply the_connection_after. reflexivity.
Qed.

Lemma make_permanently_closed_by_error_after b connection reply_text :
  after (make_permanently_closed_by_error connection reply_text b)
    = with_statemachine StateMachine.set_to_permanently_unavailable b.
Proof.
  unfold make_permanently_closed_by_error, set_to_permanently_unavailable.
  rewrite bind_modify, bind_emit, after_of. apply the_connection_after. reflexivity.
Qed.

Lemma on_connection_closed_after connection reply_code reply_text b :
  after (on_connection_closed connection reply_code reply_text b)
    = (if __was_user_shutdown (thread b) reply_code reply_text
          || __was_permanent_error (thread b) reply_code reply_text
       then permanently_closed b
       else after (on_connection_error connection reply_text
                     (with_thread (RabbitThread.with_channel None) b))).
Proof.
  destruct (__was_user_shutdown (thread b) reply_code reply_text) eqn:Hu.
  - unfold on_connection_closed. rewrite bind_modify, bind_get.
    change (__was_user_shutdown (thread (with_thread (RabbitThread.with_channel None) b))
              reply_code reply_text)
      with (__was_user_shutdown (thread b) reply_code reply_text).
    rewrite Hu. cbn [orb].
    apply (make_permanently_closed_by_user_after
             (with_thread (RabbitThread.with_channel None) b)).
  - destruct (__was_permanent_error (thread b) reply_code reply_text) eqn:Hp; cbn [orb].
    + unfold on_connection_closed. rewrite bind_modify, bind_get.
      change (__was_user_shutdown (thread (with_thread (RabbitThread.with_channel None) b))
                reply_code reply_text)
        with (__was_user_shutdown (thread b) reply_code reply_text).
      change (__was_permanent_error (thread (with_thread (RabbitThread.with_channel None) b))
                reply_code reply_text)
        with (__was_permanent_error (thread b) reply_code reply_text).
      rewrite Hu, Hp.
      apply (make_permanently_closed_by_error_after
               (with_thread (RabbitThread.with_channel None) b) connection reply_text).
    + rewrite (on_connection_closed_otherwise _ _ _ _ Hu Hp). reflexivity.
Qed.

Lemma kept_handle cb b : kept b (after (handle cb b)).
Proof.
  destruct cb as [run|c|ch|c msg|ch code text|c code text| |c text|run]; cbn [handle].
  - apply kept_first_connection.
  - rewrite on_connection_open_builder. apply kept_refl.
  - destruct (on_channel_open_run ch b) as (es & sm & E & _). rewrite E, after_of.
    unfold kept. repeat split; try reflexivity. left. reflexivity.
  - apply kept_on_connection_error.
  - destruct (on_channel_closed_after ch code text b) as [E | (_ & _ & _ & E)]; rewrite E.
    + apply kept_refl.
    + apply kept_fallen_back.
  - rewrite on_connection_closed_after.
    destruct (_ || _).
    + unfold kept. repeat split; try reflexivity. left. reflexivity.
    + eapply kept_trans; [|apply kept_on_connection_error].
      unfold kept. repeat split; try reflexivity. left. reflexivity.
  - rewrite make_permanently_closed_by_user_after.
    unfold kept. repeat split; try reflexivity. left. reflexivity.
  - rewrite make_permanently_closed_by_error_after.
    unfold kept. repeat split; try reflexivity. left. reflexivity.
  - apply kept_reconnect.
Qed.

Lemma kept_after_callbacks cbs : forall b, kept b (after_callbacks cbs b).
Proof.
  induction cbs as [|cb cbs IH]; intros b; [apply kept_refl|].
  cbn [after_callbacks fold_left].
  eapply kept_trans; [apply kept_handle | apply IH].
Qed.

(** X8. No callback sets the exchange name back: after any series of
    callbacks the exchange name is the one before or the fallback name, and
    a builder that publishes to the fallback exchange goes on doing so,
    through channel reopenings and reconnections alike. *)
Theorem exchange_name_is_never_set_back
    (cbs : list Callback) (b : ConnectionBuilder) :
  RabbitThread.exchange_name (thread b) = __fallback_exchange_name b ->
  RabbitThread.exchange_name (thread (after_callbacks cbs b)) = __fallback_exchange_name b
  /\ __fallback_exchange_name (after_callbacks cbs b) = __fallback_exchange_name b.
Proof.
  intros H. destruct (kept_after_callbacks cbs b) as (F & _ & _ & _ & _ & [E|E]).
  - split; [rewrite E; exact H | exact F].
  - split; [exact E | exact F].
Qed.

Lemma exchange_name_is_never_set_back_witness :
  RabbitThread.exchange_name (thread (fallen_back (busy_builder AVAILABLE)))
    = __fallback_exchange_name (fallen_back (busy_builder AVAILABLE))
  /\ RabbitThread.exchange_name
       (thread (after_callbacks
                  [On_channel_open 5%nat;
                   On_connection_closed 0%nat 320 "CONNECTION_FORCED - broker forced";
                   On_reconnect Ioloop_runs;
                   On_connection_open 6%nat;
                   On_channel_open 7%nat]
                  (fallen_back (busy_builder AVAILABLE))))
     = "FALLBACK".
Proof.
  split; [reflexivity|].
  apply (exchange_name_is_never_set_back
           [On_channel_open 5%nat;
            On_connection_closed 0%nat 320 "CONNECTION_FORCED - broker forced";
            On_reconnect Ioloop_runs;
            On_connection_open 6%nat;
            On_channel_open 7%nat]
           (fallen_back (busy_builder AVAILABLE))).
  reflexivity.
Defined.

(** X9. Through any series of callbacks the builder keeps what it read at
    construction (maximum of tries, seconds to wait, fallback name), the
    node manager keeps its list of nodes, and no host that was tried is
    dropped from the set that the fatal error reports. *)
Theorem settings_and_tried_hosts_are_kept (cbs : list Callback) (b : ConnectionBuilder) :
  __max_reconnection_tries (after_callbacks cbs b) = __max_reconnection_tries b
  /\ __wait_seconds_before_reconnect (after_callbacks cbs b)
     = __wait_seconds_before_reconnect b
  /\ __fallback_exchange_name (after_callbacks cbs b) = __fallback_exchange_name b
  /\ NodeManager.nodes (__node_manager (after_callbacks cbs b))
     = NodeManager.nodes (__node_manager b)
  /\ __all_hosts_that_were_tried b ⊆ __all_hosts_that_were_tried (after_callbacks cbs b).
Proof.
  destruct (kept_after_callbacks cbs b) as (F & M & W & N & T & _).
  repeat split; assumption.
Qed.

(** *** After a close *)

(** X10. Whatever the reason, and whether it returns or raises,
    [on_connection_closed] leaves the builder without a channel, and never
    in a state in which messages would be published: the state is
    [PERMANENTLY_UNAVAILABLE], [WAITING_TO_BE_AVAILABLE], or the
    [FORCE_FINISHED] it was in before. *)
Theorem connection_closed_leaves_no_channel
    (b : ConnectionBuilder) (connection : Connection) (reply_code : Z) (reply_text : string) :
  RabbitThread._channel
    (thread (after (on_connection_closed connection reply_code reply_text b))) = None
  /\ (state_of (after (on_connection_closed connection reply_code reply_text b))
      = PERMANENTLY_UNAVAILABLE
      \/ state_of (after (on_connection_closed connection reply_code reply_text b))
         = WAITING_TO_BE_AVAILABLE
      \/ (state_of (after (on_connection_closed connection reply_code reply_text b))
          = FORCE_FINISHED
          /\ state_of b = FORCE_FINISHED)).
Proof.
  rewrite on_connection_closed_after.
  destruct (_ || _).
  - split; [reflexivity|]. rewrite permanently_closed_state.
    destruct (state_of b) eqn:Hs; cbn; auto.
  - set (b1 := with_thread (RabbitThread.with_channel None) b).
    assert (Hw : forall b2,
                   StateMachine.is_FORCE_FINISHED (statemachine b2) = false ->
                   state_of
                     (with_statemachine StateMachine.set_to_waiting_to_be_available b2)
                   = PERMANENTLY_UNAVAILABLE
                   \/ state_of
                        (with_statemachine StateMachine.set_to_waiting_to_be_available b2)
                      = WAITING_TO_BE_AVAILABLE).
    { intros b2 H2. rewrite (waiting_state b2 H2). destruct (state_of b2); auto. }
    destruct (on_connection_error_cases b1 connection reply_text)
      as [(HF & E) | [(HF & _ & E) | [(HF & _ & _ & E) | (HF & _ & _ & E)]]];
      rewrite E, after_of.
    + split; [reflexivity|]. right. right.
      assert (Hs : state_of b1 = FORCE_FINISHED).
      { unfold state_of. unfold StateMachine.is_FORCE_FINISHED in HF.
        destruct (StateMachine.state (statemachine b1)); congruence. }
      split; exact Hs.
    + split; [reflexivity|].
      destruct (Hw (with_node_manager NodeManager.set_next_host b1) HF) as [H|H];
        rewrite H; auto.
    + split; [reflexivity|].
      destruct (Hw (with_node_manager NodeManager.reset_nodes
                      (with_reconnect_counter (__reconnect_counter b1 + 1) b1)) HF)
        as [H|H]; rewrite H; auto.
    + split; [reflexivity | left; exact (given_up_state b1 HF)].
Qed.

Lemma milestones_use_different_exchange b :
  milestones (effects (__use_different_exchange_and_reopen_channel b)) = [].
Proof.
  destruct (RabbitThread._connection (thread b)) as [c|] eqn:Hc.
  - rewrite (use_different_exchange_and_reopen_channel_run b c Hc), effects_of.
    cbn [milestones]. rewrite milestones_app, milestones_rescue_calls. reflexivity.
  - unfold __use_different_exchange_and_reopen_channel.
    unfold set_to_waiting_to_be_available at 1. rewrite bind_modify, bind_get.
    rewrite bind_emit, effects_of. rewrite bind_modify.
    set (b1 := with_thread _ _).
    rewrite (bind_ok _ _ _ _ _ _ (prepare_channel_reopen_run _ b1)), effects_of. cbv beta.
    unfold set_to_waiting_to_be_available. rewrite bind_modify.
    unfold __please_open_rabbit_channel.
    assert (Hn : RabbitThread._connection
                   (thread (with_statemachine StateMachine.set_to_waiting_to_be_available
                              (with_thread rescue b1))) = None).
    { cbn -[rescue]. rewrite rescue_connection. exact Hc. }
    rewrite (bind_raised _ _ _ _ _ _ (the_connection_none _ Hn)), effects_of.
    cbn [milestones]. rewrite milestones_app, milestones_rescue_calls. reflexivity.
Qed.

Lemma milestones_close_connection b :
  milestones (effects ((c <- the_connection ;; emit (Connection_close c)) b)) = [].
Proof.
  destruct (RabbitThread._connection (thread b)) as [c|] eqn:Hc.
  - rewrite (bind_ok _ _ _ _ _ _ (the_connection_run _ _ Hc)). reflexivity.
  - rewrite (bind_raised _ _ _ _ _ _ (the_connection_none _ Hc)). reflexivity.
Qed.

(** X11. [on_channel_closed] changes the builder in one case only: the
    state is not [PERMANENTLY_UNAVAILABLE], the code is 404 and the text
    does not name the fallback exchange; then it leaves the builder fallen
    back.  In every other case, any code but 404 in particular, the builder
    is exactly as before.  In no case does it open a connection or arm a
    timer. *)
Theorem channel_closed_changes_the_builder_only_for_a_missing_exchange
    (b : ConnectionBuilder) (channel : Channel) (reply_code : Z) (reply_text : string) :
  after (on_channel_closed channel reply_code reply_text b)
    = (if negb (StateMachine.is_PERMANENTLY_UNAVAILABLE (statemachine b))
          && (reply_code =? 404)%Z
          && negb (contains "NOT_FOUND - no exchange 'FALLBACK'" reply_text)
       then fallen_back b
       else b)
  /\ (reply_code <> 404 -> after (on_channel_closed channel reply_code reply_text b) = b)
  /\ milestones (effects (on_channel_closed channel reply_code reply_text b)) = [].
Proof.
  assert (A : after (on_channel_closed channel reply_code reply_text b)
    = (if negb (StateMachine.is_PERMANENTLY_UNAVAILABLE (statemachine b))
          && (reply_code =? 404)%Z
          && negb (contains "NOT_FOUND - no exchange 'FALLBACK'" reply_text)
       then fallen_back b
       else b)).
  { unfold on_channel_closed. rewrite bind_get.
    destruct (StateMachine.is_PERMANENTLY_UNAVAILABLE (statemachine b)); [reflexivity|].
    destruct (reply_code =? 404)%Z.
    - destruct (contains _ reply_text); cbn [andb negb].
      + apply the_connection_after. reflexivity.
      + apply use_different_exchange_and_reopen_channel_after.
    - cbn [andb negb]. apply the_connection_after. reflexivity. }
  split; [exact A|]. split.
  - intros Hne. rewrite A. apply Z.eqb_neq in Hne. rewrite Hne.
    rewrite andb_false_r. reflexivity.
  - unfold on_channel_closed. rewrite bind_get.
    destruct (StateMachine.is_PERMANENTLY_UNAVAILABLE (statemachine b)); [reflexivity|].
    destruct (reply_code =? 404)%Z.
    + destruct (contains _ reply_text); cbn [andb].
      * apply milestones_close_connection.
      * apply milestones_use_different_exchange.
    + cbn [andb]. apply milestones_close_connection.
Qed.

(** *** Rescue and reconnection *)

Lemma rescue_unconfirmed th : RabbitThread.unconfirmed (rescue th) = [].
Proof. reflexivity. Qed.

Lemma rescue_rescue th : rescue (rescue th) = rescue th.
Proof.
  unfold rescue at 1.
  unfold RabbitThread.get_unconfirmed_messages_as_list_copy_during_lifetime.
  cbn [RabbitThread.unconfirmed RabbitThread.reset_delivery_number map length Nat.ltb Nat.leb].
  unfold rescue. cbn -[Nat.ltb]. destruct (0 <? _)%nat; reflexivity.
Qed.

(** X12. Tearing down twice is harmless: a second
    [__prepare_channel_reopen] right after the first finds nothing
    unconfirmed, calls [send_many_messages] not at all and leaves the
    builder as the first one left it, so no message is queued a second
    time; and the number of messages the thread holds, pending or
    unconfirmed, is the same before and after a rescue. *)
Theorem rescue_twice_is_rescue_once (op1 op2 : string) (b : ConnectionBuilder) :
  __prepare_channel_reopen op2 (after (__prepare_channel_reopen op1 b))
    = ([Thread_reset_delivery_number;
        Thread_get_unconfirmed_messages_as_list_copy_during_lifetime;
        Thread_reset_unconfirmed_messages_and_delivery_tags],
       after (__prepare_channel_reopen op1 b), inr tt)
  /\ (length (RabbitThread.unpublished (thread (after (__prepare_channel_reopen op1 b))))
      + length (RabbitThread.unconfirmed (thread (after (__prepare_channel_reopen op1 b))))
      = length (RabbitThread.unpublished (thread b))
        + length (RabbitThread.unconfirmed (thread b)))%nat.
Proof.
  rewrite (prepare_channel_reopen_run op1 b), after_of.
  rewrite (prepare_channel_reopen_run op2 (with_thread rescue b)).
  split.
  - assert (Hb : with_thread rescue (with_thread rescue b) = with_thread rescue b).
    { change (with_thread rescue (with_thread rescue b))
        with (with_thread (fun th => rescue (rescue th)) b).
      unfold with_thread. rewrite rescue_rescue. reflexivity. }
    rewrite Hb. reflexivity.
  - change (thread (with_thread rescue b)) with (rescue (thread b)).
    rewrite rescue_unpublished, rescue_unconfirmed, length_app, length_map.
    cbn [length]. lia.
Qed.

(** X13. [reconnect] first rescues, whatever comes after: the unconfirmed
    messages are back in the pending queue, nothing is unconfirmed and the
    delivery number is the initial one also when the loop of the new
    connection raises.  With a connection object it then stops the loop of
    the old connection, opens one connection to the current host and starts
    the loop of the new one; without one it raises [AttributeError] after
    the rescue and opens nothing. *)
Theorem reconnect_rescues_first (run : IoloopRun) (b : ConnectionBuilder) :
  match RabbitThread._connection (thread b) with
  | Some c =>
      (exists es,
         effects (reconnect run b)
         = rescue_calls (thread b)
           ++ [Ioloop_stop c;
               SelectConnection (NodeManager.get_connection_parameters (__node_manager b))
                 (objects_created b);
               Thread_tell_publisher_to_stop_waiting_for_thread_to_accept_events;
               Thread_continue_gently_closing_if_applicable;
               Ioloop_start (objects_created b)]
           ++ es
         /\ connection_attempts es = 0%nat)
      /\ RabbitThread._connection (thread (after (reconnect run b)))
         = Some (objects_created b)
  | None =>
      reconnect run b
      = (rescue_calls (thread b), with_thread rescue b,
         inl (AttributeError "'NoneType' object"))
      /\ connection_attempts (effects (reconnect run b)) = 0%nat
  end
  /\ RabbitThread.unpublished (thread (after (reconnect run b)))
     = map snd (RabbitThread.unconfirmed (thread b)) ++ RabbitThread.unpublished (thread b)
  /\ RabbitThread.unconfirmed (thread (after (reconnect run b))) = []
  /\ RabbitThread.delivery_number (thread (after (reconnect run b)))
     = RabbitThread.initial_delivery_number.
Proof.
  assert (Hd : RabbitThread.delivery_number (rescue (thread b))
               = RabbitThread.initial_delivery_number).
  { unfold rescue. cbn -[Nat.ltb]. destruct (0 <? _)%nat; reflexivity. }
  destruct (RabbitThread._connection (thread b)) as [c|] eqn:Hc.
  - rewrite (reconnect_with_connection run b c Hc), effects_of, after_of.
    destruct (first_connection_effects run (with_thread rescue b)) as (es & He & Ha).
    destruct (first_connection_frame run (with_thread rescue b)) as (Hth & _).
    rewrite Hth.
    split; [split; [|reflexivity]|].
    + exists es. split; [|exact Ha]. rewrite He. reflexivity.
    + cbn -[rescue]. rewrite rescue_unpublished. repeat split. exact Hd.
  - rewrite (reconnect_without_connection run b Hc), effects_of, after_of.
    split; [split; [reflexivity | apply connection_attempts_rescue_calls]|].
    cbn -[rescue]. rewrite rescue_unpublished. repeat split. exact Hd.
Qed.

Lemma connecting_state b :
  state_of (connecting b)
    = if StateMachine.terminal (state_of b) then state_of b else WAITING_TO_BE_AVAILABLE.
Proof. exact (state_set_state WAITING_TO_BE_AVAILABLE (statemachine b)). Qed.

(** X14. The chain of a successful connection: [first_connection], then
    pika's [on_connection_open], then [on_channel_open].  At its end the
    state is [AVAILABLE], unless the builder was in a terminal state, which
    it then still is; the reconnect counter is zero, the thread holds the new
    connection and the channel, and the queues and the exchange name are as
    they were. *)
Theorem connect_chain_ends_available
    (b : ConnectionBuilder) (unused_connection : Connection) (channel : Channel) :
  let b' := after_callbacks [On_first_connection Ioloop_runs;
                             On_connection_open unused_connection;
                             On_channel_open channel] b in
  state_of b' = (if StateMachine.terminal (state_of b) then state_of b else AVAILABLE)
  /\ __reconnect_counter b' = 0
  /\ RabbitThread._connection (thread b') = Some (objects_created b)
  /\ RabbitThread._channel (thread b') = Some channel
  /\ RabbitThread.unpublished (thread b') = RabbitThread.unpublished (thread b)
  /\ RabbitThread.unconfirmed (thread b') = RabbitThread.unconfirmed (thread b)
  /\ RabbitThread.exchange_name (thread b') = RabbitThread.exchange_name (thread b).
Proof.
  intros b'. unfold b', after_callbacks. cbn [fold_left handle].
  rewrite first_connection_runs, after_of.
  rewrite on_connection_open_builder.
  rewrite on_channel_open_head, after_of.
  rewrite (make_ready_for_publishing_closed (channel_opened channel (connecting b))
             channel (objects_created b) eq_refl eq_refl).
  assert (Hst : state_of (channel_opened channel (connecting b))
                = if StateMachine.terminal (state_of b) then state_of b
                  else WAITING_TO_BE_AVAILABLE) by apply connecting_state.
  destruct (state_of b) eqn:Hb; cbn [StateMachine.terminal] in *; cbv iota in *;
    rewrite Hst; cbv iota; rewrite after_of;
    (split; [|repeat split]);
    try exact Hst.
  all: change StateMachine.set_to_available with (StateMachine.set_state AVAILABLE);
    rewrite state_of_set_state, Hst; reflexivity.
Qed.

(** *** The hosts in the fatal error *)

Lemma every_attempt_fails_tried fuel : forall b,
  __all_hosts_that_were_tried b
    ⊆ __all_hosts_that_were_tried (after (every_attempt_fails fuel b))
  /\ forall h, In (Attempt h) (milestones (effects (every_attempt_fails fuel b))) ->
               h ∈ __all_hosts_that_were_tried (after (every_attempt_fails fuel b)).
Proof.
  induction fuel as [|fuel IH]; intros b.
  { split; [reflexivity | intros h []]. }
  cbn [every_attempt_fails].
  destruct (RabbitThread._connection (thread b)) as [c|] eqn:Hc;
    [|split; [reflexivity | intros h []]].
  destruct (on_connection_error_cases b c "Connection refused")
    as [(_ & E) | [(_ & _ & E) | [(_ & _ & _ & E) | (_ & _ & _ & E)]]]; rewrite E.
  - split; [reflexivity | intros h []].
  - cbn [armed_timeout].
    set (b1 := with_statemachine _ (with_node_manager _ b)).
    rewrite (reconnect_runs b1 c Hc).
    set (b2 := connecting (with_thread rescue b1)).
    destruct (IH b2) as (Hsub & Hin).
    destruct (every_attempt_fails fuel b2) as [[es b3] st].
    rewrite effects_of, after_of in *.
    assert (Hh : NodeManager.host (NodeManager.get_connection_parameters (__node_manager b1))
                 ∈ __all_hosts_that_were_tried b3).
    { apply Hsub. unfold b2. cbn. apply elem_of_union_l, elem_of_singleton. reflexivity. }
    split.
    + etrans; [|exact Hsub]. unfold b2. cbn. apply union_subseteq_r.
    + intros h. rewrite !milestones_app, milestones_rescue_calls.
      cbn [milestones app]. intros [H|[H|H]].
      * discriminate H.
      * injection H as <-. exact Hh.
      * apply Hin. exact H.
  - cbn [armed_timeout].
    set (b1 := with_statemachine _ (with_node_manager _ _)).
    rewrite (reconnect_runs b1 c Hc).
    set (b2 := connecting (with_thread rescue b1)).
    destruct (IH b2) as (Hsub & Hin).
    destruct (every_attempt_fails fuel b2) as [[es b3] st].
    rewrite effects_of, after_of in *.
    assert (Hh : NodeManager.host (NodeManager.get_connection_parameters (__node_manager b1))
                 ∈ __all_hosts_that_were_tried b3).
    { apply Hsub. unfold b2. cbn. apply elem_of_union_l, elem_of_singleton. reflexivity. }
    split.
    + etrans; [|exact Hsub]. unfold b2. cbn. apply union_subseteq_r.
    + intros h. rewrite !milestones_app, milestones_rescue_calls.
      cbn [milestones app]. intros [H|[H|H]].
      * discriminate H.
      * injection H as <-. exact Hh.
      * apply Hin. exact H.
  - split; [reflexivity | intros h []].
Qed.

Lemma attempt_in_rest_of_cycle e untried :
  In e untried -> In (Attempt (NodeManager.host e)) (rest_of_cycle untried).
Proof.
  induction untried as [|x l IH]; intros H; [destruct H|].
  cbn [rest_of_cycle]. right. destruct H as [<-|H]; [left; reflexivity | right; apply IH, H].
Qed.

(** X15. If no force-finish was given and every attempt fails from the
    first connection on, the fatal error names every configured host: each
    host of the node manager is in the set of hosts that
    [PIDServerException] reports, also when the maximum of tries is zero or
    negative, in which case each host has been tried exactly once. *)
Theorem fatal_error_names_every_host (fuel : nat) (b : ConnectionBuilder) :
  state_of b <> FORCE_FINISHED ->
  (length (NodeManager.nodes (__node_manager b))
   * S (Z.to_nat (__max_reconnection_tries b)) <= fuel)%nat ->
  NodeManager.cursor (__node_manager b) = 0%nat ->
  __reconnect_counter b = 0 ->
  outcome (session fuel b)
    = Fatal (PIDServerException
               (Gave_up_after_tries (__all_hosts_that_were_tried (after (session fuel b)))
                                    (__max_reconnection_tries b)))
  /\ (forall e, In e (NodeManager.nodes (__node_manager b)) ->
                NodeManager.host e ∈ __all_hosts_that_were_tried (after (session fuel b)))
  /\ (__max_reconnection_tries b <= 0 ->
      connection_attempts (effects (session fuel b))
      = length (NodeManager.nodes (__node_manager b))).
Proof.
  intros Hlive Hfuel Hcur Hcnt.
  destruct (session_of_a_new_builder fuel b Hlive Hfuel Hcur Hcnt)
    as (Hms & Hat & Hout & _).
  split; [exact Hout|]. split.
  - intros e He.
    assert (Hin : In (Attempt (NodeManager.host e)) (milestones (effects (session fuel b)))).
    { rewrite Hms. destruct He as [<-|He]; [left; reflexivity|].
      right. apply in_or_app. left. apply attempt_in_rest_of_cycle, He. }
    clear Hms Hat Hout. revert Hin. unfold session. rewrite first_connection_runs.
    destruct (every_attempt_fails_tried fuel (connecting b)) as (Hsub & Hin').
    destruct (every_attempt_fails fuel (connecting b)) as [[es b2] st].
    rewrite effects_of, after_of in *.
    rewrite milestones_app. cbn [milestones app]. intros [H|H].
    + injection H as H. rewrite <- H. apply Hsub. cbn.
      apply elem_of_union_l, elem_of_singleton. reflexivity.
    + apply Hin', H.
  - intros Hle. rewrite Hat.
    replace (Z.to_nat (__max_reconnection_tries b)) with 0%nat by lia. lia.
Qed.

Lemma fatal_error_names_every_host_witness :
  state_of (builder_of three_hosts 0 5) <> FORCE_FINISHED
  /\ NodeManager.cursor (__node_manager (builder_of three_hosts 0 5)) = 0%nat
  /\ connection_attempts (effects (session 5 (builder_of three_hosts 0 5))) = 3%nat.
Proof.
  split; [discriminate|]. split; [reflexivity|].
  destruct (fatal_error_names_every_host 5 (builder_of three_hosts 0 5))
    as (_ & _ & H).
  - discriminate.
  - vm_compute. lia.
  - reflexivity.
  - reflexivity.
  - apply H. reflexivity.
Defined.

(** X16. A channel that opens while the thread holds no connection object
    makes the builder [PERMANENTLY_UNAVAILABLE], unless a force-finish was
    given, which stays: the three callbacks are still registered, no publish
    event is added, and the shutter is asked to finish only if the state is
    then [PERMANENTLY_UNAVAILABLE] and the publisher had closed. *)
Theorem channel_open_without_connection_is_permanent
    (b : ConnectionBuilder) (channel : Channel) :
  RabbitThread._connection (thread b) = None ->
  on_channel_open channel b
    = ([Channel_add_on_close_callback channel;
        Channel_add_on_return_callback channel;
        Channel_confirm_delivery channel]
       ++ (if StateMachine.is_FORCE_FINISHED (statemachine b) then []
           else if StateMachine.get_detail_closed_by_publisher (statemachine b)
           then [Shutter_safety_finish "closed before connection was ready. reclosing."]
           else []),
       with_statemachine StateMachine.set_to_permanently_unavailable
         (channel_opened channel b),
       inr tt)
  /\ state_of (after (on_channel_open channel b))
     = match state_of b with
       | FORCE_FINISHED => FORCE_FINISHED
       | _ => PERMANENTLY_UNAVAILABLE
       end
  /\ publish_events (effects (on_channel_open channel b)) = 0%nat.
Proof.
  intros Hc.
  set (b1 := with_statemachine StateMachine.set_to_permanently_unavailable
               (channel_opened channel b)).
  assert (Hst : state_of b1
                = match state_of b with
                  | FORCE_FINISHED => FORCE_FINISHED
                  | _ => PERMANENTLY_UNAVAILABLE
                  end).
  { unfold b1.
    change StateMachine.set_to_permanently_unavailable
      with (StateMachine.set_state PERMANENTLY_UNAVAILABLE).
    rewrite state_of_set_state.
    change (state_of (channel_opened channel b)) with (state_of b).
    destruct (state_of b); reflexivity. }
  assert (Hcl : StateMachine.get_detail_closed_by_publisher (statemachine b1)
                = StateMachine.get_detail_closed_by_publisher (statemachine b))
    by exact (proj1 (set_state_details PERMANENTLY_UNAVAILABLE (statemachine b))).
  assert (E : on_channel_open channel b
    = ([Channel_add_on_close_callback channel;
        Channel_add_on_return_callback channel;
        Channel_confirm_delivery channel]
       ++ (if StateMachine.is_FORCE_FINISHED (statemachine b) then []
           else if StateMachine.get_detail_closed_by_publisher (statemachine b)
           then [Shutter_safety_finish "closed before connection was ready. reclosing."]
           else []),
       b1, inr tt)).
  { rewrite on_channel_open_head.
    assert (R : __make_ready_for_publishing (channel_opened channel b)
                = (if StateMachine.is_FORCE_FINISHED (statemachine b) then []
                   else if StateMachine.get_detail_closed_by_publisher (statemachine b)
                   then [Shutter_safety_finish
                           "closed before connection was ready. reclosing."]
                   else [],
                   b1, inr tt)).
    { unfold __make_ready_for_publishing. rewrite bind_get.
      change (RabbitThread._channel (thread (channel_opened channel b))) with (Some channel).
      change (RabbitThread._connection (thread (channel_opened channel b)))
        with (RabbitThread._connection (thread b)).
      rewrite Hc. unfold when, is_None.
      unfold bind at 1, ret at 1.
      unfold set_to_permanently_unavailable. rewrite bind_modify, bind_get.
      fold b1. rewrite Hcl.
      unfold StateMachine.is_WAITING_TO_BE_AVAILABLE,
        StateMachine.is_AVAILABLE_BUT_WANTS_TO_STOP,
        StateMachine.is_PERMANENTLY_UNAVAILABLE, StateMachine.is_FORCE_FINISHED.
      change (StateMachine.state (statemachine b1)) with (state_of b1).
      change (StateMachine.state (statemachine b)) with (state_of b).
      rewrite Hst.
      destruct (state_of b); cbv iota;
        destruct (StateMachine.get_detail_closed_by_publisher (statemachine b));
        reflexivity. }
    rewrite R. reflexivity. }
  rewrite E, effects_of, after_of.
  split; [reflexivity|]. split; [exact Hst|].
  destruct (StateMachine.is_FORCE_FINISHED (statemachine b)); [reflexivity|].
  destruct (StateMachine.get_detail_closed_by_publisher (statemachine b)); reflexivity.
Qed.

Lemma channel_open_without_connection_is_permanent_witness :
  RabbitThread._connection
    (thread (with_thread (RabbitThread.with_connection None)
               (busy_builder WAITING_TO_BE_AVAILABLE))) = None
  /\ state_of (after (on_channel_open 4%nat
                        (with_thread (RabbitThread.with_connection None)
                           (busy_builder WAITING_TO_BE_AVAILABLE))))
     = PERMANENTLY_UNAVAILABLE.
Proof.
  split; [reflexivity|].
  apply (channel_open_without_connection_is_permanent
           (with_thread (RabbitThread.with_connection None)
              (busy_builder WAITING_TO_BE_AVAILABLE)) 4%nat).
  reflexivity.
Defined.

(** *** The reason of a close *)

Lemma prefix_spec a : forall t,
  String.prefix a t = true <-> exists post, t = a +:+ post.
Proof.
  induction a as [|x a IH]; intros t.
  - split; [intros _; exists t; reflexivity | intros _; destruct t; reflexivity].
  - destruct t as [|y t]; cbn [String.prefix String.append].
    + split; [discriminate | intros [post H]; discriminate H].
    + destruct (Ascii.ascii_dec x y) as [->|Hne].
      * rewrite IH. split; intros [post H]; exists post.
        -- rewrite H. reflexivity.
        -- injection H as H. exact H.
      * split; [discriminate|]. intros [post H]. injection H as H _.
        exfalso. apply Hne. symmetry. exact H.
Qed.

Lemma contains_spec needle : forall text,
  contains needle text = true <-> exists pre post, text = pre +:+ needle +:+ post.
Proof.
  induction text as [|y text IH]; cbn [contains].
  - rewrite orb_false_r, prefix_spec. split.
    + intros [post H]. exists "", post. exact H.
    + intros [pre [post H]]. destruct pre as [|p pre]; [exists post; exact H|].
      discriminate H.
  - rewrite orb_true_iff, prefix_spec, IH. split.
    + intros [[post H] | [pre [post H]]].
      * exists "", post. exact H.
      * exists (String y pre), post. cbn [String.append]. rewrite H. reflexivity.
    + intros [pre [post H]]. destruct pre as [|p pre].
      * left. exists post. exact H.
      * right. cbn [String.append] in H. injection H as _ H. exists pre, post. exact H.
Qed.

(** X17. A close counts as a permanent error exactly when the marker text
    of the thread occurs somewhere in the reply text, whatever the reply
    code; it counts as a shutdown of the user exactly when the reply code is
    the user's code and the text of a forced or of a normal shutdown occurs
    in the reply text, so never for another code, whatever the text. *)
Theorem close_reasons_are_told_by_substring
    (th : RabbitThread.t) (reply_code : Z) (reply_text : string) :
  (__was_permanent_error th reply_code reply_text = true
   <-> exists pre post,
         reply_text = pre +:+ RabbitThread.ERROR_TEXT_CONNECTION_PERMANENT_ERROR th +:+ post)
  /\ (__was_user_shutdown th reply_code reply_text = true
      <-> reply_code = RabbitThread.ERROR_CODE_CONNECTION_CLOSED_BY_USER th
          /\ ((exists pre post,
                 reply_text
                 = pre +:+ RabbitThread.ERROR_TEXT_CONNECTION_FORCE_CLOSED th +:+ post)
              \/ (exists pre post,
                    reply_text
                    = pre +:+ RabbitThread.ERROR_TEXT_CONNECTION_NORMAL_SHUTDOWN th +:+ post)))
  /\ (reply_code <> RabbitThread.ERROR_CODE_CONNECTION_CLOSED_BY_USER th ->
      __was_user_shutdown th reply_code reply_text = false).
Proof.
  assert (U : __was_user_shutdown th reply_code reply_text
              = (reply_code =? RabbitThread.ERROR_CODE_CONNECTION_CLOSED_BY_USER th)%Z
                && (contains (RabbitThread.ERROR_TEXT_CONNECTION_FORCE_CLOSED th) reply_text
                    || contains (RabbitThread.ERROR_TEXT_CONNECTION_NORMAL_SHUTDOWN th)
                         reply_text)).
  { unfold __was_user_shutdown, __was_forced_user_shutdown, __was_gentle_user_shutdown.
    destruct (reply_code =? _)%Z; cbn [andb]; [|reflexivity].
    destruct (contains _ reply_text); [reflexivity|].
    destruct (contains _ reply_text); reflexivity. }
  split; [|split].
  - rewrite <- contains_spec. unfold __was_permanent_error.
    destruct (contains (RabbitThread.ERROR_TEXT_CONNECTION_PERMANENT_ERROR th) reply_text);
      reflexivity.
  - rewrite U, andb_true_iff, orb_true_iff, Z.eqb_eq, !contains_spec. reflexivity.
  - intros Hne. rewrite U. apply Z.eqb_neq in Hne. rewrite Hne. reflexivity.
Qed.

(** *** The constructor *)

(** X18. Whatever module of defaults [__init__] is given: it returns an
    object exactly when the module binds the three names it reads, to
    whatever values; the object then holds these values as they are, and
    the objects passed in, its reconnect counter is zero and no host counts
    as tried.  Otherwise the [AttributeError] names the first of the three
    names, in the order of the assignments, that the module lacks. *)
Theorem init_builds_from_the_three_names
    (d : gmap string Defaults.PyVal)
    (th : RabbitThread.t) (sm : StateMachine.t) (c r s : nat) (nm : NodeManager.t) :
  (forall o,
     __init__ d th sm c r s nm = inr o ->
     d !! "RABBIT_RECONNECTION_MAX_TRIES" = Some (Constructed.__max_reconnection_tries o)
     /\ d !! "RABBIT_RECONNECTION_SECONDS"
        = Some (Constructed.__wait_seconds_before_reconnect o)
     /\ d !! "RABBIT_FALLBACK_EXCHANGE_NAME" = Some (Constructed.__fallback_exchange_name o)
     /\ Constructed.thread o = th /\ Constructed.statemachine o = sm
     /\ Constructed.__node_manager o = nm
     /\ Constructed.__reconnect_counter o = 0
     /\ Constructed.__all_hosts_that_were_tried o = ∅)
  /\ (forall max_tries seconds fallback,
        d !! "RABBIT_RECONNECTION_MAX_TRIES" = Some max_tries ->
        d !! "RABBIT_RECONNECTION_SECONDS" = Some seconds ->
        d !! "RABBIT_FALLBACK_EXCHANGE_NAME" = Some fallback ->
        exists o, __init__ d th sm c r s nm = inr o)
  /\ (d !! "RABBIT_RECONNECTION_MAX_TRIES" = None ->
      __init__ d th sm c r s nm = inl (AttributeError "RABBIT_RECONNECTION_MAX_TRIES"))
  /\ (d !! "RABBIT_RECONNECTION_MAX_TRIES" <> None ->
      d !! "RABBIT_RECONNECTION_SECONDS" = None ->
      __init__ d th sm c r s nm = inl (AttributeError "RABBIT_RECONNECTION_SECONDS"))
  /\ (d !! "RABBIT_RECONNECTION_MAX_TRIES" <> None ->
      d !! "RABBIT_RECONNECTION_SECONDS" <> None ->
      d !! "RABBIT_FALLBACK_EXCHANGE_NAME" = None ->
      __init__ d th sm c r s nm = inl (AttributeError "RABBIT_FALLBACK_EXCHANGE_NAME")).
Proof.
  unfold __init__, getattr, and_then.
  destruct (d !! "RABBIT_RECONNECTION_MAX_TRIES") as [m|];
    destruct (d !! "RABBIT_RECONNECTION_SECONDS") as [w|];
    destruct (d !! "RABBIT_FALLBACK_EXCHANGE_NAME") as [f|].
  all: split; [intros o H; try discriminate H; injection H as <-; repeat split|].
  all: split; [intros ? ? ? H1 H2 H3; try discriminate; eexists; reflexivity|].
  all: split; [intros H; try discriminate H; reflexivity|].
  all: split; [intros H1 H2; try discriminate H2; try reflexivity; contradiction|].
  all: intros H1 H2 H3; try discriminate H3; try reflexivity; contradiction.
Qed.

Lemma init_builds_from_the_three_names_witness :
  exists o,
    __init__ (<["RABBIT_RECONNECTION_SECONDS" := Defaults.PyFloat 1 2]>
                (<["RABBIT_RECONNECTION_MAX_TRIES" := Defaults.PyInt 60]> Defaults.defaults))
      idle_thread fresh_statemachine 1%nat 2%nat 3%nat three_hosts = inr o.
Proof.
  destruct (init_builds_from_the_three_names
              (<["RABBIT_RECONNECTION_SECONDS" := Defaults.PyFloat 1 2]>
                 (<["RABBIT_RECONNECTION_MAX_TRIES" := Defaults.PyInt 60]> Defaults.defaults))
              idle_thread fresh_statemachine 1%nat 2%nat 3%nat three_hosts)
    as (_ & H & _).
  apply (H (Defaults.PyInt 60) (Defaults.PyFloat 1 2) (Defaults.PyStr "FALLBACK"));
    vm_compute; reflexivity.
Defined.
